(** * vsrepo: a shallow embedding of the package reconciliation engine

    The program is a single Python script that keeps two process-wide
    dictionaries ([installed_packages], [download_cache]), reads and
    writes files below two install directories, downloads payloads and
    calls an external archive tool.  It is embedded here as state-passing
    code over an explicit [State], with Python exceptions as an error
    outcome that keeps the state reached when the exception was raised. *)

From Stdlib Require Import ZArith Ascii Strings.Byte DecimalString.
From Stdlib Require String.
From stdpp Require Import base option list gmap fin_maps strings.

Open Scope stdpp_scope.
Open Scope nat_scope.

Abbreviation bytes := (list byte).

(** ** Catalog model (the decoded [vspackages.json]) *)

(** [v[bin_name]]: the payload of a release for one target.  [hash] is a
    JSON object iterated in key order, so it is kept as an ordered list of
    (stripped file name, hex digest) pairs. *)
Record Binary := {
  url : string;
  files : list string;
  hash : list (string * string)
}.

(** One entry of [p['releases']]; the keys ['script'], ['win32'] and
    ['win64'] are optional. *)
Record Release := {
  version : string;
  script : option Binary;
  win32 : option Binary;
  win64 : option Binary
}.

(** One entry of [package_list]; ['namespace'], ['modulename'] and
    ['dependencies'] are optional keys. *)
Record Package := {
  identifier : string;
  name : string;
  type : string;
  namespace : option string;
  modulename : option string;
  dependencies : option (list string);
  releases : list Release
}.

(** ** The process-wide context fixed at start-up *)

Record Config := {
  target : string;                       (* args.target *)
  py_script_path : string;
  plugin_path : string;
  package_list : option (list Package)   (* None when vspackages.json failed to load *)
}.

(** The libraries and the outside world the script talks to. *)
Record Env := {
  sha1_hexdigest : bytes -> string;      (* hashlib.sha1(data).hexdigest() *)
  sha256_hexdigest : bytes -> string;    (* hashlib.sha256(data).hexdigest() *)
  casefold : string -> string;           (* str.casefold *)
  path_join : string -> string -> string;(* os.path.join *)
  urlopen : string -> option bytes;      (* urllib.request.urlopen(url).read(); None: it raised *)
  run_7z : bytes -> string -> Z * bytes  (* 7z e -so archive member: (returncode, stdout) *)
}.

(** ** Python values used by the script *)

Inductive exn :=
| Exception (msg : string)
| KeyError (key : string)
| TypeError (msg : string)
| FileNotFoundError (path : string)
| CalledProcessError (returncode : Z)
| URLError (u : string)
| RuntimeError (msg : string)
| SystemExit (code : Z).

(** The result of running a piece of the script: a value, a raised
    exception, or the recursion budget of the model used up. *)
Inductive result (A : Type) :=
| Ok (a : A)
| Raise (e : exn)
| OutOfFuel.
Arguments Ok {A} a.
Arguments Raise {A} e.
Arguments OutOfFuel {A}.

(** An insertion-ordered [dict] with string keys: assigning to an existing
    key keeps its position, a new key goes to the end. *)
Fixpoint dict_get {V} (k : string) (d : list (string * V)) : option V :=
  match d with
  | [] => None
  | (k', v) :: d' => if String.eqb k' k then Some v else dict_get k d'
  end.

Fixpoint dict_set {V} (k : string) (v : V) (d : list (string * V)) : list (string * V) :=
  match d with
  | [] => [(k, v)]
  | (k', v') :: d' =>
      if String.eqb k' k then (k, v) :: d' else (k', v') :: dict_set k v d'
  end.

Definition dict_keys {V} (d : list (string * V)) : list string := map fst d.

Definition dict_mem {V} (k : string) (d : list (string * V)) : bool :=
  match dict_get k d with Some _ => true | None => false end.

(** ** Program state *)

Record State := {
  installed_packages : list (string * string);
  download_cache : gmap string bytes;
  fs : gmap string bytes;          (* the files, by full path *)
  stdout : list string;            (* the lines printed so far *)
  materialized : list string       (* history: identifiers whose entry install_files has set *)
}.

Definition initial_state (disk : gmap string bytes) : State :=
  {| installed_packages := []; download_cache := ∅; fs := disk;
     stdout := []; materialized := [] |}.

(** ** The state-and-exception monad *)

Definition M (A : Type) : Type := State -> result A * State.

Definition ret {A} (a : A) : M A := fun s => (Ok a, s).

Definition bind {A B} (m : M A) (k : A -> M B) : M B :=
  fun s =>
    match m s with
    | (Ok a, s') => k a s'
    | (Raise e, s') => (Raise e, s')
    | (OutOfFuel, s') => (OutOfFuel, s')
    end.

Definition raise {A} (e : exn) : M A := fun s => (Raise e, s).

Definition out_of_fuel {A} : M A := fun s => (OutOfFuel, s).

Definition lift {A} (r : result A) : M A := fun s => (r, s).

Definition gets {A} (f : State -> A) : M A := fun s => (Ok (f s), s).

Definition modify (f : State -> State) : M unit := fun s => (Ok tt, f s).

Notation "x <- m ;; k" := (bind m (fun x => k))
  (at level 100, m at next level, right associativity).
Notation "m ;;; k" := (bind m (fun _ => k))
  (at level 100, right associativity).

(** [try: ... except FileNotFoundError: ...] *)
Definition try_FileNotFoundError {A} (m : M A) (handler : M A) : M A :=
  fun s =>
    match m s with
    | (Raise (FileNotFoundError _), s') => handler s'
    | r => r
    end.

Definition print (line : string) : M unit :=
  modify (fun s =>
    {| installed_packages := installed_packages s;
       download_cache := download_cache s;
       fs := fs s;
       stdout := stdout s ++ [line];
       materialized := materialized s |}).

(** [open(path, 'rb').read()] *)
Definition read_file (path : string) : M bytes :=
  fun s =>
    match fs s !! path with
    | Some data => (Ok data, s)
    | None => (Raise (FileNotFoundError path), s)
    end.

(** [open(path, 'wb').write(data)] *)
Definition write_file (path : string) (data : bytes) : M unit :=
  modify (fun s =>
    {| installed_packages := installed_packages s;
       download_cache := download_cache s;
       fs := <[path := data]> (fs s);
       stdout := stdout s;
       materialized := materialized s |}).

(** [os.remove(path)] *)
Definition os_remove (path : string) : M unit :=
  fun s =>
    match fs s !! path with
    | Some _ =>
        (Ok tt,
         {| installed_packages := installed_packages s;
            download_cache := download_cache s;
            fs := delete path (fs s);
            stdout := stdout s;
            materialized := materialized s |})
    | None => (Raise (FileNotFoundError path), s)
    end.

(** ** String helpers of the Python runtime *)

(** [s.endswith(suffix)] *)
Definition endswith (s suffix : string) : bool :=
  let n := String.length s in
  let m := String.length suffix in
  (m <=? n) && String.eqb (String.substring (n - m) m s) suffix.

(** [filename.rsplit('/', 2)[-1]]: what follows the last ['/']. *)
Fixpoint rsplit_last (s : string) : string :=
  match s with
  | EmptyString => EmptyString
  | String c s' =>
      match String.index 0 "/" s' with
      | Some _ => rsplit_last s'
      | None => if Ascii.eqb c "/" then s' else String c s'
      end
  end.

(** [' ' * n] *)
Fixpoint spaces (n : nat) : string :=
  match n with
  | O => EmptyString
  | S n' => String " " (spaces n')
  end.

(** ['{:Ns}'.format(s)]: a string is padded on the right up to the width
    and never cut. *)
Definition ljust (width : nat) (s : string) : string :=
  s +:+ spaces (width - String.length s).

(** [package_print_string.format(a, b, c, d, e)] with
    [package_print_string = "{:25s} {:15s} {:11s} {:11s} {:s}"] *)
Definition package_print_string (a b c d e : string) : string :=
  ljust 25 a +:+ " " +:+ ljust 15 b +:+ " " +:+ ljust 11 c +:+ " "
    +:+ ljust 11 d +:+ " " +:+ e.

(** ['{}'.format(n)] for a non-negative int *)
Definition str_of_nat (n : nat) : string :=
  NilZero.string_of_uint (Nat.to_uint n).

(** The check of the command line made before anything else: the
    operations install, upgrade and uninstall take package names, and
    the comparison is an equality of two booleans. *)
Definition check_arguments (operation : string) (package : list string) : result unit :=
  if Bool.eqb
       (existsb (String.eqb operation) ["install"; "upgrade"; "uninstall"])
       (match package with [] => true | _ => false end)
  then Raise (Exception
         "Package argument required for install, upgrade and uninstall operations")
  else Ok tt.

Section Engine.

Context (env : Env) (cfg : Config).

Definition is_64bits : bool := String.eqb (target cfg) "win64".

(** ** check_hash *)

Definition check_hash (data : bytes) (ref_hash : string) : bool * string * string :=
  if String.length ref_hash =? 40 then
    let data_hash := sha1_hexdigest env data in
    (String.eqb data_hash ref_hash, data_hash, ref_hash)
  else
    let data_hash := sha256_hexdigest env data in
    (String.eqb data_hash ref_hash, data_hash, ref_hash).

(** ** Catalog lookups *)

Definition get_bin_name (p : Package) : result string :=
  if String.eqb (type p) "PyScript" then Ok "script"
  else if String.eqb (type p) "Plugin" then
    if is_64bits then Ok "win64" else Ok "win32"
  else Raise (Exception "Unknown install type").

Definition get_install_path (p : Package) : result string :=
  if String.eqb (type p) "PyScript" then Ok (py_script_path cfg)
  else if String.eqb (type p) "Plugin" then Ok (plugin_path cfg)
  else Raise (Exception "Unknown install type").

(** [v[bin_name]] when [bin_name in v]; the releases carry no other keys
    than the three targets. *)
Definition release_get (bin_name : string) (v : Release) : option Binary :=
  if String.eqb bin_name "script" then script v
  else if String.eqb bin_name "win32" then win32 v
  else if String.eqb bin_name "win64" then win64 v
  else None.

(** [for p in package_list]: iterating [None] is a TypeError. *)
Definition iter_package_list : result (list Package) :=
  match package_list cfg with
  | Some l => Ok l
  | None => Raise (TypeError "'NoneType' object is not iterable")
  end.

(** The common shape of the four [get_package_from_*] loops. *)
Definition lookup_package (test : Package -> bool) (required : bool)
    (msg : string) : result (option Package) :=
  match iter_package_list with
  | Ok l =>
      match List.find test l with
      | Some p => Ok (Some p)
      | None => if required then Raise (Exception msg) else Ok None
      end
  | Raise e => Raise e
  | OutOfFuel => OutOfFuel
  end.

Definition get_package_from_id (id : string) (required : bool) : result (option Package) :=
  lookup_package (fun p => String.eqb (identifier p) id) required
    ("No package with the identifier " +:+ id +:+ " found").

Definition get_package_from_plugin_name (nm : string) (required : bool) : result (option Package) :=
  lookup_package (fun p => String.eqb (casefold env (name p)) (casefold env nm)) required
    ("No package with the name " +:+ nm +:+ " found").

Definition get_package_from_namespace (ns : string) (required : bool) : result (option Package) :=
  lookup_package
    (fun p => match namespace p with Some n => String.eqb n ns | None => false end) required
    ("No package with the namespace " +:+ ns +:+ " found").

Definition get_package_from_modulename (mn : string) (required : bool) : result (option Package) :=
  lookup_package
    (fun p => match modulename p with Some n => String.eqb n mn | None => false end) required
    ("No package with the modulename " +:+ mn +:+ " found").

(** [if p is None: p = next(name)] *)
Definition or_else (r : result (option Package)) (next : result (option Package))
    : result (option Package) :=
  match r with
  | Ok None => next
  | _ => r
  end.

Definition get_package_from_name (nm : string) : result Package :=
  match or_else (or_else (or_else (get_package_from_id nm false)
                                  (get_package_from_namespace nm false))
                         (get_package_from_modulename nm false))
                (get_package_from_plugin_name nm false) with
  | Ok (Some p) => Ok p
  | Ok None => Raise (Exception ("Package " +:+ nm +:+ " not found"))
  | Raise e => Raise e
  | OutOfFuel => OutOfFuel
  end.

Definition get_latest_installable_release (p : Package) : result (option Release) :=
  match get_bin_name p with
  | Ok bin_name => Ok (List.find (fun rel => bool_decide (is_Some (release_get bin_name rel))) (releases p))
  | Raise e => Raise e
  | OutOfFuel => OutOfFuel
  end.

Definition can_install (p : Package) : result bool :=
  match get_latest_installable_release p with
  | Ok r => Ok (bool_decide (is_Some r))
  | Raise e => Raise e
  | OutOfFuel => OutOfFuel
  end.

(** ** The installed-state table *)

Definition is_package_installed (id : string) : M bool :=
  gets (fun s => dict_mem id (installed_packages s)).

(** [installed_packages[id]] *)
Definition installed_version (id : string) : M string :=
  fun s =>
    match dict_get id (installed_packages s) with
    | Some v => (Ok v, s)
    | None => (Raise (KeyError id), s)
    end.

(** [installed_packages[id] = v] *)
Definition set_installed (id v : string) : M unit :=
  modify (fun s =>
    {| installed_packages := dict_set id v (installed_packages s);
       download_cache := download_cache s;
       fs := fs s;
       stdout := stdout s;
       materialized := materialized s |}).

(** Python's short-circuit [a and b] on booleans. *)
Definition and_then (a : bool) (b : M bool) : M bool :=
  if a then b else ret false.

Definition is_package_upgradable (id : string) (force : bool) : M bool :=
  lastest_installable <-
    lift (match get_package_from_id id true with
          | Ok (Some p) => get_latest_installable_release p
          | Ok None => Raise (TypeError "'NoneType' object is not subscriptable")
          | Raise e => Raise e
          | OutOfFuel => OutOfFuel
          end);;
  installed <- is_package_installed id;;
  if force then
    and_then installed
      (match lastest_installable with
       | Some rel =>
           cur <- installed_version id;;
           ret (negb (String.eqb cur (version rel)))
       | None => ret false
       end)
  else
    and_then installed
      (match lastest_installable with
       | Some rel =>
           cur <- installed_version id;;
           and_then (negb (String.eqb cur "Unknown"))
             (cur' <- installed_version id;;
              ret (negb (String.eqb cur' (version rel))))
       | None => ret false
       end).

(** ** detect_installed_packages *)

(** The loop over [v[bin_name]['hash']], carrying [matched] and [exists]. *)
Fixpoint detect_files (dest_path : string) (h : list (string * string))
    (matched exists_ : bool) : M (bool * bool) :=
  match h with
  | [] => ret (matched, exists_)
  | (f, ref_hash) :: h' =>
      flags <- try_FileNotFoundError
                 (data <- read_file (path_join env dest_path f);;
                  if negb (check_hash data ref_hash).1.1
                  then ret (false, exists_)
                  else ret (matched, exists_))
                 (ret (false, false));;
      detect_files dest_path h' flags.1 flags.2
  end.

(** The loop over [p['releases']]; returning without the recursive call
    is the [break]. *)
Fixpoint detect_releases (p : Package) (dest_path : string) (rels : list Release) : M unit :=
  match rels with
  | [] => ret tt
  | v :: rels' =>
      bin_name <- lift (get_bin_name p);;
      match release_get bin_name v with
      | Some b =>
          flags <- detect_files dest_path (hash b) true true;;
          if flags.1 then set_installed (identifier p) (version v)
          else if flags.2 then
            (set_installed (identifier p) "Unknown";;;
             detect_releases p dest_path rels')
          else detect_releases p dest_path rels'
      | None => detect_releases p dest_path rels'
      end
  end.

Fixpoint detect_packages (l : list Package) : M unit :=
  match l with
  | [] => ret tt
  | p :: l' =>
      dest_path <- lift (get_install_path p);;
      detect_releases p dest_path (releases p);;;
      detect_packages l'
  end.

Definition detect_installed_packages : M unit :=
  match package_list cfg with
  | Some l => detect_packages l
  | None =>
      print "No valid package definitions found. Run update command first!";;;
      raise (SystemExit 1)
  end.

(** ** fetch_url and install_files *)

Definition fetch_url (u : string) : M bytes :=
  cached <- gets (fun s => download_cache s !! u);;
  match cached with
  | Some data => ret data
  | None =>
      print ("Fetching: " +:+ u);;;
      match urlopen env u with
      | Some data =>
          modify (fun s =>
            {| installed_packages := installed_packages s;
               download_cache := <[u := data]> (download_cache s);
               fs := fs s;
               stdout := stdout s;
               materialized := materialized s |});;;
          ret data
      | None => raise (URLError u)
      end
  end.

(** [d[k]] on a JSON object *)
Definition dict_index (k : string) (d : list (string * string)) : M string :=
  match dict_get k d with
  | Some v => ret v
  | None => raise (KeyError k)
  end.

Definition hash_mismatch (hash_result : bool * string * string) : exn :=
  Exception ("Hash mismatch got " +:+ hash_result.1.2 +:+ " but expected " +:+ hash_result.2).

(** The loop over [install_rel[bin_name]['files']] of the archive branch.
    The temporary file that hands the payload to 7z lives outside the
    install directories and is not part of [fs]; [run_7z] receives the
    payload itself. *)
Fixpoint extract_files (dest_path : string) (b : Binary) (data : bytes)
    (fl : list string) : M unit :=
  match fl with
  | [] => ret tt
  | filename :: fl' =>
      let result := run_7z env data filename in
      if negb (result.1 =? 0)%Z then raise (CalledProcessError result.1)
      else
        let stripped_fn := rsplit_last filename in
        ref_hash <- dict_index stripped_fn (hash b);;
        let hash_result := check_hash result.2 ref_hash in
        if negb hash_result.1.1 then raise (hash_mismatch hash_result)
        else
          write_file (path_join env dest_path stripped_fn) result.2;;;
          extract_files dest_path b data fl'
  end.

Definition install_files (p : Package) : M unit :=
  dest_path <- lift (get_install_path p);;
  bin_name <- lift (get_bin_name p);;
  install_rel <- lift (get_latest_installable_release p);;
  match install_rel with
  | None => raise (TypeError "'NoneType' object is not subscriptable")
  | Some install_rel =>
      match release_get bin_name install_rel with
      | None => raise (KeyError bin_name)
      | Some b =>
          data <- fetch_url (url b);;
          (if endswith (url b) ".7z" || endswith (url b) ".zip" then
             extract_files dest_path b data (files b)
           else
             match files b with
             | [filename] =>
                 let stripped_fn := rsplit_last filename in
                 ref_hash <- dict_index stripped_fn (hash b);;
                 let hash_result := check_hash data ref_hash in
                 if negb hash_result.1.1 then raise (hash_mismatch hash_result)
                 else write_file (path_join env dest_path stripped_fn) data
             | _ => raise (Exception "Unsupported compression type")
             end);;;
          modify (fun s =>
            {| installed_packages :=
                 dict_set (identifier p) (version install_rel) (installed_packages s);
               download_cache := download_cache s;
               fs := fs s;
               stdout := stdout s;
               materialized := materialized s ++ [identifier p] |});;;
          print ("Successfully installed " +:+ name p +:+ " " +:+ version install_rel)
      end
  end.

(** ** install_package *)

Definition no_binaries (p : Package) : string :=
  "No binaries available for " +:+ target cfg +:+ " in package " +:+ name p
    +:+ ", skipping installation".

(** [for dep in p['dependencies']: res = install_package(dep); inst = inst + res[0] + res[1]] *)
Fixpoint install_dependencies (install : string -> M (nat * nat))
    (deps : list string) (inst : nat) : M nat :=
  match deps with
  | [] => ret inst
  | dep :: deps' =>
      res <- install dep;;
      install_dependencies install deps' (inst + res.1 + res.2)
  end.

(** The recursion of [install_package] through the dependency graph is
    not bounded by the script; [fuel] bounds its depth here. *)
Fixpoint install_package (fuel : nat) (nm : string) : M (nat * nat) :=
  match fuel with
  | O => out_of_fuel
  | S fuel' =>
      p <- lift (get_package_from_name nm);;
      installable <- lift (can_install p);;
      if installable then
        inst <- match dependencies p with
                | Some deps => install_dependencies (install_package fuel') deps 0
                | None => ret 0
                end;;
        installed <- is_package_installed (identifier p);;
        if negb installed then
          install_files p;;;
          ret (1, inst)
        else ret (0, inst)
      else
        print (no_binaries p);;;
        ret (0, 0)
  end.

(** ** upgrade_files and upgrade_package *)

Fixpoint upgrade_dependencies (fuel : nat) (deps : list string) (inst : nat) : M nat :=
  match deps with
  | [] => ret inst
  | dep :: deps' =>
      installed <- is_package_installed dep;;
      if negb installed then
        res <- install_package fuel dep;;
        upgrade_dependencies fuel deps' (inst + res.1 + res.2)
      else upgrade_dependencies fuel deps' inst
  end.

Definition upgrade_files (fuel : nat) (p : Package) : M (nat * nat) :=
  installable <- lift (can_install p);;
  if installable then
    inst <- match dependencies p with
            | Some deps => upgrade_dependencies fuel deps 0
            | None => ret 0
            end;;
    install_files p;;;
    ret (1, inst)
  else
    print (no_binaries p);;;
    ret (0, 0).

(** [get_package_from_id(id, True)] as a statement *)
Definition require_package_from_id (id : string) : M Package :=
  lift (match get_package_from_id id true with
        | Ok (Some p) => Ok p
        | Ok None => Raise (TypeError "'NoneType' object is not subscriptable")
        | Raise e => Raise e
        | OutOfFuel => OutOfFuel
        end).

(** [for id in installed_packages.keys()]: the keys view is live.  Every
    step of the iterator first compares the size of the dict with the
    size it had when the loop began and raises RuntimeError when it has
    changed; the script only ever adds keys, so without that error the
    loop sees the keys present at its start, in order. *)
Fixpoint upgrade_all (fuel : nat) (force : bool) (size0 : nat)
    (ids : list string) (inst : nat * nat) : M (nat * nat) :=
  size <- gets (fun s => length (installed_packages s));;
  if negb (size =? size0) then
    raise (RuntimeError "dictionary changed size during iteration")
  else
    match ids with
    | [] => ret inst
    | id :: ids' =>
        upgradable <- is_package_upgradable id force;;
        if upgradable then
          p <- require_package_from_id id;;
          res <- upgrade_files fuel p;;
          upgrade_all fuel force size0 ids' (inst.1 + res.1, inst.2 + res.2)
        else upgrade_all fuel force size0 ids' inst
    end.

Definition upgrade_package (fuel : nat) (nm : string) (force : bool) : M (nat * nat) :=
  if String.eqb nm "all" then
    installed_ids <- gets (fun s => dict_keys (installed_packages s));;
    upgrade_all fuel force (length installed_ids) installed_ids (0, 0)
  else
    p <- lift (get_package_from_name nm);;
    upgradable <- is_package_upgradable (identifier p) force;;
    if upgradable then upgrade_files fuel p
    else
      forced <- is_package_upgradable (identifier p) true;;
      if negb forced then
        print ("Package " +:+ name p +:+ " not upgradaded, latest version installed");;;
        ret (0, 0)
      else
        print ("Package " +:+ name p
               +:+ " not upgraded, unknown version must use -f to force replacement");;;
        ret (0, 0).

(** ** uninstall_files and uninstall_package *)

(** The search loop of [uninstall_files]; [installed_packages[...]] is
    evaluated at each release. *)
Fixpoint find_installed_rel (id : string) (rels : list Release) : M (option Release) :=
  match rels with
  | [] => ret None
  | rel :: rels' =>
      cur <- installed_version id;;
      if String.eqb (version rel) cur then ret (Some rel)
      else find_installed_rel id rels'
  end.

Fixpoint remove_files (dest_path : string) (h : list (string * string)) : M unit :=
  match h with
  | [] => ret tt
  | (f, _) :: h' =>
      os_remove (path_join env dest_path f);;;
      remove_files dest_path h'
  end.

Definition uninstall_files (p : Package) : M unit :=
  dest_path <- lift (get_install_path p);;
  bin_name <- lift (get_bin_name p);;
  installed_rel <- find_installed_rel (identifier p) (releases p);;
  match installed_rel with
  | None => raise (TypeError "'NoneType' object is not subscriptable")
  | Some rel =>
      match release_get bin_name rel with
      | None => raise (KeyError bin_name)
      | Some b => remove_files dest_path (hash b)
      end
  end.

Definition uninstall_package (nm : string) : M (nat * nat) :=
  p <- lift (get_package_from_name nm);;
  installed <- is_package_installed (identifier p);;
  if installed then
    cur <- installed_version (identifier p);;
    if String.eqb cur "Unknown" then
      print ("Can't uninstall unknown version package: " +:+ name p);;;
      ret (0, 0)
    else
      uninstall_files p;;;
      cur' <- installed_version (identifier p);;
      print ("Uninstalled package: " +:+ name p +:+ " " +:+ cur');;;
      ret (1, 0)
  else
    print ("No files installed for " +:+ name p +:+ ", skipping uninstall");;;
    ret (0, 0).

(** ** The install operation of the command line

    [for name in args.package: res = install_package(name); inst = (...)] *)
Fixpoint install_each (fuel : nat) (names : list string) (inst : nat * nat) : M (nat * nat) :=
  match names with
  | [] => ret inst
  | nm :: names' =>
      res <- install_package fuel nm;;
      install_each fuel names' (inst.1 + res.1, inst.2 + res.2)
  end.

(** ** Listing *)

Definition print_package_status (p : Package) : M unit :=
  lastest_installable <- lift (get_latest_installable_release p);;
  upgradable <- is_package_upgradable (identifier p) false;;
  shown <- (if upgradable then ret ("*" +:+ name p)
            else
              forced <- is_package_upgradable (identifier p) true;;
              if forced then ret ("+" +:+ name p) else ret (name p));;
  group <- (if String.eqb (type p) "Plugin" then
              match namespace p with
              | Some ns => ret ns
              | None => raise (KeyError "namespace")
              end
            else
              match modulename p with
              | Some mn => ret mn
              | None => raise (KeyError "modulename")
              end);;
  installed <- gets (fun s =>
                 match dict_get (identifier p) (installed_packages s) with
                 | Some v => v
                 | None => ""
                 end);;
  print (package_print_string shown group installed
           (match lastest_installable with Some rel => version rel | None => "" end)
           (identifier p)).

Definition listing_header : string :=
  package_print_string "Name" "Namespace" "Installed" "Latest" "Identifier".

Fixpoint print_installed (ids : list string) : M unit :=
  match ids with
  | [] => ret tt
  | id :: ids' =>
      p <- require_package_from_id id;;
      print_package_status p;;;
      print_installed ids'
  end.

(** The loop body only prints, so the live view of the keys is the list
    of keys at the start. *)
Definition list_installed_packages : M unit :=
  print listing_header;;;
  installed_ids <- gets (fun s => dict_keys (installed_packages s));;
  print_installed installed_ids.

Fixpoint print_available (l : list Package) : M unit :=
  match l with
  | [] => ret tt
  | p :: l' => print_package_status p;;; print_available l'
  end.

Definition list_available_packages : M unit :=
  print listing_header;;;
  l <- lift iter_package_list;;
  print_available l.

(** ** The operations of the command line *)

Definition plural (n : nat) (one many : string) : string :=
  if n =? 1 then one else many.

Definition operation_install (fuel : nat) (package : list string) : M unit :=
  detect_installed_packages;;;
  inst <- install_each fuel package (0, 0);;
  if (inst.1 =? 0) && (inst.2 =? 0) then
    print "All packages and dependencies are already installed"
  else if (0 <? inst.1) && (inst.2 =? 0) then
    print (str_of_nat inst.1 +:+ " " +:+ plural inst.1 "package" "packages"
           +:+ " installed")
  else if (inst.1 =? 0) && (0 <? inst.2) then
    print (str_of_nat inst.2 +:+ " missing "
           +:+ plural inst.2 "dependency" "dependencies" +:+ " installed")
  else
    print (str_of_nat inst.1 +:+ " " +:+ plural inst.1 "package" "packages"
           +:+ " and " +:+ str_of_nat inst.2 +:+ " additional "
           +:+ plural inst.2 "dependency" "dependencies" +:+ " installed").

Fixpoint upgrade_each (fuel : nat) (names : list string) (force : bool)
    (inst : nat * nat) : M (nat * nat) :=
  match names with
  | [] => ret inst
  | nm :: names' =>
      res <- upgrade_package fuel nm force;;
      upgrade_each fuel names' force (inst.1 + res.1, inst.2 + res.2)
  end.

Definition operation_upgrade (fuel : nat) (package : list string) (force : bool) : M unit :=
  detect_installed_packages;;;
  inst <- upgrade_each fuel package force (0, 0);;
  if (inst.1 =? 0) && (inst.2 =? 0) then
    print "All packages are already up to date"
  else if (0 <? inst.1) && (inst.2 =? 0) then
    print (str_of_nat inst.1 +:+ " " +:+ plural inst.1 "package" "packages"
           +:+ " upgraded")
  else if (inst.1 =? 0) && (0 <? inst.2) then
    print (str_of_nat inst.2 +:+ " missing "
           +:+ plural inst.2 "dependency" "dependencies" +:+ " installed")
  else
    print (str_of_nat inst.1 +:+ " " +:+ plural inst.1 "package" "packages"
           +:+ " upgraded and " +:+ str_of_nat inst.2 +:+ " additional "
           +:+ plural inst.2 "dependency" "dependencies" +:+ " installed").

Fixpoint uninstall_each (names : list string) (uninst : nat * nat) : M (nat * nat) :=
  match names with
  | [] => ret uninst
  | nm :: names' =>
      res <- uninstall_package nm;;
      uninstall_each names' (uninst.1 + res.1, uninst.2 + res.2)
  end.

Definition operation_uninstall (package : list string) : M unit :=
  detect_installed_packages;;;
  uninst <- uninstall_each package (0, 0);;
  if uninst.1 =? 0 then print "No packages uninstalled"
  else
    print (str_of_nat uninst.1 +:+ " " +:+ plural uninst.1 "package" "packages"
           +:+ " uninstalled").

Definition operation_installed : M unit :=
  detect_installed_packages;;;
  list_installed_packages.

Definition operation_available : M unit :=
  detect_installed_packages;;;
  list_available_packages.

End Engine.

(** * Vocabulary of the statements *)

Section Vocabulary.

Context (env : Env).

(** The file [f] of a descriptor exists below [dest_path]. *)
Definition file_present (disk : gmap string bytes) (dest_path f : string) : Prop :=
  is_Some (disk !! path_join env dest_path f).

(** The file exists and [check_hash] accepts its content. *)
Definition file_matches (disk : gmap string bytes) (dest_path : string)
    (fh : string * string) : Prop :=
  exists data, disk !! path_join env dest_path fh.1 = Some data
               /\ (check_hash env data fh.2).1.1 = true.

(** Every file of the descriptor's hash mapping exists. *)
Definition release_present (disk : gmap string bytes) (dest_path : string) (b : Binary) : Prop :=
  Forall (fun fh => file_present disk dest_path fh.1) (hash b).

(** Every file of the descriptor's hash mapping exists with the declared hash. *)
Definition release_matches (disk : gmap string bytes) (dest_path : string) (b : Binary) : Prop :=
  Forall (file_matches disk dest_path) (hash b).

(** The archive member extracts and passes its hash check. *)
Definition member_ok (b : Binary) (data : bytes) (filename : string) : Prop :=
  exists ref_hash,
    (run_7z env data filename).1 = 0%Z
    /\ dict_get (rsplit_last filename) (hash b) = Some ref_hash
    /\ (check_hash env (run_7z env data filename).2 ref_hash).1.1 = true.

(** Materializing descriptor [b] from payload [data] computes, for some
    file, the digest [actual] where the catalog declares [expected], and
    the two differ: for an archive it is the first member that fails its
    check, every member before it having been extracted and accepted; for
    a plain payload it is the single declared file. *)
Definition hash_differs (b : Binary) (data : bytes) (actual expected : string) : Prop :=
  actual <> expected
  /\ if endswith (url b) ".7z" || endswith (url b) ".zip" then
       exists pre filename post,
         files b = pre ++ filename :: post
         /\ Forall (member_ok b data) pre
         /\ (run_7z env data filename).1 = 0%Z
         /\ dict_get (rsplit_last filename) (hash b) = Some expected
         /\ (check_hash env (run_7z env data filename).2 expected).1.2 = actual
     else
       exists filename,
         files b = [filename]
         /\ dict_get (rsplit_last filename) (hash b) = Some expected
         /\ (check_hash env data expected).1.2 = actual.

(** [fetch_url u] yields [data]: from the cache, or from the network when
    the cache has nothing for [u]. *)
Definition fetched (s : State) (u : string) (data : bytes) : Prop :=
  download_cache s !! u = Some data
  \/ (download_cache s !! u = None /\ urlopen env u = Some data).

(** The paths [uninstall_files] removes for a descriptor. *)
Definition release_paths (dest_path : string) (b : Binary) : list string :=
  map (fun fh => path_join env dest_path fh.1) (hash b).

(** Boolean readings of [file_matches] and [file_present]. *)
Definition file_matchb (disk : gmap string bytes) (dest_path : string)
    (fh : string * string) : bool :=
  match disk !! path_join env dest_path fh.1 with
  | Some data => (check_hash env data fh.2).1.1
  | None => false
  end.

Definition file_presentb (disk : gmap string bytes) (dest_path : string)
    (fh : string * string) : bool :=
  match disk !! path_join env dest_path fh.1 with
  | Some _ => true
  | None => false
  end.

(** The table the release loop leaves, as a function of the disk. *)
Fixpoint scan_releases (bin_name : string) (disk : gmap string bytes)
    (dest_path id : string) (rels : list Release)
    (tbl : list (string * string)) : list (string * string) :=
  match rels with
  | [] => tbl
  | v :: rels' =>
      match release_get bin_name v with
      | Some b =>
          if forallb (file_matchb disk dest_path) (hash b)
          then dict_set id (version v) tbl
          else if forallb (file_presentb disk dest_path) (hash b)
          then scan_releases bin_name disk dest_path id rels' (dict_set id "Unknown" tbl)
          else scan_releases bin_name disk dest_path id rels' tbl
      | None => scan_releases bin_name disk dest_path id rels' tbl
      end
  end.

(** One of the four keys of the package equals the reference. *)
Definition name_matches (nm : string) (p : Package) : Prop :=
  identifier p = nm
  \/ namespace p = Some nm
  \/ modulename p = Some nm
  \/ casefold env (name p) = casefold env nm.

(** The values the release loop assigns to the entry of its package, in
    order. *)
Fixpoint scan_writes (bin_name : string) (disk : gmap string bytes)
    (dest_path : string) (rels : list Release) : list string :=
  match rels with
  | [] => []
  | v :: rels' =>
      match release_get bin_name v with
      | Some b =>
          if forallb (file_matchb disk dest_path) (hash b) then [version v]
          else if forallb (file_presentb disk dest_path) (hash b)
          then "Unknown" :: scan_writes bin_name disk dest_path rels'
          else scan_writes bin_name disk dest_path rels'
      | None => scan_writes bin_name disk dest_path rels'
      end
  end.

End Vocabulary.

Definition known_type (p : Package) : Prop :=
  type p = "PyScript" \/ type p = "Plugin".

(** The table entry of an identifier: [None] is "absent". *)
Definition recorded (id : string) (s : State) : option string :=
  dict_get id (installed_packages s).


Definition with_installed (tbl : list (string * string)) (s : State) : State :=
  {| installed_packages := tbl;
     download_cache := download_cache s;
     fs := fs s;
     stdout := stdout s;
     materialized := materialized s |}.

(** A sequence of assignments [d[k] = v]. *)
Fixpoint dict_update (ops : list (string * string)) (d : list (string * string))
    : list (string * string) :=
  match ops with
  | [] => d
  | (k, v) :: ops' => dict_update ops' (dict_set k v d)
  end.

(** The assignments a detection run makes to the table, in order. *)
Fixpoint detect_writes (env : Env) (cfg : Config) (disk : gmap string bytes)
    (l : list Package) : list (string * string) :=
  match l with
  | [] => []
  | p :: l' =>
      match get_bin_name cfg p, get_install_path cfg p with
      | Ok bin_name, Ok dest_path =>
          map (pair (identifier p)) (scan_writes env bin_name disk dest_path (releases p))
      | _, _ => []
      end ++ detect_writes env cfg disk l'
  end.

(** What an assignment sequence does to the value read under one key. *)
Definition read_after (k : string) (ops : list (string * string))
    (o : option string) : option string :=
  foldl (fun o kv => if String.eqb kv.1 k then Some kv.2 else o) o ops.

(** Neither the table nor the history of materializations changes. *)
Definition same_table (s s' : State) : Prop :=
  installed_packages s' = installed_packages s /\ materialized s' = materialized s.

(** [install_step s s']: from [s] to [s'] some identifiers that had no
    entry were materialized, once each; they and the identifiers recorded
    before are exactly the recorded ones afterwards, and every entry that
    existed is kept as it was. *)
Definition install_step (s s' : State) : Prop :=
  exists new,
    materialized s' = materialized s ++ new
    /\ NoDup new
    /\ (forall id, id ∈ new -> recorded id s = None)
    /\ (forall id, is_Some (recorded id s') <-> is_Some (recorded id s) \/ id ∈ new)
    /\ (forall id v, recorded id s = Some v -> recorded id s' = Some v).

(** The second column of a listing line: [p['namespace']] for a plugin,
    [p['modulename']] for anything else; [None] when the key is missing. *)
Definition group_key (p : Package) : option string :=
  if String.eqb (type p) "Plugin" then namespace p else modulename p.

(** [requires env cfg nm d]: the reference [d] is [nm] itself, or is
    reached from [nm] through the dependency lists of packages that have a
    release for the target. *)
Inductive requires (env : Env) (cfg : Config) : string -> string -> Prop :=
| requires_self (nm : string) : requires env cfg nm nm
| requires_dep (nm : string) (p : Package) (deps : list string) (dep d : string) :
    get_package_from_name env cfg nm = Ok p ->
    can_install cfg p = Ok true ->
    dependencies p = Some deps ->
    dep ∈ deps ->
    requires env cfg dep d ->
    requires env cfg nm d.


(** * A small world for the examples

    A catalog of plugin packages for the win64 target in portable mode
    (both install directories end in a separator, so joining a directory
    and a file name is concatenation).  The two digests are stand-ins that
    render the data itself; every general theorem below is stated for an
    arbitrary [Env]. *)
Module Demo.

Definition B (text : string) : bytes := String.list_byte_of_string text.

Definition demo_sha1 (data : bytes) : string :=
  let text := String.string_of_list_byte data in
  text +:+ String.concat "" (replicate (40 - String.length text) "0").

Definition demo_sha256 (data : bytes) : string :=
  "256:" +:+ String.string_of_list_byte data.

Definition ascii_lower (c : ascii) : ascii :=
  let n := nat_of_ascii c in
  if (65 <=? n) && (n <=? 90) then ascii_of_nat (n + 32) else c.

Fixpoint lower (s : string) : string :=
  match s with
  | EmptyString => EmptyString
  | String c s' => String (ascii_lower c) (lower s')
  end.

Definition network : list (string * bytes) :=
  [ ("http://repo/a-1.0.dll", B "a 1.0");
    ("http://repo/b-1.0.dll", B "b 1.0");
    ("http://repo/c-1.0.dll", B "c 1.0");
    ("http://repo/p-2.0.dll", B "p 2.0");
    ("http://repo/q-1.0.zip", B "|q 1.0");
    ("http://repo/x-2.0.dll", B "x 2.0 truncated");
    ("http://repo/y-2.0.dll", B "y 2.0") ].

Definition env : Env :=
  {| sha1_hexdigest := demo_sha1;
     sha256_hexdigest := demo_sha256;
     casefold := lower;
     path_join := fun d f => d +:+ f;
     urlopen := fun u => dict_get u network;
     run_7z := fun archive member =>
       if String.eqb member "" then (2%Z, [])
       else (0%Z, B member ++ archive) |}.

Definition rel64 (ver u : string) (fl : list string) (h : list (string * string)) : Release :=
  {| version := ver; script := None; win32 := None;
     win64 := Some {| url := u; files := fl; hash := h |} |}.

Definition plugin (id nm ns : string) (deps : option (list string))
    (rels : list Release) : Package :=
  {| identifier := id; name := nm; type := "Plugin"; namespace := Some ns;
     modulename := None; dependencies := deps; releases := rels |}.

Definition pkgA : Package :=
  plugin "com.demo.a" "A" "a" (Some ["com.demo.c"])
    [rel64 "1.0" "http://repo/a-1.0.dll" ["a.dll"] [("a.dll", "256:a 1.0")]].

Definition pkgB : Package :=
  plugin "com.demo.b" "B" "b" (Some ["com.demo.c"])
    [rel64 "1.0" "http://repo/b-1.0.dll" ["b.dll"] [("b.dll", "256:b 1.0")]].

Definition pkgC : Package :=
  plugin "com.demo.c" "C" "c" None
    [rel64 "1.0" "http://repo/c-1.0.dll" ["c.dll"] [("c.dll", "256:c 1.0")]].

Definition pkgP : Package :=
  plugin "com.demo.p" "P" "p" None
    [rel64 "2.0" "http://repo/p-2.0.dll" ["p.dll"] [("p.dll", "256:p 2.0")];
     rel64 "1.0" "http://repo/p-1.0.dll" ["p.dll"] [("p.dll", "256:p 1.0")]].

Definition pkgQ : Package :=
  plugin "com.demo.q" "Q" "q" None
    [rel64 "1.0" "http://repo/q-1.0.zip" ["bin/q1.dll"; "bin/q2.dll"]
       [("q1.dll", "256:bin/q1.dll|q 1.0"); ("q2.dll", "256:bin/q2.dll|q 1.0")]].

Definition pkgT : Package :=
  plugin "com.demo.t" "T" "t" None
    [rel64 "2.0" "http://repo/t-2.0.dll" ["t.dll"] [("t.dll", "256:t")];
     rel64 "1.0" "http://repo/t-1.0.dll" ["t.dll"] [("t.dll", "256:t")]].

Definition pkgX : Package :=
  plugin "com.demo.x" "X" "x" None
    [rel64 "2.0" "http://repo/x-2.0.dll" ["x.dll"] [("x.dll", "256:x 2.0")];
     rel64 "1.0" "http://repo/x-1.0.dll" ["x.dll"] [("x.dll", "256:x 1.0")]].

Definition pkgY : Package :=
  plugin "com.demo.y" "Y" "y" None
    [rel64 "2.0" "http://repo/y-2.0.dll" ["y.dll"] [("y.dll", "256:y 2.0")];
     rel64 "1.0" "http://repo/y-1.0.dll" ["y.dll"] [("y.dll", "256:y 1.0")]].

(** U and V exist for win32 only; both declare the dependency C. *)
Definition rel32 (ver u : string) (fl : list string) (h : list (string * string)) : Release :=
  {| version := ver; script := None; win64 := None;
     win32 := Some {| url := u; files := fl; hash := h |} |}.

Definition pkgU : Package :=
  plugin "com.demo.u" "U" "u" (Some ["com.demo.c"])
    [rel32 "1.0" "http://repo/u-1.0.dll" ["u.dll"] [("u.dll", "256:u 1.0")]].

Definition pkgV : Package :=
  plugin "com.demo.v" "V" "v" (Some ["com.demo.c"])
    [rel32 "1.0" "http://repo/v-1.0.dll" ["v.dll"] [("v.dll", "256:v 1.0")]].

Definition catalog : list Package :=
  [pkgA; pkgB; pkgC; pkgP; pkgQ; pkgT; pkgU; pkgV; pkgX; pkgY].

Definition cfg : Config :=
  {| target := "win64";
     py_script_path := ".\";
     plugin_path := "vapoursynth64\plugins\";
     package_list := Some catalog |}.

Definition in_plugins (f : string) : string := "vapoursynth64\plugins\" +:+ f.

(** [p.dll] is present but is the build of no release. *)
Definition disk_unknown_p : gmap string bytes :=
  {[ in_plugins "p.dll" := B "p patched" ]}.

(** Only one of the two files of Q is present. *)
Definition disk_partial_q : gmap string bytes :=
  {[ in_plugins "q1.dll" := B "bin/q1.dll|q 1.0" ]}.

(** X and Y are installed at 1.0; 2.0 is the latest release of both. *)
Definition disk_xy : gmap string bytes :=
  {[ in_plugins "x.dll" := B "x 1.0"; in_plugins "y.dll" := B "y 1.0" ]}.

(** The one file of T matches both of its releases. *)
Definition disk_t : gmap string bytes :=
  {[ in_plugins "t.dll" := B "t" ]}.

(** The state after [detect_installed_packages] on a disk. *)
Definition detected (disk : gmap string bytes) : State :=
  (detect_installed_packages env cfg (initial_state disk)).2.

End Demo.

(** * More of the example world

    A second catalog with what the first one avoids: a package whose
    namespace is the identifier of another package, a package of a type the
    script does not know, and a package that lists itself as a dependency;
    and two more states for the first catalog. *)

Module Demo2.

Definition pkgN : Package :=
  Demo.plugin "com.odd.n" "N" "com.odd.s" None
    [Demo.rel64 "1.0" "http://repo/b-1.0.dll" ["n.dll"] [("n.dll", "256:b 1.0")]].

Definition pkgW : Package :=
  {| identifier := "com.odd.w"; name := "W"; type := "Wheel"; namespace := None;
     modulename := Some "w"; dependencies := None; releases := [] |}.

Definition pkgS : Package :=
  Demo.plugin "com.odd.s" "S" "s" (Some ["com.odd.s"])
    [Demo.rel64 "1.0" "http://repo/a-1.0.dll" ["s.dll"] [("s.dll", "256:a 1.0")]].

Definition catalog : list Package := [pkgN; pkgW; pkgS].

Definition cfg : Config :=
  {| target := "win64";
     py_script_path := ".\";
     plugin_path := "vapoursynth64\plugins\";
     package_list := Some catalog |}.

(** No catalog has been downloaded yet. *)
Definition cfg_none : Config :=
  {| target := "win64";
     py_script_path := ".\";
     plugin_path := "vapoursynth64\plugins\";
     package_list := None |}.

(** [a.dll] is present but is the build of no release of A; the
    dependency C of A is not installed. *)
Definition disk_unknown_a : gmap string bytes :=
  {[ Demo.in_plugins "a.dll" := Demo.B "a patched" ]}.

(** Q is recorded at 1.0 while its second file is missing. *)
Definition q_recorded : State :=
  with_installed [("com.demo.q", "1.0")] (initial_state Demo.disk_partial_q).

End Demo2.

(** * Properties *)

Ltac run := unfold bind, ret, lift, gets, modify, raise, out_of_fuel, and_then.

Section CheckHash.

Context (env : Env).

(** C10: the reference hash's length alone picks the digest: 40
    characters compare the SHA-1 hex digest, any other length the SHA-256
    hex digest; the triple returned is (equality verdict, actual digest,
    reference hash). *)
Theorem check_hash_by_length (data : bytes) (ref_hash : string) :
  (String.length ref_hash = 40 ->
     check_hash env data ref_hash
     = (bool_decide (sha1_hexdigest env data = ref_hash),
        sha1_hexdigest env data, ref_hash))
  /\ (String.length ref_hash <> 40 ->
     check_hash env data ref_hash
     = (bool_decide (sha256_hexdigest env data = ref_hash),
        sha256_hexdigest env data, ref_hash)).
Proof.
  unfold check_hash. split; intros Hlen.
  - rewrite Hlen. simpl. f_equal. f_equal.
    destruct (String.eqb_spec (sha1_hexdigest env data) ref_hash) as [E | E].
    + by rewrite bool_decide_eq_true_2.
    + by rewrite bool_decide_eq_false_2.
  - destruct (Nat.eqb_spec (String.length ref_hash) 40) as [E | _]; [done |].
    f_equal. f_equal.
    destruct (String.eqb_spec (sha256_hexdigest env data) ref_hash) as [E | E].
    + by rewrite bool_decide_eq_true_2.
    + by rewrite bool_decide_eq_false_2.
Qed.

Lemma check_hash_verdict (data : bytes) (ref_hash : string) :
  (check_hash env data ref_hash).1.1 = true
  <-> (check_hash env data ref_hash).1.2 = ref_hash.
Proof.
  unfold check_hash. destruct (String.length ref_hash =? 40); simpl;
    apply String.eqb_eq.
Qed.

Lemma check_hash_expected (data : bytes) (ref_hash : string) :
  (check_hash env data ref_hash).2 = ref_hash.
Proof. unfold check_hash. by destruct (String.length ref_hash =? 40). Qed.

End CheckHash.

(** ** Facts about the ordered dict *)

Section Dict.

Context {V : Type}.
Implicit Types (d : list (string * V)) (k : string).

Lemma dict_get_set_eq k (v : V) d : dict_get k (dict_set k v d) = Some v.
Proof.
  induction d as [| [k' v'] d IH]; simpl.
  - by rewrite String.eqb_refl.
  - destruct (String.eqb k' k) eqn:E; simpl.
    + by rewrite String.eqb_refl.
    + by rewrite E.
Qed.

Lemma dict_get_set_ne k k' (v : V) d :
  k <> k' -> dict_get k' (dict_set k v d) = dict_get k' d.
Proof.
  intros Hne. induction d as [| [k0 v0] d IH]; simpl.
  - destruct (String.eqb_spec k k'); [done | done].
  - destruct (String.eqb_spec k0 k) as [-> | Hk]; simpl.
    + destruct (String.eqb_spec k k'); [done | done].
    + by rewrite IH.
Qed.

Lemma dict_mem_true k d : dict_mem k d = true <-> is_Some (dict_get k d).
Proof.
  unfold dict_mem. destruct (dict_get k d); split; intros H; try done.
Qed.

Lemma dict_mem_false k d : dict_mem k d = false <-> dict_get k d = None.
Proof. unfold dict_mem. by destruct (dict_get k d). Qed.

Lemma dict_get_keys k d : is_Some (dict_get k d) <-> k ∈ dict_keys d.
Proof.
  unfold dict_keys. induction d as [| [k0 v0] d IH]; simpl.
  - split; [by intros [? ?] | by intros ?%elem_of_nil].
  - destruct (String.eqb_spec k0 k) as [-> | Hk].
    + split; [intros _; apply elem_of_cons; by left | by eexists].
    + rewrite IH, elem_of_cons. split; [by right |].
      intros [E | Hin]; [congruence | done].
Qed.

Lemma dict_set_length_mem k (v : V) d :
  is_Some (dict_get k d) -> length (dict_set k v d) = length d.
Proof.
  induction d as [| [k0 v0] d IH]; simpl.
  - by intros [? ?].
  - destruct (String.eqb_spec k0 k) as [-> | Hk]; simpl; [done |].
    intros H. by rewrite IH.
Qed.

Lemma dict_set_length_new k (v : V) d :
  dict_get k d = None -> length (dict_set k v d) = S (length d).
Proof.
  induction d as [| [k0 v0] d IH]; simpl; [done |].
  destruct (String.eqb_spec k0 k) as [-> | Hk]; simpl; [done |].
  intros H. by rewrite IH.
Qed.

End Dict.

(** ** Facts about the catalog lookups *)

Lemma find_first {A} (f : A -> bool) (l : list A) (x : A) :
  List.find f l = Some x <->
  exists pre post, l = pre ++ x :: post /\ f x = true
                   /\ Forall (fun y => f y = false) pre.
Proof.
  induction l as [| a l IH]; simpl.
  - split; [done |]. intros (pre & post & E & _). by destruct pre.
  - destruct (f a) eqn:Fa.
    + split.
      * intros [= ->]. exists [], l. by repeat split.
      * intros (pre & post & E & Fx & Hpre). destruct pre as [| b pre].
        -- simpl in E. by injection E as ->.
        -- simpl in E. injection E as -> _. apply Forall_cons in Hpre as [Hb _]. congruence.
    + rewrite IH. split.
      * intros (pre & post & -> & Fx & Hpre). exists (a :: pre), post.
        repeat split; [done |]. by apply Forall_cons.
      * intros (pre & post & E & Fx & Hpre). destruct pre as [| b pre].
        -- simpl in E. injection E as -> _. congruence.
        -- simpl in E. injection E as -> ->. apply Forall_cons in Hpre as [_ Hpre].
           by exists pre, post.
Qed.

Lemma find_none_iff {A} (f : A -> bool) (l : list A) :
  List.find f l = None <-> Forall (fun y => f y = false) l.
Proof.
  induction l as [| a l IH]; simpl.
  - split; [by constructor | done].
  - destruct (f a) eqn:Fa.
    + split; [done |]. intros [Ha _]%Forall_cons. congruence.
    + rewrite IH. split; [by constructor | by intros [_ ?]%Forall_cons].
Qed.

Section Upgradable.

Context (env : Env) (cfg : Config).

(** The release [get_latest_installable_release] returns is the first one,
    in catalog order, that carries a descriptor for the active target. *)
Lemma get_latest_installable_release_first (p : Package) (bin_name : string) (rel : Release) :
  get_bin_name cfg p = Ok bin_name ->
  (get_latest_installable_release cfg p = Ok (Some rel) <->
   exists pre post, releases p = pre ++ rel :: post
     /\ is_Some (release_get bin_name rel)
     /\ Forall (fun r => release_get bin_name r = None) pre).
Proof.
  intros Hbin. unfold get_latest_installable_release. rewrite Hbin.
  split.
  - intros [= H]. apply find_first in H as (pre & post & E & Hx & Hpre).
    exists pre, post. split; [done |]. split.
    + by apply bool_decide_eq_true_1 in Hx.
    + eapply Forall_impl; [exact Hpre |]. intros r Hr. simpl in Hr.
      apply bool_decide_eq_false_1 in Hr. destruct (release_get bin_name r); [| done].
      exfalso. apply Hr. by eexists.
  - intros (pre & post & E & Hx & Hpre). f_equal. apply find_first.
    exists pre, post. split; [done |]. split.
    + by apply bool_decide_eq_true_2.
    + eapply Forall_impl; [exact Hpre |]. intros r Hr. simpl.
      apply bool_decide_eq_false_2. rewrite Hr. by intros [? ?].
Qed.

Lemma get_latest_installable_release_none (p : Package) (bin_name : string) :
  get_bin_name cfg p = Ok bin_name ->
  (get_latest_installable_release cfg p = Ok None <->
   Forall (fun r => release_get bin_name r = None) (releases p)).
Proof.
  intros Hbin. unfold get_latest_installable_release. rewrite Hbin. split.
  - intros [= H]. apply find_none_iff in H.
    eapply Forall_impl; [exact H |]. intros r Hr. simpl in Hr.
    apply bool_decide_eq_false_1 in Hr. destruct (release_get bin_name r); [| done].
    exfalso. apply Hr. by eexists.
  - intros H. f_equal. apply find_none_iff.
    eapply Forall_impl; [exact H |]. intros r Hr. simpl.
    apply bool_decide_eq_false_2. rewrite Hr. by intros [? ?].
Qed.

(** The verdict of [is_package_upgradable] in terms of the release
    [get_latest_installable_release] picks. *)
Lemma is_package_upgradable_latest (id : string) (force : bool) (p : Package)
    (bin_name : string) (s : State) :
  get_package_from_id cfg id true = Ok (Some p) ->
  get_bin_name cfg p = Ok bin_name ->
  exists verdict,
    is_package_upgradable cfg id force s = (Ok verdict, s)
    /\ (verdict = true <->
        exists cur rel,
          dict_get id (installed_packages s) = Some cur
          /\ (exists r, r ∈ releases p /\ is_Some (release_get bin_name r))
          /\ get_latest_installable_release cfg p = Ok (Some rel)
          /\ cur <> version rel
          /\ (force = false -> cur <> "Unknown")).
Proof.
  intros Hp Hbin. unfold is_package_upgradable. run. rewrite Hp.
  destruct (get_latest_installable_release cfg p) as [[rel |] | e |] eqn:Hrel.
  - unfold is_package_installed, installed_version, dict_mem. run.
    destruct (dict_get id (installed_packages s)) as [cur |] eqn:Hcur.
    + assert (Hex : exists r, r ∈ releases p /\ is_Some (release_get bin_name r)).
      { apply (get_latest_installable_release_first p bin_name rel Hbin) in Hrel
          as (pre & post & E & Hx & _).
        exists rel. split; [| done]. rewrite E. apply elem_of_app. right. by left. }
      destruct force; simpl; rewrite ?Hcur.
      * eexists. split; [done |]. split.
        -- intros Hv. exists cur, rel. repeat split; try done.
           intros ->. by rewrite String.eqb_refl in Hv.
        -- intros (cur' & rel' & [= <-] & _ & [= <-] & Hne & _).
           by destruct (String.eqb_spec cur (version rel)).
      * destruct (String.eqb_spec cur "Unknown") as [-> | Hu]; simpl; rewrite ?Hcur.
        -- eexists. split; [done |]. split; [done |].
           intros (cur' & rel' & [= <-] & _ & _ & _ & Hu). by exfalso; apply Hu.
        -- eexists. split; [done |]. split.
           ++ intros Hv. exists cur, rel. repeat split; try done.
              intros ->. by rewrite String.eqb_refl in Hv.
           ++ intros (cur' & rel' & [= <-] & _ & [= <-] & Hne & _).
              by destruct (String.eqb_spec cur (version rel)).
    + destruct force; simpl; (eexists; split; [done |]); (split; [done |]);
        by intros (? & ? & ? & _).
  - unfold is_package_installed. run.
    destruct force; destruct (dict_mem id (installed_packages s)); simpl;
      (eexists; split; [done |]); (split; [done |]);
      by intros (? & ? & _ & _ & ? & _).
  - apply (f_equal (fun r => match r with Raise _ => true | _ => false end)) in Hrel.
    unfold get_latest_installable_release in Hrel. by rewrite Hbin in Hrel.
  - apply (f_equal (fun r => match r with OutOfFuel => true | _ => false end)) in Hrel.
    unfold get_latest_installable_release in Hrel. by rewrite Hbin in Hrel.
Qed.

(** C5: for the package the catalog lists first under an identifier,
    [is_package_upgradable] returns, without touching the state, a verdict
    that is true exactly when the identifier has a table entry, some
    release carries a descriptor for the active target, and the recorded
    state differs from the version of the latest installable release,
    that is, of the first release in catalog order that carries such a
    descriptor; without [force] the recorded state must also not be
    Unknown.  The descriptor for the active target is [script] for a
    PyScript, [win64] for a Plugin when the target is win64 and [win32]
    for a Plugin otherwise. *)
Theorem is_package_upgradable_iff (id : string) (force : bool)
    (before after : list Package) (p : Package)
    (descriptor : Release -> option Binary) (s : State) :
  package_list cfg = Some (before ++ p :: after) ->
  identifier p = id ->
  Forall (fun q => identifier q <> id) before ->
  (type p = "PyScript" /\ descriptor = script
   \/ type p = "Plugin" /\ target cfg = "win64" /\ descriptor = win64
   \/ type p = "Plugin" /\ target cfg <> "win64" /\ descriptor = win32) ->
  exists verdict,
    is_package_upgradable cfg id force s = (Ok verdict, s)
    /\ (verdict = true <->
        exists cur pre rel post,
          dict_get id (installed_packages s) = Some cur
          /\ releases p = pre ++ rel :: post
          /\ is_Some (descriptor rel)
          /\ Forall (fun r => descriptor r = None) pre
          /\ cur <> version rel
          /\ (force = false -> cur <> "Unknown")).
Proof.
  intros Hpl Hid Hbefore Hdesc.
  assert (Hp : get_package_from_id cfg id true = Ok (Some p)).
  { unfold get_package_from_id, lookup_package, iter_package_list. rewrite Hpl.
    assert (Hfind : List.find (fun q => String.eqb (identifier q) id)
                      (before ++ p :: after) = Some p); [| by rewrite Hfind].
    apply find_first. exists before, after. split; [done |]. split.
    - by apply String.eqb_eq.
    - eapply Forall_impl; [exact Hbefore |]. intros q Hq. simpl.
      by apply String.eqb_neq. }
  assert (Hbin : exists bin_name,
            get_bin_name cfg p = Ok bin_name
            /\ forall r, release_get bin_name r = descriptor r).
  { unfold get_bin_name, is_64bits.
    destruct Hdesc as [[-> ->] | [(-> & Ht & ->) | (-> & Ht & ->)]].
    - by exists "script".
    - rewrite Ht. by exists "win64".
    - apply String.eqb_neq in Ht. rewrite Ht. by exists "win32". }
  destruct Hbin as (bin_name & Hbin & Hget).
  destruct (is_package_upgradable_latest id force p bin_name s Hp Hbin)
    as (verdict & Hrun & Hiff).
  exists verdict. split; [exact Hrun |]. rewrite Hiff. split.
  - intros (cur & rel & Hcur & _ & Hrel & Hne & Hu).
    apply (get_latest_installable_release_first p bin_name rel Hbin) in Hrel
      as (pre & post & E & Hx & Hpre).
    exists cur, pre, rel, post. rewrite <- Hget.
    split; [done |]. split; [done |]. split; [done |]. split; [| done].
    eapply Forall_impl; [exact Hpre |]. intros r Hr. simpl. by rewrite <- Hget.
  - intros (cur & pre & rel & post & Hcur & E & Hx & Hpre & Hne & Hu).
    exists cur, rel. split; [done |]. split.
    + exists rel. split; [| by rewrite Hget].
      rewrite E. apply elem_of_app. right. by left.
    + split; [| done].
      apply (get_latest_installable_release_first p bin_name rel Hbin).
      exists pre, post. split; [done |]. split; [by rewrite Hget |].
      eapply Forall_impl; [exact Hpre |]. intros r Hr. simpl. by rewrite Hget.
Qed.

End Upgradable.

(** ** Detection *)

Section Detect.

Context (env : Env) (cfg : Config).

Lemma file_matchb_true disk dest_path fh :
  file_matchb env disk dest_path fh = true <-> file_matches env disk dest_path fh.
Proof.
  unfold file_matchb, file_matches.
  destruct (disk !! path_join env dest_path fh.1) as [data |]; split.
  - intros H. by exists data.
  - by intros (data' & [= <-] & H).
  - done.
  - by intros (data' & ? & _).
Qed.

Lemma file_presentb_true disk dest_path fh :
  file_presentb env disk dest_path fh = true <-> file_present env disk dest_path fh.1.
Proof.
  unfold file_presentb, file_present.
  destruct (disk !! path_join env dest_path fh.1); split; try done.
Qed.

Lemma forallb_matches disk dest_path (b : Binary) :
  forallb (file_matchb env disk dest_path) (hash b) = true
  <-> release_matches env disk dest_path b.
Proof.
  unfold release_matches. rewrite forallb_forall, Forall_forall.
  split; intros H fh Hin.
  - apply file_matchb_true, H. by apply list_elem_of_In.
  - apply file_matchb_true, H. by apply list_elem_of_In.
Qed.

Lemma forallb_present disk dest_path (b : Binary) :
  forallb (file_presentb env disk dest_path) (hash b) = true
  <-> release_present env disk dest_path b.
Proof.
  unfold release_present. rewrite forallb_forall, Forall_forall.
  split; intros H fh Hin.
  - apply file_presentb_true, H. by apply list_elem_of_In.
  - apply file_presentb_true, H. by apply list_elem_of_In.
Qed.

(** The file loop only reads: it ends in the state it started in, with
    the two flags lowered by the files seen. *)
Lemma detect_files_eval dest_path h matched exists_ s :
  detect_files env dest_path h matched exists_ s
  = (Ok (matched && forallb (file_matchb env (fs s) dest_path) h,
         exists_ && forallb (file_presentb env (fs s) dest_path) h), s).
Proof.
  revert matched exists_.
  induction h as [| [f ref_hash] h IH]; intros matched exists_; simpl.
  - run. by rewrite !andb_true_r.
  - unfold bind at 1. unfold try_FileNotFoundError, read_file, bind, ret.
    unfold file_matchb at 1, file_presentb at 1. simpl.
    destruct (fs s !! path_join env dest_path f) as [data |]; simpl.
    + destruct ((check_hash env data ref_hash).1.1); simpl; rewrite IH; simpl.
      * done.
      * by rewrite andb_false_r.
    + rewrite IH. simpl. by rewrite !andb_false_r.
Qed.

Lemma with_installed_id s : with_installed (installed_packages s) s = s.
Proof. by destruct s. Qed.

Lemma detect_releases_eval p bin_name dest_path rels s :
  get_bin_name cfg p = Ok bin_name ->
  detect_releases env cfg p dest_path rels s
  = (Ok tt,
     with_installed
       (scan_releases env bin_name (fs s) dest_path (identifier p) rels (installed_packages s)) s).
Proof.
  intros Hbin. revert s. induction rels as [| v rels IH]; intros s; simpl.
  - run. by rewrite with_installed_id.
  - unfold bind at 1. unfold lift. rewrite Hbin.
    destruct (release_get bin_name v) as [b |]; [| apply IH].
    unfold bind at 1. rewrite detect_files_eval. simpl.
    destruct (forallb (file_matchb env (fs s) dest_path) (hash b)); [done |].
    destruct (forallb (file_presentb env (fs s) dest_path) (hash b)); [| apply IH].
    unfold bind, set_installed, modify. by rewrite IH.
Qed.

(** Only the entry of the scanned package can change. *)
Lemma scan_releases_other bin_name disk dest_path id rels tbl id' :
  id <> id' ->
  dict_get id' (scan_releases env bin_name disk dest_path id rels tbl) = dict_get id' tbl.
Proof.
  intros Hne. revert tbl. induction rels as [| v rels IH]; intros tbl; simpl; [done |].
  destruct (release_get bin_name v) as [b |]; [| apply IH].
  destruct (forallb _ _); [by apply dict_get_set_ne |].
  destruct (forallb _ _); [| apply IH].
  rewrite IH. by apply dict_get_set_ne.
Qed.

(** First match: the releases before the first fully matching one leave
    no trace, and those after it are not looked at. *)
Lemma scan_releases_first_match bin_name disk dest_path id pre v b post tbl :
  release_get bin_name v = Some b ->
  release_matches env disk dest_path b ->
  Forall (fun r => forall b', release_get bin_name r = Some b' ->
                   ~ release_matches env disk dest_path b') pre ->
  dict_get id (scan_releases env bin_name disk dest_path id (pre ++ v :: post) tbl)
  = Some (version v)
  /\ scan_releases env bin_name disk dest_path id (pre ++ v :: post) tbl
     = scan_releases env bin_name disk dest_path id (pre ++ [v]) tbl.
Proof.
  intros Hb Hm Hpre. revert tbl.
  induction pre as [| r pre IH]; intros tbl; simpl.
  - rewrite Hb. apply forallb_matches in Hm. rewrite Hm.
    split; [apply dict_get_set_eq | done].
  - apply Forall_cons in Hpre as [Hr Hpre]. specialize (IH Hpre).
    destruct (release_get bin_name r) as [b' |] eqn:Hb'; simpl; [| by apply IH].
    destruct (forallb (file_matchb env disk dest_path) (hash b')) eqn:Hm'; simpl.
    + exfalso. apply (Hr b' eq_refl). by apply forallb_matches.
    + destruct (forallb (file_presentb env disk dest_path) (hash b')); by apply IH.
Qed.

(** No match: Unknown when some release with a descriptor has all its
    files present, the table untouched otherwise. *)
Lemma scan_releases_no_match bin_name disk dest_path id rels tbl :
  Forall (fun r => forall b, release_get bin_name r = Some b ->
                   ~ release_matches env disk dest_path b) rels ->
  ((exists r b, r ∈ rels /\ release_get bin_name r = Some b
                /\ release_present env disk dest_path b) ->
   dict_get id (scan_releases env bin_name disk dest_path id rels tbl) = Some "Unknown")
  /\ ((forall r b, r ∈ rels -> release_get bin_name r = Some b ->
                   ~ release_present env disk dest_path b) ->
      scan_releases env bin_name disk dest_path id rels tbl = tbl)
  /\ (dict_get id tbl = Some "Unknown" ->
      dict_get id (scan_releases env bin_name disk dest_path id rels tbl) = Some "Unknown").
Proof.
  intros Hno. revert tbl. induction rels as [| v rels IH]; intros tbl; simpl.
  - split; [| done]. intros (r & b & Hin & _). by apply elem_of_nil in Hin.
  - apply Forall_cons in Hno as [Hv Hno]. specialize (IH Hno).
    destruct (release_get bin_name v) as [b |] eqn:Hb; simpl.
    + destruct (forallb (file_matchb env disk dest_path) (hash b)) eqn:Hm; simpl.
      { exfalso. apply (Hv b eq_refl). by apply forallb_matches. }
      destruct (forallb (file_presentb env disk dest_path) (hash b)) eqn:Hp; simpl.
      * destruct (IH (dict_set id "Unknown" tbl)) as (_ & _ & IH3).
        split; [| split].
        -- intros _. apply IH3. apply dict_get_set_eq.
        -- intros Habs. exfalso. apply (Habs v b); [by left | done |].
           by apply forallb_present.
        -- intros _. apply IH3. apply dict_get_set_eq.
      * destruct (IH tbl) as (IH1 & IH2 & IH3).
        split; [| split].
        -- intros (r & b' & Hin & Hb' & Hpres). apply IH1.
           apply elem_of_cons in Hin as [-> | Hin].
           ++ rewrite Hb in Hb'. injection Hb' as <-.
              apply forallb_present in Hpres. congruence.
           ++ by exists r, b'.
        -- intros Habs. apply IH2. intros r b' Hin. apply Habs. by right.
        -- apply IH3.
    + destruct (IH tbl) as (IH1 & IH2 & IH3).
      split; [| split].
      * intros (r & b' & Hin & Hb' & Hpres). apply IH1.
        apply elem_of_cons in Hin as [-> | Hin]; [congruence |].
        by exists r, b'.
      * intros Habs. apply IH2. intros r b' Hin. apply Habs. by right.
      * apply IH3.
Qed.

Lemma known_type_bin_name p :
  known_type p -> exists bin_name, get_bin_name cfg p = Ok bin_name.
Proof.
  unfold get_bin_name. intros [-> | ->]; simpl.
  - by eexists.
  - destruct (is_64bits cfg); by eexists.
Qed.

Lemma known_type_install_path p :
  known_type p -> exists dest_path, get_install_path cfg p = Ok dest_path.
Proof. unfold get_install_path. intros [-> | ->]; simpl; by eexists. Qed.

(** The packages loop leaves the entries of identifiers it does not list
    alone, and changes nothing but the table. *)
Lemma detect_packages_frame l s :
  Forall known_type l ->
  exists tbl,
    detect_packages env cfg l s = (Ok tt, with_installed tbl s)
    /\ forall id, id ∉ map identifier l ->
                  dict_get id tbl = dict_get id (installed_packages s).
Proof.
  intros Hk. revert s. induction l as [| q l IH]; intros s; simpl.
  - exists (installed_packages s). run. by rewrite with_installed_id.
  - apply Forall_cons in Hk as [Hq Hk].
    destruct (known_type_install_path q Hq) as [dq Hdq].
    destruct (known_type_bin_name q Hq) as [bq Hbq].
    unfold bind at 1. unfold lift. rewrite Hdq.
    unfold bind at 1. rewrite (detect_releases_eval q bq dq _ s Hbq).
    destruct (IH Hk (with_installed
      (scan_releases env bq (fs s) dq (identifier q) (releases q) (installed_packages s)) s))
      as (tbl & Hrun & Hframe).
    exists tbl. split; [by rewrite Hrun |].
    intros id Hid. rewrite Hframe.
    + simpl. apply scan_releases_other. intros E. subst id. apply Hid. by left.
    + intros Hin. apply Hid. by right.
Qed.

(** The entry of a catalogued package after detection is the one its own
    release scan leaves. *)
Lemma detect_packages_entry l s p bin_name dest_path :
  Forall known_type l ->
  NoDup (map identifier l) ->
  p ∈ l ->
  get_bin_name cfg p = Ok bin_name ->
  get_install_path cfg p = Ok dest_path ->
  dict_get (identifier p) (installed_packages s) = None ->
  exists tbl tbl0,
    detect_packages env cfg l s = (Ok tt, with_installed tbl s)
    /\ dict_get (identifier p) tbl0 = None
    /\ dict_get (identifier p) tbl
       = dict_get (identifier p)
           (scan_releases env bin_name (fs s) dest_path (identifier p) (releases p) tbl0).
Proof.
  intros Hk Hnd Hin Hbin Hdest. revert s.
  induction l as [| q l IH]; intros s Hnone; [by apply elem_of_nil in Hin |].
  simpl in Hnd. apply NoDup_cons in Hnd as [Hq_fresh Hnd].
  pose proof Hk as Hk'. apply Forall_cons in Hk as [Hq Hk].
  destruct (known_type_install_path q Hq) as [dq Hdq].
  destruct (known_type_bin_name q Hq) as [bq Hbq].
  simpl. unfold bind at 1. unfold lift. rewrite Hdq.
  unfold bind at 1. rewrite (detect_releases_eval q bq dq _ s Hbq).
  set (s1 := with_installed
    (scan_releases env bq (fs s) dq (identifier q) (releases q) (installed_packages s)) s).
  destruct (decide (identifier p = identifier q)) as [Eid | Hne].
  - assert (p = q) as ->.
    { apply elem_of_cons in Hin as [-> | Hin]; [done |].
      exfalso. apply Hq_fresh. rewrite <- Eid. apply list_elem_of_fmap. by exists p. }
    destruct (detect_packages_frame l s1 Hk) as (tbl & Hrun & Hframe).
    exists tbl, (installed_packages s). split; [by rewrite Hrun |]. split; [done |].
    rewrite Hframe by done. simpl.
    rewrite Hdq in Hdest. injection Hdest as <-.
    rewrite Hbq in Hbin. by injection Hbin as <-.
  - apply elem_of_cons in Hin as [-> | Hin]; [done |].
    destruct (IH Hk Hnd Hin s1) as (tbl & tbl0 & Hrun & Htbl0 & Hentry).
    { simpl. rewrite scan_releases_other; [done |]. by intros E. }
    exists tbl, tbl0. split; [by rewrite Hrun |]. by split.
Qed.

End Detect.

Section DetectClaims.

Context (env : Env) (cfg : Config).

Lemma detect_installed_packages_entry (disk : gmap string bytes) (pl : list Package)
    (p : Package) (bin_name dest_path : string) :
  package_list cfg = Some pl ->
  Forall known_type pl ->
  NoDup (map identifier pl) ->
  p ∈ pl ->
  get_bin_name cfg p = Ok bin_name ->
  get_install_path cfg p = Ok dest_path ->
  exists s' tbl0,
    detect_installed_packages env cfg (initial_state disk) = (Ok tt, s')
    /\ fs s' = disk
    /\ dict_get (identifier p) tbl0 = None
    /\ recorded (identifier p) s'
       = dict_get (identifier p)
           (scan_releases env bin_name disk dest_path (identifier p) (releases p) tbl0).
Proof.
  intros Hpl Hk Hnd Hin Hbin Hdest. unfold detect_installed_packages. rewrite Hpl.
  destruct (detect_packages_entry env cfg pl (initial_state disk) p bin_name dest_path
              Hk Hnd Hin Hbin Hdest eq_refl) as (tbl & tbl0 & Hrun & Htbl0 & Hentry).
  exists (with_installed tbl (initial_state disk)), tbl0. by repeat split.
Qed.

(** C2 (as amended): when no release of a catalogued package fully matches
    the disk, detection records Unknown if some release with a descriptor
    for the active target has every one of its declared files present,
    and records nothing if every such release has a declared file missing;
    in particular nothing is recorded when none of the declared files
    exists. *)
Theorem detect_unknown_needs_whole_release (disk : gmap string bytes)
    (pl : list Package) (p : Package) (bin_name dest_path : string) :
  package_list cfg = Some pl ->
  Forall known_type pl ->
  NoDup (map identifier pl) ->
  p ∈ pl ->
  get_bin_name cfg p = Ok bin_name ->
  get_install_path cfg p = Ok dest_path ->
  (forall r b, r ∈ releases p -> release_get bin_name r = Some b ->
               ~ release_matches env disk dest_path b) ->
  exists s',
    detect_installed_packages env cfg (initial_state disk) = (Ok tt, s')
    /\ ((exists r b, r ∈ releases p /\ release_get bin_name r = Some b
                     /\ release_present env disk dest_path b) ->
        recorded (identifier p) s' = Some "Unknown")
    /\ ((forall r b, r ∈ releases p -> release_get bin_name r = Some b ->
                     ~ release_present env disk dest_path b) ->
        recorded (identifier p) s' = None)
    /\ ((forall r b fh, r ∈ releases p -> release_get bin_name r = Some b ->
                        fh ∈ hash b -> ~ file_present env disk dest_path fh.1) ->
        recorded (identifier p) s' = None).
Proof.
  intros Hpl Hk Hnd Hin Hbin Hdest Hno.
  destruct (detect_installed_packages_entry disk pl p bin_name dest_path
              Hpl Hk Hnd Hin Hbin Hdest) as (s' & tbl0 & Hrun & _ & Htbl0 & Hentry).
  assert (Hno' : Forall (fun r => forall b, release_get bin_name r = Some b ->
                          ~ release_matches env disk dest_path b) (releases p)).
  { apply Forall_forall. intros r Hr b. by apply Hno. }
  destruct (scan_releases_no_match env bin_name disk dest_path (identifier p)
              (releases p) tbl0 Hno') as (HU & HA & _).
  assert (Habsent : (forall r b, r ∈ releases p -> release_get bin_name r = Some b ->
                       ~ release_present env disk dest_path b) ->
                    recorded (identifier p) s' = None).
  { intros Habs. rewrite Hentry, (HA Habs). exact Htbl0. }
  exists s'. split; [done |]. split; [| split; [done |]].
  - intros Hex. rewrite Hentry. by apply HU.
  - intros Hnone. apply Habsent. intros r b Hr Hb Hpres.
    destruct (hash b) as [| fh h] eqn:Hh.
    + apply (Hno r b Hr Hb). unfold release_matches. rewrite Hh. constructor.
    + apply (Hnone r b fh Hr Hb).
      * rewrite Hh. by left.
      * unfold release_present in Hpres. rewrite Hh in Hpres.
        by apply Forall_cons in Hpres as [? _].
Qed.

(** C8: when two releases of a catalogued package declare the same files
    with the same hashes and the disk matches them, detection records the
    version of the earlier one (no release before it matching), and what
    follows the earlier one in the catalog has no influence on the scan:
    the later release is never examined. *)
Theorem detect_first_match_wins (disk : gmap string bytes) (pl : list Package)
    (p : Package) (bin_name dest_path : string)
    (pre mid post : list Release) (r1 r2 : Release) (b1 b2 : Binary) :
  package_list cfg = Some pl ->
  Forall known_type pl ->
  NoDup (map identifier pl) ->
  p ∈ pl ->
  get_bin_name cfg p = Ok bin_name ->
  get_install_path cfg p = Ok dest_path ->
  releases p = pre ++ r1 :: mid ++ r2 :: post ->
  release_get bin_name r1 = Some b1 ->
  release_get bin_name r2 = Some b2 ->
  hash b1 ≡ₚ hash b2 ->
  release_matches env disk dest_path b1 ->
  Forall (fun r => forall b, release_get bin_name r = Some b ->
                   ~ release_matches env disk dest_path b) pre ->
  release_matches env disk dest_path b2
  /\ (exists s',
        detect_installed_packages env cfg (initial_state disk) = (Ok tt, s')
        /\ recorded (identifier p) s' = Some (version r1))
  /\ (forall rest s,
        fs s = disk ->
        detect_releases env cfg p dest_path (pre ++ r1 :: rest) s
        = detect_releases env cfg p dest_path (pre ++ [r1]) s).
Proof.
  intros Hpl Hk Hnd Hin Hbin Hdest Hrels Hb1 Hb2 Hperm Hm Hpre.
  split; [| split].
  - unfold release_matches in *. by rewrite <- Hperm.
  - destruct (detect_installed_packages_entry disk pl p bin_name dest_path
                Hpl Hk Hnd Hin Hbin Hdest) as (s' & tbl0 & Hrun & _ & _ & Hentry).
    exists s'. split; [done |]. rewrite Hentry, Hrels.
    by apply (scan_releases_first_match env bin_name disk dest_path (identifier p)
                pre r1 b1 (mid ++ r2 :: post) tbl0).
  - intros rest s <-.
    rewrite !(detect_releases_eval env cfg p bin_name dest_path _ s Hbin).
    do 2 f_equal.
    by apply (scan_releases_first_match env bin_name (fs s) dest_path (identifier p)
                pre r1 b1 rest).
Qed.

End DetectClaims.

(** ** Reasoning about runs *)

Lemma bind_inv {A B} (m : M A) (k : A -> M B) s r s' :
  bind m k s = (r, s') ->
  (exists a s1, m s = (Ok a, s1) /\ k a s1 = (r, s'))
  \/ (exists e, m s = (Raise e, s') /\ r = Raise e)
  \/ (m s = (OutOfFuel, s') /\ r = OutOfFuel).
Proof.
  unfold bind. destruct (m s) as [[a | e |] s1]; intros H.
  - left. by exists a, s1.
  - right. left. exists e. by injection H as <- <-.
  - right. right. by injection H as <- <-.
Qed.

Lemma bind_ok {A B} (m : M A) (k : A -> M B) s b s' :
  bind m k s = (Ok b, s') ->
  exists a s1, m s = (Ok a, s1) /\ k a s1 = (Ok b, s').
Proof.
  intros H. apply bind_inv in H as [H | [(e & _ & [=]) | (_ & [=])]]. exact H.
Qed.

Lemma lift_inv {A} (x : result A) s r s' : lift x s = (r, s') -> r = x /\ s' = s.
Proof. by intros [= <- <-]. Qed.

Lemma same_table_refl s : same_table s s.
Proof. done. Qed.

Lemma same_table_trans s1 s2 s3 : same_table s1 s2 -> same_table s2 s3 -> same_table s1 s3.
Proof. intros [? ?] [? ?]. split; congruence. Qed.

Section Install.

Context (env : Env) (cfg : Config).

Lemma print_same line s r s' : print line s = (r, s') -> r = Ok tt /\ same_table s s'.
Proof. by intros [= <- <-]. Qed.

Lemma write_file_same path data s r s' :
  write_file path data s = (r, s') -> r = Ok tt /\ same_table s s'.
Proof. by intros [= <- <-]. Qed.

Lemma fetch_url_same u s r s' : fetch_url env u s = (r, s') -> same_table s s'.
Proof.
  unfold fetch_url. run. destruct (download_cache s !! u) as [data |].
  - by intros [= _ <-].
  - simpl. destruct (urlopen env u); by intros [= _ <-].
Qed.

Lemma dict_index_inv k d s r s' :
  dict_index k d s = (r, s') ->
  s' = s /\ ((exists v, dict_get k d = Some v /\ r = Ok v)
             \/ (dict_get k d = None /\ r = Raise (KeyError k))).
Proof.
  unfold dict_index. destruct (dict_get k d) as [v |]; intros [= <- <-].
  - split; [done |]. left. by exists v.
  - split; [done |]. by right.
Qed.

Lemma extract_files_same dest_path b data fl s r s' :
  extract_files env dest_path b data fl s = (r, s') -> same_table s s'.
Proof.
  revert s. induction fl as [| filename fl IH]; intros s; simpl.
  - by intros [= _ <-].
  - destruct (negb ((run_7z env data filename).1 =? 0)%Z); [by intros [= _ <-] |].
    intros H. apply bind_inv in H as [(h & s1 & H1 & H2) | [(e & H1 & _) | (H1 & _)]].
    + apply dict_index_inv in H1 as [-> _].
      destruct (negb (check_hash env (run_7z env data filename).2 h).1.1);
        [by injection H2 as _ <- |].
      apply bind_inv in H2 as [(u & s2 & H2 & H3) | [(e & H2 & _) | (H2 & _)]].
      * apply write_file_same in H2 as [_ H2]. apply IH in H3.
        by eapply same_table_trans.
      * by apply write_file_same in H2 as [_ H2].
      * by apply write_file_same in H2 as [_ H2].
    + by apply dict_index_inv in H1 as [-> _].
    + by apply dict_index_inv in H1 as [-> _].
Qed.

(** [install_files] either completes, setting the entry of the package to
    the version of the latest installable release and adding one
    materialization, or stops with the table as it found it. *)
Lemma install_files_cases p s r s' :
  install_files env cfg p s = (r, s') ->
  (exists rel, r = Ok tt
     /\ get_latest_installable_release cfg p = Ok (Some rel)
     /\ installed_packages s'
        = dict_set (identifier p) (version rel) (installed_packages s)
     /\ materialized s' = materialized s ++ [identifier p])
  \/ ((forall u, r <> Ok u) /\ same_table s s').
Proof.
  unfold install_files. intros H.
  apply bind_inv in H as [(dest & s1 & H1 & H) | [(e & H1 & ->) | (H1 & ->)]];
    apply lift_inv in H1 as [H1 ->]; [| by right | by right].
  apply bind_inv in H as [(bn & s1 & H2 & H) | [(e & H2 & ->) | (H2 & ->)]];
    apply lift_inv in H2 as [H2 ->]; [| by right | by right].
  apply bind_inv in H as [(orel & s1 & H3 & H) | [(e & H3 & ->) | (H3 & ->)]];
    apply lift_inv in H3 as [H3 ->]; [| by right | by right].
  destruct orel as [rel |]; [| injection H as <- <-; by right].
  destruct (release_get bn rel) as [b |]; [| injection H as <- <-; by right].
  apply bind_inv in H as [(data & s1 & H4 & H) | [(e & H4 & ->) | (H4 & ->)]];
    apply fetch_url_same in H4; [| by right | by right].
  apply bind_inv in H as [(u & s2 & H5 & H) | [(e & H5 & ->) | (H5 & ->)]].
  - assert (Hs2 : same_table s s2).
    { eapply same_table_trans; [exact H4 |].
      destruct (endswith (url b) ".7z" || endswith (url b) ".zip").
      - by eapply extract_files_same.
      - destruct (files b) as [| filename [| ? ?]]; try by injection H5 as _ <-.
        apply bind_inv in H5 as [(h & s3 & H5 & H6) | [(e & H5 & _) | (H5 & _)]];
          apply dict_index_inv in H5 as [-> _]; try done.
        destruct (negb (check_hash env data h).1.1); [by injection H6 as _ <- |].
        by apply write_file_same in H6 as [_ H6]. }
    left. exists rel. unfold bind, modify, print in H. injection H as <- <-. simpl.
    destruct Hs2 as [-> ->]. by rewrite H3.
  - right. split; [done |]. eapply same_table_trans; [exact H4 |].
    destruct (endswith (url b) ".7z" || endswith (url b) ".zip").
    + by eapply extract_files_same.
    + destruct (files b) as [| filename [| ? ?]]; try by injection H5 as _ <-.
      apply bind_inv in H5 as [(h & s3 & H5 & H6) | [(e' & H5 & _) | (H5 & _)]];
        apply dict_index_inv in H5 as [-> _]; try done.
      destruct (negb (check_hash env data h).1.1); [by injection H6 as _ <- |].
      by apply write_file_same in H6 as [_ H6].
  - right. split; [done |]. eapply same_table_trans; [exact H4 |].
    destruct (endswith (url b) ".7z" || endswith (url b) ".zip").
    + by eapply extract_files_same.
    + destruct (files b) as [| filename [| ? ?]]; try by injection H5 as _ <-.
      apply bind_inv in H5 as [(h & s3 & H5 & H6) | [(e' & H5 & _) | (H5 & _)]];
        apply dict_index_inv in H5 as [-> _]; try done.
      destruct (negb (check_hash env data h).1.1); [by injection H6 as _ <- |].
      by apply write_file_same in H6 as [_ H6].
Qed.

End Install.

(** ** What a run of [install_package] can do to the table *)

Lemma install_step_same s s' : same_table s s' -> install_step s s'.
Proof.
  intros [Ht Hm]. exists []. unfold recorded. rewrite Ht, Hm, app_nil_r.
  split; [done |]. split; [constructor |]. split; [by intros id ?%elem_of_nil |].
  split; [| done]. intros id. split; [by left |].
  intros [H | H%elem_of_nil]; [done | done].
Qed.

Lemma install_step_refl s : install_step s s.
Proof. by apply install_step_same. Qed.

Lemma install_step_trans s1 s2 s3 :
  install_step s1 s2 -> install_step s2 s3 -> install_step s1 s3.
Proof.
  intros (n1 & Hm1 & Hd1 & Hf1 & Hk1 & Hp1) (n2 & Hm2 & Hd2 & Hf2 & Hk2 & Hp2).
  exists (n1 ++ n2). split; [by rewrite Hm2, Hm1, app_assoc |].
  split.
  { apply NoDup_app. split; [done |]. split; [| done].
    intros id Hin1 Hin2. specialize (Hf2 id Hin2).
    assert (is_Some (recorded id s2)) as [v Hv] by (apply Hk1; by right).
    congruence. }
  split.
  { intros id [Hin | Hin]%elem_of_app; [by apply Hf1 |].
    specialize (Hf2 id Hin). destruct (recorded id s1) as [v |] eqn:E; [| done].
    apply Hp1 in E. congruence. }
  split.
  - intros id. rewrite Hk2, Hk1, elem_of_app. tauto.
  - intros id v Hv. by apply Hp2, Hp1.
Qed.





Lemma install_step_keeps s s' id :
  install_step s s' -> is_Some (recorded id s) -> is_Some (recorded id s').
Proof. intros (new & _ & _ & _ & Hk & _) H. apply Hk. by left. Qed.

Section InstallPackage.

Context (env : Env) (cfg : Config).

Lemma install_files_step p s r s' :
  recorded (identifier p) s = None ->
  install_files env cfg p s = (r, s') ->
  install_step s s' /\ (forall u, r = Ok u -> is_Some (recorded (identifier p) s')).
Proof.
  intros Hnone H.
  apply install_files_cases in H as [(rel & -> & _ & Ht & Hm) | [Hr Hsame]].
  - split.
    + exists [identifier p]. split; [done |]. split; [apply NoDup_singleton |].
      split; [by intros id ->%list_elem_of_singleton |].
      unfold recorded. rewrite Ht. split.
      * intros id. rewrite list_elem_of_singleton.
        destruct (decide (identifier p = id)) as [<- | Hne].
        -- rewrite dict_get_set_eq. split; [by right | by eexists].
        -- rewrite dict_get_set_ne by done. split; [by left |].
           intros [? | ->]; [done | done].
      * intros id v Hv. rewrite dict_get_set_ne; [done |].
        intros <-. unfold recorded in Hnone. congruence.
    + intros _ _. unfold recorded. rewrite Ht, dict_get_set_eq. by eexists.
  - split; [by apply install_step_same |]. intros u ->. by destruct (Hr u).
Qed.

Lemma install_dependencies_step (install : string -> M (nat * nat)) deps :
  (forall dep s r s', install dep s = (r, s') -> install_step s s') ->
  forall inst s r s',
    install_dependencies install deps inst s = (r, s') -> install_step s s'.
Proof.
  intros Hinst. induction deps as [| dep deps IH]; intros inst s r s'; simpl.
  - intros [= _ <-]. apply install_step_refl.
  - intros H. apply bind_inv in H as [(res & s1 & H1 & H2) | [(e & H1 & _) | (H1 & _)]].
    + eapply install_step_trans; [by eapply Hinst | by eapply IH].
    + by eapply Hinst.
    + by eapply Hinst.
Qed.

(** Whatever its outcome, a run of [install_package] is an install step. *)
Lemma install_package_step fuel nm s r s' :
  install_package env cfg fuel nm s = (r, s') -> install_step s s'.
Proof.
  revert nm s r s'. induction fuel as [| fuel IH]; intros nm s r s'; simpl.
  - intros [= _ <-]. apply install_step_refl.
  - intros H.
    apply bind_inv in H as [(p & s1 & H1 & H) | [(e & H1 & _) | (H1 & _)]];
      apply lift_inv in H1 as [H1 ->]; try apply install_step_refl.
    apply bind_inv in H as [(ci & s1 & H2 & H) | [(e & H2 & _) | (H2 & _)]];
      apply lift_inv in H2 as [H2 ->]; try apply install_step_refl.
    destruct ci.
    + apply bind_inv in H as [(inst & s1 & H3 & H) | [(e & H3 & _) | (H3 & _)]].
      * assert (Hs1 : install_step s s1).
        { destruct (dependencies p) as [deps |].
          - eapply install_dependencies_step; [| exact H3]. intros; by eapply IH.
          - injection H3 as _ <-. apply install_step_refl. }
        unfold bind at 1, is_package_installed, gets in H.
        destruct (dict_mem (identifier p) (installed_packages s1)) eqn:Hmem; simpl in H.
        -- injection H as _ <-. exact Hs1.
        -- apply dict_mem_false in Hmem.
           apply bind_inv in H as [(u & s2 & H4 & H) | [(e & H4 & _) | (H4 & _)]].
           ++ injection H as _ <-. eapply install_step_trans; [exact Hs1 |].
              by eapply install_files_step.
           ++ eapply install_step_trans; [exact Hs1 |]. by eapply install_files_step.
           ++ eapply install_step_trans; [exact Hs1 |]. by eapply install_files_step.
      * destruct (dependencies p) as [deps |]; [| done].
        eapply install_dependencies_step; [| exact H3]. intros; by eapply IH.
      * destruct (dependencies p) as [deps |]; [| done].
        eapply install_dependencies_step; [| exact H3]. intros; by eapply IH.
    + unfold bind, print, modify, ret in H. injection H as _ <-.
      by apply install_step_same.
Qed.

(** A completed install of an installable package leaves it recorded. *)
Lemma install_package_ok_recorded fuel nm p s counts s' :
  get_package_from_name env cfg nm = Ok p ->
  can_install cfg p = Ok true ->
  install_package env cfg fuel nm s = (Ok counts, s') ->
  is_Some (recorded (identifier p) s').
Proof.
  intros Hp Hci H. destruct fuel as [| fuel]; [done |]. simpl in H.
  apply bind_ok in H as (p' & s1 & H1 & H). apply lift_inv in H1 as [H1 ->].
  rewrite Hp in H1. injection H1 as ->.
  apply bind_ok in H as (ci & s1 & H2 & H). apply lift_inv in H2 as [H2 ->].
  rewrite Hci in H2. injection H2 as ->.
  apply bind_ok in H as (inst & s1 & H3 & H).
  unfold bind at 1, is_package_installed, gets in H.
  destruct (dict_mem (identifier p) (installed_packages s1)) eqn:Hmem; simpl in H.
  - injection H as _ <-. by apply dict_mem_true.
  - apply dict_mem_false in Hmem.
    apply bind_ok in H as (u & s2 & H4 & H). injection H as _ <-.
    by eapply install_files_step.
Qed.

(** A completed dependency loop has run [install] on each dependency, and
    what follows it in the loop is a sequence of install steps. *)
Lemma install_dependencies_ok_visits (install : string -> M (nat * nat)) deps dep :
  (forall d s r s', install d s = (r, s') -> install_step s s') ->
  dep ∈ deps ->
  forall inst s total s',
    install_dependencies install deps inst s = (Ok total, s') ->
    exists sa res sb, install dep sa = (Ok res, sb) /\ install_step sb s'.
Proof.
  intros Hinst. induction deps as [| d deps IH]; intros Hin inst s total s' H;
    [by apply elem_of_nil in Hin |].
  simpl in H. apply bind_ok in H as (res & s1 & H1 & H2).
  apply elem_of_cons in Hin as [-> | Hin].
  - exists s, res, s1. split; [done |]. by eapply install_dependencies_step.
  - by eapply IH.
Qed.



(** A package without a release for the active target is skipped, and
    its dependencies with it. *)
Lemma install_package_skipped fuel nm p s r s' :
  get_package_from_name env cfg nm = Ok p ->
  can_install cfg p = Ok false ->
  install_package env cfg fuel nm s = (r, s') ->
  same_table s s'.
Proof.
  intros Hp Hci H. destruct fuel as [| fuel]; [by injection H as _ <- |].
  simpl in H. unfold bind at 1, lift in H. rewrite Hp in H.
  unfold bind at 1, lift in H. rewrite Hci in H.
  unfold bind, print, modify, ret in H. by injection H as _ <-.
Qed.


End InstallPackage.

(** ** Hash enforcement *)

Section HashEnforcement.

Context (env : Env) (cfg : Config).

Lemma fetch_url_fetched u data s :
  fetched env s u data ->
  exists s1, fetch_url env u s = (Ok data, s1) /\ same_table s s1.
Proof.
  unfold fetch_url. run. intros [Hc | [Hc Hn]]; rewrite Hc; simpl.
  - by exists s.
  - rewrite Hn. by eexists.
Qed.

Lemma negb_verdict data expected :
  (check_hash env data expected).1.2 <> expected ->
  negb (check_hash env data expected).1.1 = true.
Proof.
  intros Hne. destruct ((check_hash env data expected).1.1) eqn:E; [| done].
  by apply check_hash_verdict in E.
Qed.

Lemma extract_files_mismatch dest_path b data pre filename post expected s :
  Forall (member_ok env b data) pre ->
  (run_7z env data filename).1 = 0%Z ->
  dict_get (rsplit_last filename) (hash b) = Some expected ->
  (check_hash env (run_7z env data filename).2 expected).1.2 <> expected ->
  exists s',
    extract_files env dest_path b data (pre ++ filename :: post) s
    = (Raise (hash_mismatch (check_hash env (run_7z env data filename).2 expected)), s').
Proof.
  intros Hpre Hrc Hget Hne. revert s.
  induction pre as [| g pre IH]; intros s; simpl.
  - rewrite Hrc. simpl. unfold bind, dict_index. rewrite Hget. unfold ret.
    rewrite negb_verdict by done. by eexists.
  - apply Forall_cons in Hpre as [(h & Hg_rc & Hg_get & Hg_ok) Hpre].
    rewrite Hg_rc. simpl. unfold bind at 1, dict_index. rewrite Hg_get. unfold ret at 1.
    rewrite Hg_ok. simpl. unfold bind at 1, write_file, modify. apply (IH Hpre).
Qed.

(** C4: when the payload step computes a digest that differs from the
    declared one, [install_files] raises the hash-mismatch exception
    whose message carries the digest obtained and the digest expected,
    and leaves the installed-state table (and the record of completed
    materializations) as it found them. *)
Theorem install_files_hash_mismatch (p : Package) (dest_path bin_name : string)
    (rel : Release) (b : Binary) (data : bytes) (actual expected : string) (s : State) :
  get_install_path cfg p = Ok dest_path ->
  get_bin_name cfg p = Ok bin_name ->
  get_latest_installable_release cfg p = Ok (Some rel) ->
  release_get bin_name rel = Some b ->
  fetched env s (url b) data ->
  hash_differs env b data actual expected ->
  exists s',
    install_files env cfg p s
    = (Raise (Exception ("Hash mismatch got " +:+ actual +:+ " but expected "
                         +:+ expected)), s')
    /\ installed_packages s' = installed_packages s
    /\ materialized s' = materialized s.
Proof.
  intros Hdest Hbin Hrel Hb Hfetch [Hne Hdiff].
  destruct (fetch_url_fetched (url b) data s Hfetch) as (s1 & Hf & Hsame1).
  assert (exists s',
    install_files env cfg p s
    = (Raise (Exception ("Hash mismatch got " +:+ actual +:+ " but expected "
                         +:+ expected)), s')) as [s' Hrun].
  { unfold install_files. unfold bind at 1, lift. rewrite Hdest.
    unfold bind at 1, lift. rewrite Hbin. unfold bind at 1, lift. rewrite Hrel, Hb.
    unfold bind at 1. rewrite Hf. unfold bind at 1.
    destruct (endswith (url b) ".7z" || endswith (url b) ".zip").
    - destruct Hdiff as (pre & filename & post & Hfiles & Hpre & Hrc & Hget & Hact).
      rewrite Hfiles.
      destruct (extract_files_mismatch dest_path b data pre filename post expected s1
                  Hpre Hrc Hget) as [s2 Hx]; [by rewrite Hact |].
      rewrite Hx. exists s2. unfold hash_mismatch.
      by rewrite Hact, check_hash_expected.
    - destruct Hdiff as (filename & Hfiles & Hget & Hact). rewrite Hfiles.
      unfold bind at 1, dict_index. rewrite Hget. unfold ret at 1.
      rewrite negb_verdict by (by rewrite Hact). unfold raise. exists s1.
      unfold hash_mismatch. by rewrite Hact, check_hash_expected. }
  exists s'. split; [done |].
  apply install_files_cases in Hrun as [(? & [=] & _) | [_ [Ht Hm]]]. by split.
Qed.

End HashEnforcement.

(** ** Uninstall *)

Section Uninstall.

Context (env : Env) (cfg : Config).

Lemma find_installed_rel_eval id cur rels s :
  recorded id s = Some cur ->
  find_installed_rel id rels s
  = (Ok (List.find (fun rel => String.eqb (version rel) cur) rels), s).
Proof.
  intros Hcur. induction rels as [| rel rels IH]; simpl; [done |].
  unfold bind, installed_version. unfold recorded in Hcur. rewrite Hcur.
  destruct (String.eqb (version rel) cur); [done | exact IH].
Qed.

Lemma remove_files_table dest_path h s r s' :
  remove_files env dest_path h s = (r, s') ->
  installed_packages s' = installed_packages s.
Proof.
  revert s. induction h as [| [f ref_hash] h IH]; intros s; simpl.
  - by intros [= _ <-].
  - unfold bind, os_remove.
    destruct (fs s !! path_join env dest_path f); [| by intros [= _ <-]].
    intros H. by apply IH in H.
Qed.

(** Removing the files of a hash mapping that are all present, under
    pairwise distinct paths, succeeds and deletes exactly those paths. *)
Lemma remove_files_eval dest_path h s :
  NoDup (map (fun fh => path_join env dest_path fh.1) h) ->
  Forall (fun fh => file_present env (fs s) dest_path fh.1) h ->
  exists s',
    remove_files env dest_path h s = (Ok tt, s')
    /\ forall path,
         fs s' !! path
         = if decide (path ∈ map (fun fh => path_join env dest_path fh.1) h)
           then None else fs s !! path.
Proof.
  revert s. induction h as [| [f ref_hash] h IH]; intros s Hnd Hpres; simpl.
  - exists s. split; [done |]. intros path.
    destruct (decide (path ∈ [])) as [Hin | _]; [by apply elem_of_nil in Hin | done].
  - simpl in Hnd. apply NoDup_cons in Hnd as [Hfresh Hnd].
    apply Forall_cons in Hpres as [[data Hf] Hpres]. simpl in Hf.
    unfold bind at 1, os_remove. rewrite Hf.
    set (s1 := {| installed_packages := installed_packages s;
                  download_cache := download_cache s;
                  fs := delete (path_join env dest_path f) (fs s);
                  stdout := stdout s;
                  materialized := materialized s |}).
    assert (Hpres1 : Forall (fun fh => file_present env (fs s1) dest_path fh.1) h).
    { apply Forall_forall. intros fh Hin.
      apply Forall_forall with (x := fh) in Hpres; [| done].
      unfold file_present in *. simpl. rewrite lookup_delete_ne; [done |].
      intros E. apply Hfresh. rewrite E.
      apply list_elem_of_fmap. by exists fh. }
    destruct (IH s1 Hnd Hpres1) as (s' & Hrun & Hfs).
    exists s'. split; [exact Hrun |]. intros path. rewrite Hfs. simpl.
    destruct (decide (path = path_join env dest_path f)) as [-> | Hne].
    + rewrite (decide_True (P := _ ∈ _ :: _)) by (by left).
      destruct (decide _); [done | apply lookup_delete_eq].
    + rewrite lookup_delete_ne by done.
      destruct (decide (path ∈ map (fun fh => path_join env dest_path fh.1) h))
        as [Hin | Hin].
      * rewrite decide_True; [done | by right].
      * rewrite decide_False; [done |].
        intros [? | ?]%elem_of_cons; [done | done].
Qed.

End Uninstall.

Section UninstallClaims.

Context (env : Env) (cfg : Config).

(** C6: for a package installed at a known version (its entry is a version
    other than Unknown, the first release carrying that version has a
    descriptor for the target, and the files of that descriptor's hash
    mapping are on disk under distinct paths) [uninstall_package] returns
    (1, 0) and deletes exactly those files; for a package with no entry or
    recorded as Unknown it returns (0, 0) and leaves every file alone. *)
Theorem uninstall_package_contract (nm : string) (p : Package) (s : State) :
  get_package_from_name env cfg nm = Ok p ->
  (forall cur dest_path bin_name pre rel post b,
     recorded (identifier p) s = Some cur ->
     cur <> "Unknown" ->
     get_install_path cfg p = Ok dest_path ->
     get_bin_name cfg p = Ok bin_name ->
     releases p = pre ++ rel :: post ->
     version rel = cur ->
     Forall (fun r => version r <> cur) pre ->
     release_get bin_name rel = Some b ->
     NoDup (release_paths env dest_path b) ->
     release_present env (fs s) dest_path b ->
     exists s',
       uninstall_package env cfg nm s = (Ok (1, 0), s')
       /\ forall path,
            fs s' !! path
            = if decide (path ∈ release_paths env dest_path b)
              then None else fs s !! path)
  /\ (recorded (identifier p) s = None \/ recorded (identifier p) s = Some "Unknown" ->
      exists s', uninstall_package env cfg nm s = (Ok (0, 0), s') /\ fs s' = fs s).
Proof.
  intros Hp. split.
  - intros cur dest_path bin_name pre rel post b Hcur Hknown Hdest Hbin Hrels Hver
      Hpre Hb Hnd Hpres.
    unfold uninstall_package. unfold bind at 1, lift. rewrite Hp.
    unfold bind at 1, is_package_installed, gets, dict_mem.
    pose proof Hcur as Hcur'. unfold recorded in Hcur'. rewrite Hcur'.
    unfold bind at 1, installed_version. rewrite Hcur'.
    destruct (String.eqb_spec cur "Unknown") as [E | _]; [done |].
    unfold bind at 1, uninstall_files.
    unfold bind at 1, lift. rewrite Hdest. unfold bind at 1, lift. rewrite Hbin.
    unfold bind at 1. rewrite (find_installed_rel_eval _ cur _ s Hcur).
    assert (Hfind : List.find (fun r => String.eqb (version r) cur) (releases p)
                    = Some rel).
    { apply find_first. exists pre, post. split; [done |]. split.
      - by apply String.eqb_eq.
      - eapply Forall_impl; [exact Hpre |]. intros r Hr. simpl.
        by apply String.eqb_neq. }
    rewrite Hfind, Hb.
    destruct (remove_files_eval env dest_path (hash b) s Hnd Hpres) as (s1 & Hrm & Hfs).
    rewrite Hrm.
    pose proof (remove_files_table env dest_path (hash b) s (Ok tt) s1 Hrm) as Htbl.
    unfold bind at 1. rewrite <- Htbl in Hcur'. rewrite Hcur'.
    unfold bind, print, modify, ret. eexists. split; [done |]. exact Hfs.
  - unfold uninstall_package. unfold bind at 1, lift. rewrite Hp.
    unfold bind at 1, is_package_installed, gets, dict_mem, recorded.
    intros [Hnone | Hunk].
    + rewrite Hnone. unfold bind, print, modify, ret. by eexists.
    + rewrite Hunk. unfold bind at 1, installed_version. rewrite Hunk. simpl.
      unfold bind, print, modify, ret. by eexists.
Qed.

(** C7 (as amended): [uninstall_package] never touches the installed-state
    table: whatever its outcome, and in particular after a successful
    uninstall, every identifier is recorded exactly as before. *)
Theorem uninstall_package_keeps_table (nm : string) (s s' : State)
    (r : result (nat * nat)) :
  uninstall_package env cfg nm s = (r, s') ->
  installed_packages s' = installed_packages s
  /\ forall id, recorded id s' = recorded id s.
Proof.
  intros H. assert (Ht : installed_packages s' = installed_packages s).
  2: { split; [done |]. intros id. unfold recorded. by rewrite Ht. }
  unfold uninstall_package in H.
  apply bind_inv in H as [(p & s1 & H1 & H) | [(e & H1 & _) | (H1 & _)]];
    apply lift_inv in H1 as [_ ->]; [| done | done].
  unfold bind at 1, is_package_installed, gets in H.
  destruct (dict_mem (identifier p) (installed_packages s)).
  2: { unfold bind, print, modify, ret in H. by injection H as _ <-. }
  apply bind_inv in H as [(cur & s1 & H1 & H) | [(e & H1 & _) | (H1 & _)]].
  2, 3: unfold installed_version in H1;
        destruct (dict_get _ _); by injection H1 as _ <-.
  assert (s1 = s) as ->.
  { unfold installed_version in H1. destruct (dict_get _ _); by injection H1 as _ <-. }
  destruct (String.eqb cur "Unknown").
  { unfold bind, print, modify, ret in H. by injection H as _ <-. }
  assert (Hun : forall r1 s1, uninstall_files env cfg p s = (r1, s1) ->
                              installed_packages s1 = installed_packages s).
  { intros r1 s1 Hu. unfold uninstall_files in Hu.
    apply bind_inv in Hu as [(d & s2 & H2 & Hu) | [(e & H2 & _) | (H2 & _)]];
      apply lift_inv in H2 as [_ ->]; [| done | done].
    apply bind_inv in Hu as [(bn & s2 & H2 & Hu) | [(e & H2 & _) | (H2 & _)]];
      apply lift_inv in H2 as [_ ->]; [| done | done].
    assert (Hfind : forall rels r2 s2, find_installed_rel (identifier p) rels s = (r2, s2)
                                       -> s2 = s).
    { induction rels as [| rel rels IH]; intros r2 s2; simpl.
      - by intros [= _ <-].
      - unfold bind, installed_version. destruct (dict_get _ _); [| by intros [= _ <-]].
        destruct (String.eqb _ _); [by intros [= _ <-] |].
        intros Hf. eapply IH. unfold bind, installed_version in Hf. exact Hf. }
    apply bind_inv in Hu as [(orel & s2 & H2 & Hu) | [(e & H2 & _) | (H2 & _)]];
      apply Hfind in H2 as ->; [| done | done].
    destruct orel as [rel |]; [| by injection Hu as _ <-].
    destruct (release_get bn rel) as [b |]; [| by injection Hu as _ <-].
    by eapply remove_files_table. }
  apply bind_inv in H as [(u & s1 & H1' & H) | [(e & H1' & _) | (H1' & _)]];
    apply Hun in H1'; [| done | done].
  apply bind_inv in H as [(cur' & s2 & H2 & H) | [(e & H2 & _) | (H2 & _)]].
  2, 3: unfold installed_version in H2;
        destruct (dict_get _ _); injection H2 as _ <-; done.
  assert (s2 = s1) as ->.
  { unfold installed_version in H2. destruct (dict_get _ _); by injection H2 as _ <-. }
  unfold bind, print, modify, ret in H. by injection H as _ <-.
Qed.

End UninstallClaims.

(** ** Upgrading every installed package *)

Section UpgradeAll.

Context (env : Env) (cfg : Config).

Lemma is_package_upgradable_state id force s r s' :
  is_package_upgradable cfg id force s = (r, s') -> s' = s.
Proof.
  unfold is_package_upgradable. intros H.
  apply bind_inv in H as [(rel & s1 & H1 & H) | [(e & H1 & _) | (H1 & _)]];
    apply lift_inv in H1 as [_ ->]; [| done | done].
  unfold bind, is_package_installed, gets, and_then, installed_version, ret, dict_mem in H.
  destruct (dict_get id (installed_packages s)) as [cur |] eqn:Hcur, force,
    rel as [rel |]; simpl in H; rewrite ?Hcur in H; try (by injection H as _ <-).
  destruct (negb (String.eqb cur "Unknown")); simpl in H; rewrite ?Hcur in H;
    by injection H as _ <-.
Qed.

(** A batch that completes has seen the table keep its size. *)
Lemma upgrade_all_ok_size fuel force size0 ids inst s inst' s' :
  upgrade_all env cfg fuel force size0 ids inst s = (Ok inst', s') ->
  length (installed_packages s') = size0.
Proof.
  revert inst s. induction ids as [| id ids IH]; intros inst s; simpl.
  - unfold bind, gets.
    destruct (Nat.eqb_spec (length (installed_packages s)) size0) as [E | _]; simpl;
      [| done].
    by intros [= _ <-].
  - unfold bind at 1, gets.
    destruct (negb (length (installed_packages s) =? size0)); [done |].
    intros H. apply bind_ok in H as (up & s1 & H1 & H).
    destruct up; [| by eapply IH].
    apply bind_ok in H as (p & s2 & H2 & H). apply bind_ok in H as (res & s3 & H3 & H).
    by eapply IH.
Qed.

Lemma upgrade_all_unfold fuel force size0 ids inst s :
  upgrade_all env cfg fuel force size0 ids inst s
  = if negb (length (installed_packages s) =? size0)
    then (Raise (RuntimeError "dictionary changed size during iteration"), s)
    else match ids with
         | [] => (Ok inst, s)
         | id :: ids' =>
             bind (is_package_upgradable cfg id force)
               (fun upgradable =>
                  if upgradable then
                    p <- require_package_from_id cfg id;;
                    res <- upgrade_files env cfg fuel p;;
                    upgrade_all env cfg fuel force size0 ids'
                      (inst.1 + res.1, inst.2 + res.2)
                  else upgrade_all env cfg fuel force size0 ids' inst) s
         end.
Proof.
  destruct ids; simpl; unfold bind at 1, gets;
    by destruct (negb (length (installed_packages s) =? size0)).
Qed.

(** The loop over a concatenation is the loop over its first part followed
    by the loop over the rest. *)
Lemma upgrade_all_app fuel force size0 pre rest inst s :
  upgrade_all env cfg fuel force size0 (pre ++ rest) inst s
  = bind (upgrade_all env cfg fuel force size0 pre inst)
         (fun inst1 => upgrade_all env cfg fuel force size0 rest inst1) s.
Proof.
  revert inst s. induction pre as [| id pre IH]; intros inst s.
  - change ([] ++ rest) with rest. unfold bind.
    rewrite (upgrade_all_unfold fuel force size0 [] inst s).
    destruct (negb (length (installed_packages s) =? size0)) eqn:E; [| done].
    by rewrite upgrade_all_unfold, E.
  - change ((id :: pre) ++ rest) with (id :: (pre ++ rest)). unfold bind at 1.
    rewrite (upgrade_all_unfold fuel force size0 (id :: pre ++ rest) inst s),
            (upgrade_all_unfold fuel force size0 (id :: pre) inst s).
    destruct (negb (length (installed_packages s) =? size0)); [done |].
    unfold bind.
    destruct (is_package_upgradable cfg id force s) as [[[|] | e |] s1];
      [| apply IH | reflexivity | reflexivity].
    destruct (require_package_from_id cfg id s1) as [[p | e |] s2];
      [| reflexivity | reflexivity].
    destruct (upgrade_files env cfg fuel p s2) as [[res | e |] s3];
      [apply IH | reflexivity | reflexivity].
Qed.

Lemma upgrade_dependencies_step fuel deps inst s r s' :
  upgrade_dependencies env cfg fuel deps inst s = (r, s') -> install_step s s'.
Proof.
  revert inst s. induction deps as [| dep deps IH]; intros inst s; simpl.
  - intros [= _ <-]. apply install_step_refl.
  - unfold bind at 1, is_package_installed, gets.
    destruct (negb (dict_mem dep (installed_packages s))); [| apply IH].
    intros H. apply bind_inv in H as [(res & s1 & H1 & H) | [(e & H1 & _) | (H1 & _)]].
    + eapply install_step_trans; [by eapply install_package_step | by eapply IH].
    + by eapply install_package_step.
    + by eapply install_package_step.
Qed.



End UpgradeAll.

(** ** What a recorded version means right after detection *)

Section DetectedVersion.

Context (env : Env) (cfg : Config).

(** A version other than Unknown in the scanned entry comes from a
    release of that version whose files all match. *)
Lemma scan_releases_version bin_name disk dest_path id rels tbl cur :
  dict_get id (scan_releases env bin_name disk dest_path id rels tbl) = Some cur ->
  cur <> "Unknown" ->
  dict_get id tbl = Some cur
  \/ exists r b, r ∈ rels /\ version r = cur /\ release_get bin_name r = Some b
                 /\ release_matches env disk dest_path b.
Proof.
  revert tbl. induction rels as [| v rels IH]; intros tbl Hget Hknown; simpl in Hget.
  - by left.
  - assert (Hrest : forall tbl',
              dict_get id (scan_releases env bin_name disk dest_path id rels tbl')
              = Some cur ->
              dict_get id tbl' = Some cur
              \/ exists r b, r ∈ v :: rels /\ version r = cur
                             /\ release_get bin_name r = Some b
                             /\ release_matches env disk dest_path b).
    { intros tbl' H'. destruct (IH tbl' H' Hknown) as [? | (r & b & Hin & ?)];
        [by left | right]. exists r, b. split; [by right | done]. }
    destruct (release_get bin_name v) as [b |] eqn:Hb; [| by apply Hrest].
    destruct (forallb (file_matchb env disk dest_path) (hash b)) eqn:Hm.
    + rewrite dict_get_set_eq in Hget. injection Hget as Hv. right.
      exists v, b. split; [by left |]. split; [done |]. split; [done |].
      by apply forallb_matches.
    + destruct (forallb (file_presentb env disk dest_path) (hash b)); [| by apply Hrest].
      destruct (Hrest _ Hget) as [Hu | ?]; [| by right].
      rewrite dict_get_set_eq in Hu. by injection Hu as Hu.
Qed.

Lemma first_with_version (rels : list Release) (r : Release) :
  NoDup (map version rels) ->
  r ∈ rels ->
  exists pre post, rels = pre ++ r :: post
                   /\ Forall (fun r' => version r' <> version r) pre.
Proof.
  induction rels as [| v rels IH]; intros Hnd Hin; [by apply elem_of_nil in Hin |].
  simpl in Hnd. apply NoDup_cons in Hnd as [Hfresh Hnd].
  destruct (decide (version v = version r)) as [E | Hne].
  - assert (v = r) as ->.
    { apply elem_of_cons in Hin as [-> | Hin]; [done |].
      exfalso. apply Hfresh. rewrite E. apply list_elem_of_fmap. by exists r. }
    by exists [], rels.
  - apply elem_of_cons in Hin as [-> | Hin]; [done |].
    destruct (IH Hnd Hin) as (pre & post & -> & Hpre).
    exists (v :: pre), post. split; [done |]. by constructor.
Qed.

Lemma release_matches_present disk dest_path b :
  release_matches env disk dest_path b -> release_present env disk dest_path b.
Proof.
  unfold release_matches, release_present. intros H.
  eapply Forall_impl; [exact H |]. intros fh (data & Hdata & _). by exists data.
Qed.

(** X23: right after detection, a package recorded at a version other than
    Unknown has, as the first release of that version (versions being
    distinct within the package), a release with a descriptor for the
    target whose files are all on disk: what [uninstall_files] relies on. *)
Lemma detected_version_on_disk (disk : gmap string bytes) (pl : list Package)
    (p : Package) (bin_name dest_path cur : string) (s' : State) :
  package_list cfg = Some pl ->
  Forall known_type pl ->
  NoDup (map identifier pl) ->
  p ∈ pl ->
  get_bin_name cfg p = Ok bin_name ->
  get_install_path cfg p = Ok dest_path ->
  NoDup (map version (releases p)) ->
  detect_installed_packages env cfg (initial_state disk) = (Ok tt, s') ->
  recorded (identifier p) s' = Some cur ->
  cur <> "Unknown" ->
  exists pre rel post b,
    releases p = pre ++ rel :: post
    /\ version rel = cur
    /\ Forall (fun r => version r <> cur) pre
    /\ release_get bin_name rel = Some b
    /\ release_matches env (fs s') dest_path b
    /\ release_present env (fs s') dest_path b.
Proof.
  intros Hpl Hk Hnd Hin Hbin Hdest Hver Hrun Hcur Hknown.
  destruct (detect_installed_packages_entry env cfg disk pl p bin_name dest_path
              Hpl Hk Hnd Hin Hbin Hdest) as (s1 & tbl0 & Hrun1 & Hfs & Htbl0 & Hentry).
  rewrite Hrun in Hrun1. injection Hrun1 as <-.
  rewrite Hentry in Hcur.
  destruct (scan_releases_version _ _ _ _ _ _ _ Hcur Hknown)
    as [Habs | (r & b & Hr & Hv & Hb & Hm)]; [congruence |].
  destruct (first_with_version (releases p) r Hver Hr) as (pre & post & Hrels & Hpre).
  exists pre, r, post, b. rewrite Hfs. rewrite Hv in Hpre.
  repeat split; try done. by apply release_matches_present.
Qed.

End DetectedVersion.

(** * The claims on the example world *)

Section Examples.

Import Demo.

Lemma catalog_known_types : Forall known_type catalog.
Proof. repeat constructor; by right. Qed.

Lemma catalog_identifiers_distinct : NoDup (map identifier catalog).
Proof. apply (bool_decide_unpack _). by vm_compute. Qed.

(** C10 on the stand-in digests: a 40-character reference goes through
    the SHA-1 stand-in, a 7-character one through the SHA-256 stand-in. *)
Lemma check_hash_by_length_witness :
  check_hash env (B "abc") "abc0000000000000000000000000000000000000"
  = (true, "abc0000000000000000000000000000000000000",
     "abc0000000000000000000000000000000000000")
  /\ check_hash env (B "abc") "256:abc" = (true, "256:abc", "256:abc").
Proof.
  split.
  - rewrite (proj1 (check_hash_by_length env (B "abc")
                      "abc0000000000000000000000000000000000000") eq_refl).
    reflexivity.
  - rewrite (proj2 (check_hash_by_length env (B "abc") "256:abc"));
      [reflexivity | by vm_compute].
Defined.

(** C5 on the example world.  X is recorded at 1.0 and 2.0 is its latest
    installable release: upgradable.  P is recorded as Unknown: not
    upgradable without force, upgradable with it. *)
Lemma is_package_upgradable_iff_witness :
  is_package_upgradable cfg "com.demo.x" false (detected disk_xy)
  = (Ok true, detected disk_xy)
  /\ is_package_upgradable cfg "com.demo.p" false (detected disk_unknown_p)
     = (Ok false, detected disk_unknown_p)
  /\ is_package_upgradable cfg "com.demo.p" true (detected disk_unknown_p)
     = (Ok true, detected disk_unknown_p).
Proof.
  split; [| split].
  - destruct (is_package_upgradable_iff cfg "com.demo.x" false
                [pkgA; pkgB; pkgC; pkgP; pkgQ; pkgT; pkgU; pkgV] [pkgY] pkgX win64
                (detected disk_xy))
      as (verdict & Hrun & Hiff).
    + reflexivity.
    + reflexivity.
    + repeat constructor; by vm_compute.
    + right. left. by repeat split.
    + rewrite Hrun. f_equal. f_equal. apply Hiff.
      exists "1.0", [],
        (rel64 "2.0" "http://repo/x-2.0.dll" ["x.dll"] [("x.dll", "256:x 2.0")]),
        [rel64 "1.0" "http://repo/x-1.0.dll" ["x.dll"] [("x.dll", "256:x 1.0")]].
      split; [by vm_compute |]. split; [reflexivity |]. split; [by eexists |].
      split; [constructor |]. by split.
  - destruct (is_package_upgradable_iff cfg "com.demo.p" false
                [pkgA; pkgB; pkgC] [pkgQ; pkgT; pkgU; pkgV; pkgX; pkgY] pkgP win64
                (detected disk_unknown_p))
      as (verdict & Hrun & Hiff).
    + reflexivity.
    + reflexivity.
    + repeat constructor; by vm_compute.
    + right. left. by repeat split.
    + rewrite Hrun. f_equal. f_equal. destruct verdict; [| done]. exfalso.
      destruct (proj1 Hiff eq_refl) as (cur & pre & rel & post & Hcur & _ & _ & _ & _ & Hu).
      apply Hu; [done |].
      assert (E : dict_get "com.demo.p" (installed_packages (detected disk_unknown_p))
                  = Some "Unknown") by (by vm_compute).
      rewrite E in Hcur. by injection Hcur as <-.
  - destruct (is_package_upgradable_iff cfg "com.demo.p" true
                [pkgA; pkgB; pkgC] [pkgQ; pkgT; pkgU; pkgV; pkgX; pkgY] pkgP win64
                (detected disk_unknown_p))
      as (verdict & Hrun & Hiff).
    + reflexivity.
    + reflexivity.
    + repeat constructor; by vm_compute.
    + right. left. by repeat split.
    + rewrite Hrun. f_equal. f_equal. apply Hiff.
      exists "Unknown", [],
        (rel64 "2.0" "http://repo/p-2.0.dll" ["p.dll"] [("p.dll", "256:p 2.0")]),
        [rel64 "1.0" "http://repo/p-1.0.dll" ["p.dll"] [("p.dll", "256:p 1.0")]].
      split; [by vm_compute |]. split; [reflexivity |]. split; [by eexists |].
      split; [constructor |]. by split.
Defined.



(** C2, counterexample.  Q has one release, with the files q1.dll and
    q2.dll; q1.dll is on disk (with the declared hash, even) and q2.dll is
    not.  No release matches and a declared file exists, yet detection
    records nothing for Q. *)
Lemma partial_files_leave_no_entry :
  releases pkgQ
  = [rel64 "1.0" "http://repo/q-1.0.zip" ["bin/q1.dll"; "bin/q2.dll"]
       [("q1.dll", "256:bin/q1.dll|q 1.0"); ("q2.dll", "256:bin/q2.dll|q 1.0")]]
  /\ file_present env disk_partial_q (plugin_path cfg) "q1.dll"
  /\ ~ file_present env disk_partial_q (plugin_path cfg) "q2.dll"
  /\ detect_installed_packages env cfg (initial_state disk_partial_q)
     = (Ok tt, detected disk_partial_q)
  /\ recorded "com.demo.q" (detected disk_partial_q) = None
  /\ recorded "com.demo.q" (detected disk_partial_q) <> Some "Unknown".
Proof.
  split; [reflexivity |]. split; [by eexists |].
  split; [by intros [? ?] |]. repeat split; by vm_compute.
Qed.

Lemma no_release_matches (disk : gmap string bytes) (p : Package) :
  forallb (fun r => match release_get "win64" r with
                    | Some b => negb (forallb (file_matchb env disk (plugin_path cfg)) (hash b))
                    | None => true
                    end) (releases p) = true ->
  forall r b, r ∈ releases p -> release_get "win64" r = Some b ->
              ~ release_matches env disk (plugin_path cfg) b.
Proof.
  intros Hall r b Hin Hb Hm. rewrite forallb_forall in Hall.
  specialize (Hall r (proj1 (list_elem_of_In _ _) Hin)). rewrite Hb in Hall.
  apply forallb_matches in Hm. rewrite Hm in Hall. done.
Qed.

(** C2 (as amended) on the disk where P is present in the build of no
    release: the one file of each release exists, so P is Unknown. *)
Lemma detect_unknown_needs_whole_release_witness :
  exists s',
    detect_installed_packages env cfg (initial_state disk_unknown_p) = (Ok tt, s')
    /\ ((exists r b, r ∈ releases pkgP /\ release_get "win64" r = Some b
                     /\ release_present env disk_unknown_p (plugin_path cfg) b) ->
        recorded (identifier pkgP) s' = Some "Unknown")
    /\ ((forall r b, r ∈ releases pkgP -> release_get "win64" r = Some b ->
                     ~ release_present env disk_unknown_p (plugin_path cfg) b) ->
        recorded (identifier pkgP) s' = None)
    /\ ((forall r b fh, r ∈ releases pkgP -> release_get "win64" r = Some b ->
                        fh ∈ hash b ->
                        ~ file_present env disk_unknown_p (plugin_path cfg) fh.1) ->
        recorded (identifier pkgP) s' = None).
Proof.
  apply (detect_unknown_needs_whole_release env cfg disk_unknown_p catalog pkgP
           "win64" (plugin_path cfg)).
  - reflexivity.
  - exact catalog_known_types.
  - exact catalog_identifiers_distinct.
  - unfold catalog. repeat first [apply list_elem_of_here | apply list_elem_of_further].
  - reflexivity.
  - reflexivity.
  - apply no_release_matches. by vm_compute.
Defined.

(** C8 on the example world: both releases of T declare t.dll with the
    same hash and the file on disk has it; 2.0 is listed first. *)
Lemma detect_first_match_wins_witness :
  release_matches env disk_t (plugin_path cfg)
    {| url := "http://repo/t-1.0.dll"; files := ["t.dll"]; hash := [("t.dll", "256:t")] |}
  /\ (exists s',
        detect_installed_packages env cfg (initial_state disk_t) = (Ok tt, s')
        /\ recorded (identifier pkgT) s' = Some "2.0")
  /\ (forall rest s,
        fs s = disk_t ->
        detect_releases env cfg pkgT (plugin_path cfg)
          ([] ++ rel64 "2.0" "http://repo/t-2.0.dll" ["t.dll"] [("t.dll", "256:t")] :: rest) s
        = detect_releases env cfg pkgT (plugin_path cfg)
            ([] ++ [rel64 "2.0" "http://repo/t-2.0.dll" ["t.dll"] [("t.dll", "256:t")]]) s).
Proof.
  apply (detect_first_match_wins env cfg disk_t catalog pkgT "win64" (plugin_path cfg)
           [] [] []
           (rel64 "2.0" "http://repo/t-2.0.dll" ["t.dll"] [("t.dll", "256:t")])
           (rel64 "1.0" "http://repo/t-1.0.dll" ["t.dll"] [("t.dll", "256:t")])
           {| url := "http://repo/t-2.0.dll"; files := ["t.dll"];
              hash := [("t.dll", "256:t")] |}
           {| url := "http://repo/t-1.0.dll"; files := ["t.dll"];
              hash := [("t.dll", "256:t")] |}).
  - reflexivity.
  - exact catalog_known_types.
  - exact catalog_identifiers_distinct.
  - unfold catalog. repeat first [apply list_elem_of_here | apply list_elem_of_further].
  - reflexivity.
  - reflexivity.
  - reflexivity.
  - reflexivity.
  - reflexivity.
  - reflexivity.
  - apply forallb_matches. by vm_compute.
  - constructor.
Defined.

(** C4 on the example world: the payload served for X 2.0 is truncated,
    so its digest is not the declared one. *)
Lemma install_files_hash_mismatch_witness :
  fetched env (detected disk_xy) "http://repo/x-2.0.dll" (B "x 2.0 truncated")
  /\ hash_differs env
       {| url := "http://repo/x-2.0.dll"; files := ["x.dll"];
          hash := [("x.dll", "256:x 2.0")] |}
       (B "x 2.0 truncated") "256:x 2.0 truncated" "256:x 2.0"
  /\ exists s',
       install_files env cfg pkgX (detected disk_xy)
       = (Raise (Exception ("Hash mismatch got " +:+ "256:x 2.0 truncated"
                            +:+ " but expected " +:+ "256:x 2.0")), s')
       /\ installed_packages s' = installed_packages (detected disk_xy)
       /\ materialized s' = materialized (detected disk_xy).
Proof.
  assert (Hf : fetched env (detected disk_xy) "http://repo/x-2.0.dll"
                 (B "x 2.0 truncated")).
  { right. split; by vm_compute. }
  assert (Hd : hash_differs env
       {| url := "http://repo/x-2.0.dll"; files := ["x.dll"];
          hash := [("x.dll", "256:x 2.0")] |}
       (B "x 2.0 truncated") "256:x 2.0 truncated" "256:x 2.0").
  { split; [by vm_compute |]. exists "x.dll". repeat split; by vm_compute. }
  split; [exact Hf |]. split; [exact Hd |].
  apply (install_files_hash_mismatch env cfg pkgX (plugin_path cfg) "win64"
           (rel64 "2.0" "http://repo/x-2.0.dll" ["x.dll"] [("x.dll", "256:x 2.0")])
           {| url := "http://repo/x-2.0.dll"; files := ["x.dll"];
              hash := [("x.dll", "256:x 2.0")] |}
           (B "x 2.0 truncated") "256:x 2.0 truncated" "256:x 2.0" (detected disk_xy));
    [reflexivity | reflexivity | reflexivity | reflexivity | exact Hf | exact Hd].
Defined.



(** C6 on the example world: X is recorded at 1.0, the second release
    listed, whose one file is on disk. *)
Lemma uninstall_package_contract_witness :
  get_package_from_name env cfg "com.demo.x" = Ok pkgX
  /\ exists s',
       uninstall_package env cfg "com.demo.x" (detected disk_xy) = (Ok (1, 0), s')
       /\ forall path,
            fs s' !! path
            = if decide (path ∈ release_paths env (plugin_path cfg)
                           {| url := "http://repo/x-1.0.dll"; files := ["x.dll"];
                              hash := [("x.dll", "256:x 1.0")] |})
              then None else fs (detected disk_xy) !! path.
Proof.
  split; [reflexivity |].
  apply (proj1 (uninstall_package_contract env cfg "com.demo.x" pkgX (detected disk_xy)
                  eq_refl)
           "1.0" (plugin_path cfg) "win64"
           [rel64 "2.0" "http://repo/x-2.0.dll" ["x.dll"] [("x.dll", "256:x 2.0")]]
           (rel64 "1.0" "http://repo/x-1.0.dll" ["x.dll"] [("x.dll", "256:x 1.0")])
           []).
  - by vm_compute.
  - by vm_compute.
  - reflexivity.
  - reflexivity.
  - reflexivity.
  - reflexivity.
  - repeat constructor. by vm_compute.
  - reflexivity.
  - apply (bool_decide_unpack _). by vm_compute.
  - apply forallb_present. by vm_compute.
Defined.

(** C7, counterexample.  Uninstalling X, installed at 1.0, succeeds and
    removes its file, and the table still records X at 1.0. *)
Lemma uninstall_leaves_the_entry :
  recorded "com.demo.x" (detected disk_xy) = Some "1.0"
  /\ (uninstall_package env cfg "com.demo.x" (detected disk_xy)).1 = Ok (1, 0)
  /\ fs (uninstall_package env cfg "com.demo.x" (detected disk_xy)).2
       !! in_plugins "x.dll" = None
  /\ recorded "com.demo.x" (uninstall_package env cfg "com.demo.x" (detected disk_xy)).2
     = Some "1.0".
Proof. repeat split; by vm_compute. Qed.

(** C7 (as amended) on the same input. *)
Lemma uninstall_package_keeps_table_witness :
  installed_packages (uninstall_package env cfg "com.demo.x" (detected disk_xy)).2
  = installed_packages (detected disk_xy)
  /\ forall id,
       recorded id (uninstall_package env cfg "com.demo.x" (detected disk_xy)).2
       = recorded id (detected disk_xy).
Proof.
  apply (uninstall_package_keeps_table env cfg "com.demo.x" (detected disk_xy)
           (uninstall_package env cfg "com.demo.x" (detected disk_xy)).2 (Ok (1, 0))).
  by vm_compute.
Defined.


End Examples.

(** * Further properties of the script *)

(** ** Resolving a package reference *)

Section Resolution.

Context (env : Env) (cfg : Config).

Lemma lookup_package_some test msg pl :
  package_list cfg = Some pl ->
  lookup_package cfg test false msg = Ok (List.find test pl).
Proof.
  intros Hpl. unfold lookup_package, iter_package_list. rewrite Hpl.
  by destruct (List.find test pl).
Qed.

Lemma find_elem {A} (f : A -> bool) (l : list A) (x : A) :
  List.find f l = Some x -> x ∈ l /\ f x = true.
Proof.
  intros (pre & post & -> & Hx & _)%find_first. split; [| done].
  apply elem_of_app. right. by left.
Qed.

Lemma find_none_elem {A} (f : A -> bool) (l : list A) (x : A) :
  List.find f l = None -> x ∈ l -> f x = false.
Proof.
  intros H%find_none_iff Hin. by apply (proj1 (Forall_forall _ _) H).
Qed.

Lemma option_eqb_some (o : option string) (nm : string) :
  match o with Some n => String.eqb n nm | None => false end = true <-> o = Some nm.
Proof.
  destruct o as [n |]; [| done]. rewrite String.eqb_eq. split; congruence.
Qed.

(** X1: [get_package_from_name] answers with a package of the catalog that
    matches the reference by identifier, namespace, module name or
    case-folded name; it finds one whenever one exists and otherwise
    raises "Package ... not found"; and an identifier match takes
    precedence over everything else: the first package whose identifier
    is the reference is returned whatever the other keys of the catalog
    say. *)
Theorem get_package_from_name_resolution (pl : list Package) (nm : string) :
  package_list cfg = Some pl ->
  (forall p, get_package_from_name env cfg nm = Ok p -> p ∈ pl /\ name_matches env nm p)
  /\ ((exists p, p ∈ pl /\ name_matches env nm p) ->
      exists p, get_package_from_name env cfg nm = Ok p)
  /\ ((forall p, p ∈ pl -> ~ name_matches env nm p) ->
      get_package_from_name env cfg nm
      = Raise (Exception ("Package " +:+ nm +:+ " not found")))
  /\ (forall pre p post,
        pl = pre ++ p :: post -> identifier p = nm ->
        Forall (fun q => identifier q <> nm) pre ->
        get_package_from_name env cfg nm = Ok p).
Proof.
  intros Hpl.
  unfold get_package_from_name, get_package_from_id, get_package_from_namespace,
    get_package_from_modulename, get_package_from_plugin_name.
  rewrite !(lookup_package_some _ _ pl Hpl). unfold or_else.
  destruct (List.find (fun p => String.eqb (identifier p) nm) pl) as [p1 |] eqn:F1;
    [| destruct (List.find (fun p => match namespace p with
                                      | Some n => String.eqb n nm
                                      | None => false end) pl) as [p2 |] eqn:F2;
       [| destruct (List.find (fun p => match modulename p with
                                         | Some n => String.eqb n nm
                                         | None => false end) pl) as [p3 |] eqn:F3;
          [| destruct (List.find (fun p => String.eqb (casefold env (name p))
                                             (casefold env nm)) pl)
               as [p4 |] eqn:F4]]].
  - apply find_elem in F1 as F1'. destruct F1' as [Hin Ht].
    apply String.eqb_eq in Ht.
    split; [intros p [= <-]; split; [done | by left] |].
    split; [intros _; by exists p1 |].
    split; [intros Hno; by destruct (Hno p1 Hin); left |].
    intros pre p post -> Hid Hpre. f_equal.
    assert (List.find (fun p => String.eqb (identifier p) nm) (pre ++ p :: post)
            = Some p) as E.
    { apply find_first. exists pre, post. split; [done |]. split.
      - by apply String.eqb_eq.
      - eapply Forall_impl; [exact Hpre |]. intros q Hq. by apply String.eqb_neq. }
    congruence.
  - apply find_elem in F2 as F2'. destruct F2' as [Hin Ht].
    apply option_eqb_some in Ht.
    split; [intros p [= <-]; split; [done | right; by left] |].
    split; [intros _; by exists p2 |].
    split; [intros Hno; destruct (Hno p2 Hin); right; by left |].
    intros pre p post -> Hid Hpre. exfalso.
    assert (String.eqb (identifier p) nm = false) as E.
    { apply (find_none_elem _ _ p F1). apply elem_of_app. right. by left. }
    apply String.eqb_neq in E. done.
  - apply find_elem in F3 as F3'. destruct F3' as [Hin Ht].
    apply option_eqb_some in Ht.
    split; [intros p [= <-]; split; [done | right; right; by left] |].
    split; [intros _; by exists p3 |].
    split; [intros Hno; destruct (Hno p3 Hin); right; right; by left |].
    intros pre p post -> Hid Hpre. exfalso.
    assert (String.eqb (identifier p) nm = false) as E.
    { apply (find_none_elem _ _ p F1). apply elem_of_app. right. by left. }
    apply String.eqb_neq in E. done.
  - apply find_elem in F4 as F4'. destruct F4' as [Hin Ht].
    apply String.eqb_eq in Ht.
    split; [intros p [= <-]; split; [done | right; right; by right] |].
    split; [intros _; by exists p4 |].
    split; [intros Hno; destruct (Hno p4 Hin); right; right; by right |].
    intros pre p post -> Hid Hpre. exfalso.
    assert (String.eqb (identifier p) nm = false) as E.
    { apply (find_none_elem _ _ p F1). apply elem_of_app. right. by left. }
    apply String.eqb_neq in E. done.
  - split; [done |].
    assert (Hno : forall p, p ∈ pl -> ~ name_matches env nm p).
    { intros p Hin [H | [H | [H | H]]].
      - apply (find_none_elem _ _ p F1) in Hin. apply String.eqb_neq in Hin. done.
      - apply (find_none_elem _ _ p F2) in Hin. rewrite H, String.eqb_refl in Hin. done.
      - apply (find_none_elem _ _ p F3) in Hin. rewrite H, String.eqb_refl in Hin. done.
      - apply (find_none_elem _ _ p F4) in Hin. apply String.eqb_neq in Hin. done. }
    split; [intros (p & Hin & Hm); by destruct (Hno p Hin) |].
    split; [done |].
    intros pre p post -> Hid Hpre. exfalso.
    apply (Hno p); [apply elem_of_app; right; by left | by left].
Qed.

End Resolution.

(** ** The command line check and the stripped file name *)

(** [check_arguments] accepts exactly when the operation is one of
    install, upgrade and uninstall and package names are given, or is
    another operation and none is given. *)
Lemma check_arguments_accepts (operation : string) (package : list string) :
  (check_arguments operation package = Ok tt <->
   ((operation = "install" \/ operation = "upgrade" \/ operation = "uninstall")
    <-> package <> []))
  /\ (check_arguments operation package <> Ok tt ->
      check_arguments operation package
      = Raise (Exception
          "Package argument required for install, upgrade and uninstall operations")).
Proof.
  unfold check_arguments. simpl.
  assert (Hop : (String.eqb operation "install" || (String.eqb operation "upgrade"
                  || (String.eqb operation "uninstall" || false))) = true
                <-> operation = "install" \/ operation = "upgrade"
                    \/ operation = "uninstall").
  { rewrite !orb_true_iff, !String.eqb_eq. intuition discriminate. }
  destruct (String.eqb operation "install" || _) eqn:E.
  - destruct package as [| nm names]; simpl.
    + split; [| done]. split; [done |]. intros H. exfalso.
      by apply (proj1 H (proj1 Hop eq_refl)).
    + split; [| done]. split; [| done]. intros _. split; [done |].
      intros _. by apply Hop.
  - assert (Hnot : ~ (operation = "install" \/ operation = "upgrade"
                      \/ operation = "uninstall")).
    { intros H. apply Hop in H. done. }
    destruct package as [| nm names]; simpl.
    + split; [| done]. split; [| done]. intros _. split; [done | done].
    + split; [| done]. split; [done |]. intros H. exfalso.
      by apply Hnot, H.
Qed.

Lemma index_slash_cons (c : ascii) (s : string) :
  String.index 0 "/" (String c s) = None
  <-> c <> "/"%char /\ String.index 0 "/" s = None.
Proof.
  cbn [String.index String.prefix]. destruct (ascii_dec "/" c) as [<- | Hne].
  - assert (String.prefix "" s = true) as -> by (by destruct s).
    split; [done | by intros [? _]].
  - destruct (String.index 0 "/" s); split; try done;
      try (by intros [_ ?]); try (intros _; split; [congruence | done]).
Qed.

(** [rsplit_last filename] carries no '/': it is what follows the last
    '/' of the file name (the file name is some prefix followed by it),
    and the file name itself when that has no '/'. *)
Lemma rsplit_last_flat (filename : string) :
  String.index 0 "/" (rsplit_last filename) = None
  /\ (exists dir, filename = dir +:+ rsplit_last filename
                  /\ (dir = "" \/ exists d, dir = d +:+ "/"))
  /\ (String.index 0 "/" filename = None -> rsplit_last filename = filename).
Proof.
  induction filename as [| c s IH].
  - split; [done |]. split; [| done]. exists "". split; [done | by left].
  - destruct IH as (IH1 & (dir & IH2 & IH3) & IH4). cbn [rsplit_last].
    destruct (String.index 0 "/" s) as [n |] eqn:Hs.
    + split; [exact IH1 |]. split.
      * exists (String c dir). split.
        { change (String c dir +:+ rsplit_last s)
            with (String c (dir +:+ rsplit_last s)). by f_equal. }
        right. destruct IH3 as [-> | (d & ->)].
        -- change ("" +:+ rsplit_last s) with (rsplit_last s) in IH2.
           rewrite <- IH2 in IH1. congruence.
        -- by exists (String c d).
      * intros H. apply index_slash_cons in H as [_ H]. congruence.
    + destruct (Ascii.eqb_spec c "/") as [-> | Hne].
      * split; [exact Hs |]. split.
        -- exists "/". split; [done |]. right. by exists "".
        -- intros H. by apply index_slash_cons in H as [H _].
      * split; [by apply index_slash_cons |]. split.
        -- exists "". split; [done | by left].
        -- done.
Qed.

(** ** Fetching and materializing *)

Section Materialize.

Context (env : Env) (cfg : Config).

Lemma fetch_url_fs (u : string) (s s1 : State) (r : result bytes) :
  fetch_url env u s = (r, s1) -> fs s1 = fs s.
Proof.
  unfold fetch_url. run. destruct (download_cache s !! u); [by intros [= _ <-] |].
  simpl. destruct (urlopen env u); by intros [= _ <-].
Qed.

(** X4: [fetch_url] touches nothing but the cache and the output.  When it
    returns, the data is cached under the URL, every URL cached before
    is still cached, and a later fetch of the same URL returns the same
    data and changes nothing, whatever the network would answer then.
    It fails only for a URL that is not cached and that the network
    refuses, with that error, leaving the cache as it was. *)
Theorem fetch_url_caches (u : string) (s s1 : State) (r : result bytes) :
  fetch_url env u s = (r, s1) ->
  fs s1 = fs s
  /\ installed_packages s1 = installed_packages s
  /\ (forall u' d, download_cache s !! u' = Some d -> download_cache s1 !! u' = Some d)
  /\ match r with
     | Ok data =>
         download_cache s1 !! u = Some data
         /\ forall env', fetch_url env' u s1 = (Ok data, s1)
     | Raise e =>
         e = URLError u
         /\ download_cache s !! u = None
         /\ urlopen env u = None
         /\ download_cache s1 = download_cache s
     | OutOfFuel => False
     end.
Proof.
  unfold fetch_url. run. destruct (download_cache s !! u) as [data |] eqn:Hc.
  - intros [= <- <-]. repeat split; try done.
    intros env'. by rewrite Hc.
  - simpl. destruct (urlopen env u) as [data |] eqn:Hn; intros [= <- <-]; simpl.
    + repeat split; try done.
      * intros u' d Hd. destruct (decide (u = u')) as [<- | Hne]; [congruence |].
        by rewrite lookup_insert_ne.
      * apply lookup_insert_eq.
      * intros env'. by rewrite lookup_insert_eq.
    + by repeat split.
Qed.

(** The state the extraction loop leaves: the table, the cache and the
    output are untouched, a path no member is written to keeps its
    content, and the path of every member holds the extracted bytes of the
    last member written there, which passed its hash check. *)
Lemma extract_files_ok dest_path b data fl s s' :
  extract_files env dest_path b data fl s = (Ok tt, s') ->
  installed_packages s' = installed_packages s
  /\ stdout s' = stdout s
  /\ (forall path,
        (forall f, f ∈ fl -> path <> path_join env dest_path (rsplit_last f)) ->
        fs s' !! path = fs s !! path)
  /\ (forall f, f ∈ fl ->
        exists g, g ∈ fl
          /\ path_join env dest_path (rsplit_last g)
             = path_join env dest_path (rsplit_last f)
          /\ member_ok env b data g
          /\ fs s' !! path_join env dest_path (rsplit_last f)
             = Some (run_7z env data g).2).
Proof.
  revert s. induction fl as [| filename fl IH]; intros s; simpl.
  - intros [= <-]. repeat split; try done. by intros f ?%elem_of_nil.
  - destruct (negb ((run_7z env data filename).1 =? 0)%Z) eqn:Hrc; [done |].
    intros H. apply bind_ok in H as (h & s1 & H1 & H).
    apply dict_index_inv in H1 as [-> [(v & Hget & [= <-]) | [_ [=]]]].
    destruct (negb (check_hash env (run_7z env data filename).2 h).1.1) eqn:Hok;
      [done |].
    apply bind_ok in H as ([] & s1 & H1 & H). injection H1 as <-.
    apply IH in H as (Ht & Ho & Hkeep & Hwritten). simpl in *.
    assert (Hmem : member_ok env b data filename).
    { exists h. split; [| split; [done |]].
      - apply negb_false_iff in Hrc. by apply Z.eqb_eq.
      - by apply negb_false_iff in Hok. }
    split; [done |]. split; [done |]. split.
    + intros path Hpath. rewrite Hkeep.
      * apply lookup_insert_ne. intros E. apply (Hpath filename); [by left | done].
      * intros f Hf. apply Hpath. by right.
    + intros f Hf.
      destruct (decide (f ∈ fl)) as [Hin | Hnin].
      * destruct (Hwritten f Hin) as (g & Hg & Hp & Hm & Hfs).
        exists g. split; [by right | done].
      * apply elem_of_cons in Hf as [-> | Hf]; [| done].
        destruct (decide (path_join env dest_path (rsplit_last filename)
                          ∈ map (fun g => path_join env dest_path (rsplit_last g)) fl))
          as [(g & Hp & Hg)%list_elem_of_fmap | Hno].
        -- symmetry in Hp.
           destruct (Hwritten g Hg) as (g' & Hg' & Hp' & Hm' & Hfs').
           exists g'. split; [by right |]. split; [congruence |].
           split; [done |]. by rewrite <- Hp.
        -- exists filename. split; [by left |]. split; [done |]. split; [done |].
           rewrite Hkeep; [apply lookup_insert_eq |].
           intros g Hg E. apply Hno. apply list_elem_of_fmap. by exists g.
Qed.

(** What a completed [install_files] leaves, given the descriptor it
    materialized; two declared files sharing a path are assumed to share
    the stripped name. *)
Lemma install_files_ok_state (p : Package) (dest_path bin_name : string)
    (rel : Release) (b : Binary) (s s' : State) :
  get_install_path cfg p = Ok dest_path ->
  get_bin_name cfg p = Ok bin_name ->
  get_latest_installable_release cfg p = Ok (Some rel) ->
  release_get bin_name rel = Some b ->
  (forall f g, f ∈ files b -> g ∈ files b ->
     path_join env dest_path (rsplit_last f) = path_join env dest_path (rsplit_last g) ->
     rsplit_last f = rsplit_last g) ->
  install_files env cfg p s = (Ok tt, s') ->
  recorded (identifier p) s' = Some (version rel)
  /\ (forall id, id <> identifier p -> recorded id s' = recorded id s)
  /\ (forall path,
        (forall f, f ∈ files b -> path <> path_join env dest_path (rsplit_last f)) ->
        fs s' !! path = fs s !! path)
  /\ (forall f, f ∈ files b ->
        exists ref_hash content,
          dict_get (rsplit_last f) (hash b) = Some ref_hash
          /\ fs s' !! path_join env dest_path (rsplit_last f) = Some content
          /\ (check_hash env content ref_hash).1.1 = true)
  /\ last (stdout s')
     = Some ("Successfully installed " +:+ name p +:+ " " +:+ version rel).
Proof.
  intros Hdest Hbin Hrel Hb Hinj H. unfold install_files in H.
  unfold bind at 1, lift in H. rewrite Hdest in H.
  unfold bind at 1, lift in H. rewrite Hbin in H.
  unfold bind at 1, lift in H. rewrite Hrel, Hb in H.
  apply bind_ok in H as (data & s1 & Hf & H).
  pose proof (fetch_url_fs _ _ _ _ Hf) as Hfs1.
  apply fetch_url_same in Hf as [Ht1 _].
  apply bind_ok in H as ([] & s2 & Hpay & H).
  unfold bind, modify, print in H. injection H as <-. simpl.
  assert (Hpayload :
    installed_packages s2 = installed_packages s1
    /\ (forall path,
          (forall f, f ∈ files b -> path <> path_join env dest_path (rsplit_last f)) ->
          fs s2 !! path = fs s1 !! path)
    /\ (forall f, f ∈ files b ->
          exists ref_hash content,
            dict_get (rsplit_last f) (hash b) = Some ref_hash
            /\ fs s2 !! path_join env dest_path (rsplit_last f) = Some content
            /\ (check_hash env content ref_hash).1.1 = true)).
  { destruct (endswith (url b) ".7z" || endswith (url b) ".zip").
    - apply extract_files_ok in Hpay as (Ht & _ & Hkeep & Hwritten).
      split; [done |]. split; [done |]. intros f Hf.
      destruct (Hwritten f Hf) as (g & Hg & Hp & (h & _ & Hget & Hok) & Hfs).
      exists h, (run_7z env data g).2. rewrite <- (Hinj g f Hg Hf Hp).
      split; [done |]. split; [by rewrite Hp | done].
    - destruct (files b) as [| filename [| ? ?]]; try done.
      apply bind_ok in Hpay as (h & s3 & H1 & Hpay).
      apply dict_index_inv in H1 as [-> [(v & Hget & [= <-]) | [_ [=]]]].
      destruct (negb (check_hash env data h).1.1) eqn:Hok; [done |].
      injection Hpay as <-. simpl. split; [done |]. split.
      + intros path Hpath. apply lookup_insert_ne. intros E.
        apply (Hpath filename); [by left | done].
      + intros f ->%list_elem_of_singleton. exists h, data.
        split; [done |]. split; [apply lookup_insert_eq |].
        by apply negb_false_iff in Hok. }
  destruct Hpayload as (Ht2 & Hkeep & Hwritten).
  unfold recorded. simpl. rewrite Ht2, Ht1.
  split; [apply dict_get_set_eq |].
  split; [intros id Hid; by apply dict_get_set_ne |].
  split; [intros path Hpath; rewrite Hkeep by done; by rewrite Hfs1 |].
  split; [done |]. apply last_snoc.
Qed.

(** What a completed [install_files] leaves, given the descriptor it
    materialized, with no assumption on [path_join]: the path of a
    declared file holds what the last declared file written there left. *)
Lemma install_files_ok_written (p : Package) (dest_path bin_name : string)
    (rel : Release) (b : Binary) (s s' : State) :
  get_install_path cfg p = Ok dest_path ->
  get_bin_name cfg p = Ok bin_name ->
  get_latest_installable_release cfg p = Ok (Some rel) ->
  release_get bin_name rel = Some b ->
  install_files env cfg p s = (Ok tt, s') ->
  recorded (identifier p) s' = Some (version rel)
  /\ (forall id, id <> identifier p -> recorded id s' = recorded id s)
  /\ (forall path,
        (forall f, f ∈ files b -> path <> path_join env dest_path (rsplit_last f)) ->
        fs s' !! path = fs s !! path)
  /\ (forall f, f ∈ files b ->
        exists g ref_hash content,
          g ∈ files b
          /\ path_join env dest_path (rsplit_last g)
             = path_join env dest_path (rsplit_last f)
          /\ dict_get (rsplit_last g) (hash b) = Some ref_hash
          /\ fs s' !! path_join env dest_path (rsplit_last f) = Some content
          /\ (check_hash env content ref_hash).1.1 = true)
  /\ last (stdout s')
     = Some ("Successfully installed " +:+ name p +:+ " " +:+ version rel).
Proof.
  intros Hdest Hbin Hrel Hb H. unfold install_files in H.
  unfold bind at 1, lift in H. rewrite Hdest in H.
  unfold bind at 1, lift in H. rewrite Hbin in H.
  unfold bind at 1, lift in H. rewrite Hrel, Hb in H.
  apply bind_ok in H as (data & s1 & Hf & H).
  pose proof (fetch_url_fs _ _ _ _ Hf) as Hfs1.
  apply fetch_url_same in Hf as [Ht1 _].
  apply bind_ok in H as ([] & s2 & Hpay & H).
  unfold bind, modify, print in H. injection H as <-. simpl.
  assert (Hpayload :
    installed_packages s2 = installed_packages s1
    /\ (forall path,
          (forall f, f ∈ files b -> path <> path_join env dest_path (rsplit_last f)) ->
          fs s2 !! path = fs s1 !! path)
    /\ (forall f, f ∈ files b ->
          exists g ref_hash content,
            g ∈ files b
            /\ path_join env dest_path (rsplit_last g)
               = path_join env dest_path (rsplit_last f)
            /\ dict_get (rsplit_last g) (hash b) = Some ref_hash
            /\ fs s2 !! path_join env dest_path (rsplit_last f) = Some content
            /\ (check_hash env content ref_hash).1.1 = true)).
  { destruct (endswith (url b) ".7z" || endswith (url b) ".zip").
    - apply extract_files_ok in Hpay as (Ht & _ & Hkeep & Hwritten).
      split; [done |]. split; [done |]. intros f Hf.
      destruct (Hwritten f Hf) as (g & Hg & Hp & (h & _ & Hget & Hok) & Hfs).
      by exists g, h, (run_7z env data g).2.
    - destruct (files b) as [| filename [| ? ?]]; try done.
      apply bind_ok in Hpay as (h & s3 & H1 & Hpay).
      apply dict_index_inv in H1 as [-> [(v & Hget & [= <-]) | [_ [=]]]].
      destruct (negb (check_hash env data h).1.1) eqn:Hok; [done |].
      injection Hpay as <-. simpl. split; [done |]. split.
      + intros path Hpath. apply lookup_insert_ne. intros E.
        apply (Hpath filename); [by left | done].
      + intros f ->%list_elem_of_singleton. exists filename, h, data.
        split; [by left |]. split; [done |].
        split; [done |]. split; [apply lookup_insert_eq |].
        by apply negb_false_iff in Hok. }
  destruct Hpayload as (Ht2 & Hkeep & Hwritten).
  unfold recorded. simpl. rewrite Ht2, Ht1.
  split; [apply dict_get_set_eq |].
  split; [intros id Hid; by apply dict_get_set_ne |].
  split; [intros path Hpath; rewrite Hkeep by done; by rewrite Hfs1 |].
  split; [done |]. apply last_snoc.
Qed.

(** X5: a completed [install_files] means the package has a latest
    installable release with a descriptor for the target, and it has set
    the entry of the package to the version of that release and left the
    other entries alone, and has written only to the paths of the declared
    files; the path of every declared file holds a content that
    [check_hash] accepts against the hash declared for the stripped name
    of a declared file with that path (of that very file, when declared
    files with the same path have the same stripped name); its last output
    line is the success note. *)
Theorem install_files_postcondition (p : Package) (s s' : State) :
  install_files env cfg p s = (Ok tt, s') ->
  exists dest_path bin_name rel b,
    get_install_path cfg p = Ok dest_path
    /\ get_bin_name cfg p = Ok bin_name
    /\ get_latest_installable_release cfg p = Ok (Some rel)
    /\ release_get bin_name rel = Some b
    /\ recorded (identifier p) s' = Some (version rel)
    /\ (forall id, id <> identifier p -> recorded id s' = recorded id s)
    /\ (forall path,
          (forall f, f ∈ files b -> path <> path_join env dest_path (rsplit_last f)) ->
          fs s' !! path = fs s !! path)
    /\ (forall f, f ∈ files b ->
          exists g ref_hash content,
            g ∈ files b
            /\ path_join env dest_path (rsplit_last g)
               = path_join env dest_path (rsplit_last f)
            /\ dict_get (rsplit_last g) (hash b) = Some ref_hash
            /\ fs s' !! path_join env dest_path (rsplit_last f) = Some content
            /\ (check_hash env content ref_hash).1.1 = true)
    /\ ((forall f g, f ∈ files b -> g ∈ files b ->
           path_join env dest_path (rsplit_last f)
           = path_join env dest_path (rsplit_last g) ->
           rsplit_last f = rsplit_last g) ->
        forall f, f ∈ files b ->
          exists ref_hash content,
            dict_get (rsplit_last f) (hash b) = Some ref_hash
            /\ fs s' !! path_join env dest_path (rsplit_last f) = Some content
            /\ (check_hash env content ref_hash).1.1 = true)
    /\ last (stdout s')
       = Some ("Successfully installed " +:+ name p +:+ " " +:+ version rel).
Proof.
  intros H. pose proof H as Hrun. unfold install_files in H.
  apply bind_ok in H as (dest_path & s1 & H1 & H). apply lift_inv in H1 as [Hdest ->].
  apply bind_ok in H as (bin_name & s1 & H1 & H). apply lift_inv in H1 as [Hbin ->].
  apply bind_ok in H as (orel & s1 & H1 & H). apply lift_inv in H1 as [Hrel ->].
  destruct orel as [rel |]; [| done].
  destruct (release_get bin_name rel) as [b |] eqn:Hb; [| done].
  exists dest_path, bin_name, rel, b.
  symmetry in Hdest, Hbin, Hrel.
  split; [done |]. split; [done |]. split; [done |]. split; [done |].
  destruct (install_files_ok_written p dest_path bin_name rel b s s'
              Hdest Hbin Hrel Hb Hrun) as (Hrec & Hother & Hkeep & Hwritten & Hlast).
  split; [done |]. split; [done |]. split; [done |]. split; [done |].
  split; [| done].
  intros Hinj f Hf.
  destruct (Hwritten f Hf) as (g & h & content & Hg & Hp & Hget & Hfs & Hok).
  exists h, content. by rewrite (Hinj g f Hg Hf Hp) in Hget.
Qed.

Lemma dict_get_elem (d : list (string * string)) (k v : string) :
  NoDup (map fst d) -> (k, v) ∈ d -> dict_get k d = Some v.
Proof.
  induction d as [| [k' v'] d IH]; intros Hnd Hin; [by apply elem_of_nil in Hin |].
  simpl in *. apply NoDup_cons in Hnd as [Hfresh Hnd].
  apply elem_of_cons in Hin as [[= -> ->] | Hin].
  - by rewrite String.eqb_refl.
  - destruct (String.eqb_spec k' k) as [-> | _]; [| by apply IH].
    exfalso. apply Hfresh. apply list_elem_of_fmap. by exists (k, v).
Qed.

(** X6: materialize, then detect.  When [install_files] has completed for
    a catalogued package whose hash mapping names exactly stripped names
    of its declared files, a detection run on the resulting disk records
    the package at the version that was materialized. *)
Theorem materialize_then_detect (pl : list Package) (p : Package)
    (dest_path bin_name : string) (rel : Release) (b : Binary) (s s' : State) :
  package_list cfg = Some pl ->
  Forall known_type pl ->
  NoDup (map identifier pl) ->
  p ∈ pl ->
  get_install_path cfg p = Ok dest_path ->
  get_bin_name cfg p = Ok bin_name ->
  get_latest_installable_release cfg p = Ok (Some rel) ->
  release_get bin_name rel = Some b ->
  NoDup (map fst (hash b)) ->
  (forall fh, fh ∈ hash b -> exists f, f ∈ files b /\ rsplit_last f = fh.1) ->
  (forall f g, f ∈ files b -> g ∈ files b ->
     path_join env dest_path (rsplit_last f) = path_join env dest_path (rsplit_last g) ->
     rsplit_last f = rsplit_last g) ->
  install_files env cfg p s = (Ok tt, s') ->
  exists s2,
    detect_installed_packages env cfg (initial_state (fs s')) = (Ok tt, s2)
    /\ recorded (identifier p) s2 = Some (version rel).
Proof.
  intros Hpl Hk Hnd Hin Hdest Hbin Hrel Hb Hkeys Hnames Hinj Hrun.
  destruct (install_files_ok_state p dest_path bin_name rel b s s'
              Hdest Hbin Hrel Hb Hinj Hrun) as (_ & _ & _ & Hwritten & _).
  assert (Hm : release_matches env (fs s') dest_path b).
  { apply Forall_forall. intros [f h] Hfh.
    destruct (Hnames (f, h) Hfh) as (g & Hg & Hgf). simpl in Hgf.
    destruct (Hwritten g Hg) as (h' & content & Hget & Hfs & Hok).
    rewrite Hgf in Hget, Hfs. rewrite (dict_get_elem _ f h Hkeys Hfh) in Hget.
    injection Hget as <-. by exists content. }
  apply (get_latest_installable_release_first cfg p bin_name rel Hbin) in Hrel
    as (pre & post & Hrels & _ & Hpre).
  destruct (detect_installed_packages_entry env cfg (fs s') pl p bin_name dest_path
              Hpl Hk Hnd Hin Hbin Hdest) as (s2 & tbl0 & Hdet & _ & _ & Hentry).
  exists s2. split; [done |]. rewrite Hentry, Hrels.
  apply (scan_releases_first_match env bin_name (fs s') dest_path (identifier p)
           pre rel b post tbl0 Hb Hm).
  eapply Forall_impl; [exact Hpre |]. intros r Hr b' Hb'. congruence.
Qed.

End Materialize.

(** ** The counts and the recursion of [install_package] *)

Section InstallCounts.

Context (env : Env) (cfg : Config).

Lemma install_dependencies_materialized (install : string -> M (nat * nat)) deps :
  (forall dep s c s1, install dep s = (Ok c, s1) ->
     exists new, length new = c.1 + c.2 /\ materialized s1 = materialized s ++ new) ->
  forall inst s total s',
    install_dependencies install deps inst s = (Ok total, s') ->
    exists new, inst + length new = total /\ materialized s' = materialized s ++ new.
Proof.
  intros Hinst. induction deps as [| dep deps IH]; intros inst s total s' H; simpl in H.
  - injection H as <- <-. exists []. by rewrite app_nil_r, Nat.add_0_r.
  - apply bind_ok in H as (res & s1 & H1 & H).
    destruct (Hinst _ _ _ _ H1) as (new1 & Hl1 & Hm1).
    destruct (IH _ _ _ _ H) as (new2 & Hl2 & Hm2).
    exists (new1 ++ new2). rewrite length_app, Hm2, Hm1, app_assoc.
    split; [lia | done].
Qed.

(** The two counts of a completed [install_package] add up to the number
    of materializations it has made. *)
Lemma install_package_materialized fuel nm s c s' :
  install_package env cfg fuel nm s = (Ok c, s') ->
  exists new, length new = c.1 + c.2 /\ materialized s' = materialized s ++ new.
Proof.
  revert nm s c s'. induction fuel as [| fuel IH]; intros nm s c s' H; [done |].
  simpl in H. apply bind_ok in H as (p & s1 & H1 & H). apply lift_inv in H1 as [_ ->].
  apply bind_ok in H as (ci & s1 & H1 & H). apply lift_inv in H1 as [_ ->].
  destruct ci.
  2: { unfold bind, print, modify, ret in H. injection H as <- <-.
       exists []. by rewrite app_nil_r. }
  apply bind_ok in H as (inst & s1 & H1 & H).
  assert (exists new, length new = inst /\ materialized s1 = materialized s ++ new)
    as (new & Hl & Hm).
  { destruct (dependencies p) as [deps |].
    - destruct (install_dependencies_materialized (install_package env cfg fuel) deps IH
                  _ _ _ _ H1) as (new & Hl & Hm). by exists new.
    - injection H1 as <- <-. exists []. by rewrite app_nil_r. }
  unfold bind at 1, is_package_installed, gets in H.
  destruct (dict_mem (identifier p) (installed_packages s1)); simpl in H.
  - injection H as <- <-. exists new. split; [simpl; lia | done].
  - apply bind_ok in H as ([] & s2 & H2 & H). injection H as <- <-.
    apply install_files_cases in H2 as [(rel & _ & _ & _ & Hm2) | [Hr _]];
      [| by destruct (Hr tt)].
    exists (new ++ [identifier p]). rewrite length_app, Hm2, Hm, app_assoc. simpl.
    split; [lia | done].
Qed.

(** X7: when [install_package] returns (a, b), a is 0 or 1, b is the
    number of packages materialized for the dependencies and a tells
    whether the package itself was materialized; the dependencies come
    first in the order of materialization and the package itself last. *)
Theorem install_package_counts (fuel : nat) (nm : string) (s s' : State)
    (c : nat * nat) :
  install_package env cfg fuel nm s = (Ok c, s') ->
  exists p new,
    get_package_from_name env cfg nm = Ok p
    /\ c.1 <= 1
    /\ length new = c.2
    /\ materialized s'
       = materialized s ++ new ++ (if c.1 =? 1 then [identifier p] else []).
Proof.
  intros H. destruct fuel as [| fuel]; [done |].
  simpl in H. apply bind_ok in H as (p & s1 & H1 & H). apply lift_inv in H1 as [Hp ->].
  apply bind_ok in H as (ci & s1 & H1 & H). apply lift_inv in H1 as [_ ->].
  exists p. destruct ci.
  2: { unfold bind, print, modify, ret in H. injection H as <- <-.
       exists []. split; [done |]. split; [simpl; lia |]. split; [done |].
       simpl. by rewrite app_nil_r. }
  apply bind_ok in H as (inst & s1 & H1 & H).
  assert (exists new, length new = inst /\ materialized s1 = materialized s ++ new)
    as (new & Hl & Hm).
  { destruct (dependencies p) as [deps |].
    - destruct (install_dependencies_materialized (install_package env cfg fuel) deps
                  (install_package_materialized fuel) _ _ _ _ H1) as (new & Hl & Hm).
      by exists new.
    - injection H1 as <- <-. exists []. by rewrite app_nil_r. }
  exists new. unfold bind at 1, is_package_installed, gets in H.
  destruct (dict_mem (identifier p) (installed_packages s1)); simpl in H.
  - injection H as <- <-. split; [done |]. split; [simpl; lia |]. split; [done |].
    simpl. by rewrite app_nil_r.
  - apply bind_ok in H as ([] & s2 & H2 & H). injection H as <- <-.
    apply install_files_cases in H2 as [(rel & _ & _ & _ & Hm2) | [Hr _]];
      [| by destruct (Hr tt)].
    split; [done |]. split; [simpl; lia |]. split; [done |].
    simpl. by rewrite Hm2, Hm, app_assoc.
Qed.

Lemma install_dependencies_mono (f g : string -> M (nat * nat)) deps :
  (forall dep s r s', f dep s = (r, s') -> r <> OutOfFuel -> g dep s = (r, s')) ->
  forall inst s r s',
    install_dependencies f deps inst s = (r, s') -> r <> OutOfFuel ->
    install_dependencies g deps inst s = (r, s').
Proof.
  intros Hfg. induction deps as [| dep deps IH]; intros inst s r s' H Hr; simpl in *;
    [done |].
  apply bind_inv in H as [(res & s1 & H1 & H) | [(e & H1 & ->) | (_ & ->)]]; [| | done].
  - unfold bind. rewrite (Hfg _ _ _ _ H1) by done. by apply IH.
  - unfold bind. by rewrite (Hfg _ _ _ _ H1).
Qed.

(** The budget of the model is only a budget: once [install_package]
    ends with a value or an exception under some budget, it ends with
    the same outcome in the same state under every larger one. *)
Lemma install_package_fuel_monotone (fuel fuel' : nat) (nm : string)
    (s s' : State) (r : result (nat * nat)) :
  install_package env cfg fuel nm s = (r, s') ->
  r <> OutOfFuel ->
  fuel <= fuel' ->
  install_package env cfg fuel' nm s = (r, s').
Proof.
  revert fuel' nm s s' r.
  induction fuel as [| fuel IH]; intros fuel' nm s s' r H Hr Hle.
  - injection H as <- _. done.
  - destruct fuel' as [| fuel']; [lia |]. simpl in H |- *.
    unfold bind at 1 in H. unfold bind at 1.
    destruct (lift (get_package_from_name env cfg nm) s) as [[p | e |] s1]; try done.
    unfold bind at 1 in H. unfold bind at 1.
    destruct (lift (can_install cfg p) s1) as [[[|] | e |] s2]; try done.
    apply bind_inv in H as [(inst & s3 & H1 & H) | [(e & H1 & ->) | (_ & ->)]];
      [| | done].
    + assert (H1' : match dependencies p with
                    | Some deps => install_dependencies (install_package env cfg fuel') deps 0
                    | None => ret 0
                    end s2 = (Ok inst, s3)).
      { destruct (dependencies p) as [deps |]; [| done].
        eapply install_dependencies_mono; [| exact H1 | done].
        intros dep s0 r0 s0' Hd Hr0. apply (IH fuel' dep s0 s0' r0 Hd Hr0). lia. }
      unfold bind at 1. by rewrite H1'.
    + assert (H1' : match dependencies p with
                    | Some deps => install_dependencies (install_package env cfg fuel') deps 0
                    | None => ret 0
                    end s2 = (Raise e, s')).
      { destruct (dependencies p) as [deps |]; [| done].
        eapply install_dependencies_mono; [| exact H1 | done].
        intros dep s0 r0 s0' Hd Hr0. apply (IH fuel' dep s0 s0' r0 Hd Hr0). lia. }
      unfold bind at 1. by rewrite H1'.
Qed.

(** X8: no cycle is detected.  For an installable package whose first
    dependency resolves to the package itself, [install_package] never
    ends with a value or an exception: whatever the budget, the
    recursion is still descending when it runs out. *)
Theorem install_package_self_dependency (p : Package) (dep : string)
    (rest : list string) :
  get_package_from_name env cfg dep = Ok p ->
  dependencies p = Some (dep :: rest) ->
  can_install cfg p = Ok true ->
  forall fuel nm s,
    get_package_from_name env cfg nm = Ok p ->
    (install_package env cfg fuel nm s).1 = OutOfFuel.
Proof.
  intros Hdep Hdeps Hci. induction fuel as [| fuel IH]; intros nm s Hnm; [done |].
  simpl. unfold bind at 1, lift. rewrite Hnm. unfold bind at 1, lift. rewrite Hci.
  rewrite Hdeps. simpl. unfold bind at 1. unfold bind at 1.
  specialize (IH dep s Hdep).
  destruct (install_package env cfg fuel dep s) as [r s1]. simpl in IH. by subst r.
Qed.

End InstallCounts.

(** ** Upgrading *)

Section Upgrade.

Context (env : Env) (cfg : Config).

(** The verdict of [is_package_upgradable] as a function of the entry and
    of the latest installable release. *)
Lemma is_package_upgradable_eval id force p orel s :
  get_package_from_id cfg id true = Ok (Some p) ->
  get_latest_installable_release cfg p = Ok orel ->
  is_package_upgradable cfg id force s
  = (Ok match dict_get id (installed_packages s), orel with
        | Some cur, Some rel =>
            (force || negb (String.eqb cur "Unknown"))
            && negb (String.eqb cur (version rel))
        | _, _ => false
        end, s).
Proof.
  intros Hp Hrel. unfold is_package_upgradable. run. rewrite Hp, Hrel.
  unfold is_package_installed, installed_version, dict_mem. run.
  destruct (dict_get id (installed_packages s)) as [cur |] eqn:Hcur;
    destruct force, orel as [rel |]; simpl; rewrite ?Hcur; try done.
  destruct (negb (String.eqb cur "Unknown")); simpl; by rewrite ?Hcur.
Qed.

Lemma get_package_from_id_identifier id p :
  get_package_from_id cfg id true = Ok (Some p) -> identifier p = id.
Proof.
  unfold get_package_from_id, lookup_package. destruct (iter_package_list cfg); [| done..].
  destruct (List.find _ _) as [q |] eqn:F; [| done]. intros [= <-].
  apply find_elem in F as [_ F]. by apply String.eqb_eq.
Qed.

Lemma is_package_upgradable_ok id force p s r s' :
  get_package_from_id cfg id true = Ok (Some p) ->
  is_package_upgradable cfg id force s = (Ok r, s') ->
  exists orel, get_latest_installable_release cfg p = Ok orel.
Proof.
  intros Hp H. unfold is_package_upgradable in H. run. rewrite Hp in H.
  destruct (get_latest_installable_release cfg p) as [orel | e |]; [by exists orel | done..].
Qed.

(** X9: after [upgrade_package] has returned for a single package, the
    package is not upgradable under the same [force]: either it was
    brought to the latest installable release or it was not upgradable
    to begin with, so repeating the upgrade changes nothing. *)
Theorem upgrade_package_settles (fuel : nat) (nm : string) (force : bool)
    (p : Package) (s s' : State) (c : nat * nat) :
  nm <> "all" ->
  get_package_from_name env cfg nm = Ok p ->
  get_package_from_id cfg (identifier p) true = Ok (Some p) ->
  upgrade_package env cfg fuel nm force s = (Ok c, s') ->
  is_package_upgradable cfg (identifier p) force s' = (Ok false, s').
Proof.
  intros Hall Hp Hid H. unfold upgrade_package in H.
  apply String.eqb_neq in Hall. rewrite Hall in H.
  unfold bind at 1, lift in H. rewrite Hp in H.
  apply bind_ok in H as (up & s1 & H1 & H).
  destruct (is_package_upgradable_ok _ _ _ _ _ _ Hid H1) as [orel Hrel].
  rewrite (is_package_upgradable_eval _ force p orel s Hid Hrel) in H1.
  injection H1 as Hup <-.
  rewrite (is_package_upgradable_eval _ force p orel s' Hid Hrel). f_equal. f_equal.
  destruct up.
  - unfold upgrade_files in H.
    apply bind_ok in H as (ci & s1 & H1 & H). apply lift_inv in H1 as [Hci ->].
    destruct ci.
    + apply bind_ok in H as (inst & s1 & _ & H).
      apply bind_ok in H as ([] & s2 & H2 & H). injection H as _ <-.
      apply install_files_cases in H2 as [(rel & _ & Hrel' & Ht & _) | [Hr _]];
        [| by destruct (Hr tt)].
      rewrite Hrel in Hrel'. injection Hrel' as ->.
      rewrite Ht, dict_get_set_eq, String.eqb_refl. simpl. apply andb_false_r.
    + unfold can_install in Hci. rewrite Hrel in Hci. injection Hci as Hci.
      destruct orel as [rel |]; [by rewrite bool_decide_eq_true_2 in Hci |].
      by destruct (dict_get _ _).
  - assert (installed_packages s' = installed_packages s) as ->; [| done].
    unfold bind at 1 in H.
    rewrite (is_package_upgradable_eval _ true p orel s Hid Hrel) in H.
    destruct (negb _); unfold bind, print, modify, ret in H; by injection H as _ <-.
Qed.

(** X10: what a refused single upgrade does.  When the package is
    recorded as Unknown, its latest installable release is not named
    "Unknown" and [force] is off, [upgrade_package] returns (0, 0) and
    only prints that -f is needed; when the package is recorded at the
    version of its latest installable release, or is not recorded at
    all, it returns (0, 0) and only prints that the latest version is
    installed. *)
Theorem upgrade_package_refusals (fuel : nat) (nm : string) (force : bool)
    (p : Package) (rel : Release) (s : State) :
  nm <> "all" ->
  get_package_from_name env cfg nm = Ok p ->
  get_package_from_id cfg (identifier p) true = Ok (Some p) ->
  get_latest_installable_release cfg p = Ok (Some rel) ->
  (recorded (identifier p) s = Some "Unknown" -> version rel <> "Unknown" ->
   force = false ->
   exists s',
     upgrade_package env cfg fuel nm force s = (Ok (0, 0), s')
     /\ stdout s' = stdout s ++ ["Package " +:+ name p
          +:+ " not upgraded, unknown version must use -f to force replacement"]
     /\ fs s' = fs s /\ installed_packages s' = installed_packages s)
  /\ (recorded (identifier p) s = Some (version rel)
      \/ recorded (identifier p) s = None ->
      exists s',
        upgrade_package env cfg fuel nm force s = (Ok (0, 0), s')
        /\ stdout s' = stdout s ++ ["Package " +:+ name p
             +:+ " not upgradaded, latest version installed"]
        /\ fs s' = fs s /\ installed_packages s' = installed_packages s).
Proof.
  intros Hall Hp Hid Hrel. apply String.eqb_neq in Hall.
  split.
  - intros Hcur Hver ->. unfold recorded in Hcur.
    unfold upgrade_package. rewrite Hall. unfold bind at 1, lift. rewrite Hp.
    unfold bind at 1.
    rewrite (is_package_upgradable_eval _ false p (Some rel) s Hid Hrel).
    rewrite Hcur. simpl.
    unfold bind at 1.
    rewrite (is_package_upgradable_eval _ true p (Some rel) s Hid Hrel), Hcur.
    destruct (String.eqb_spec "Unknown" (version rel)) as [E | _]; [by destruct Hver |].
    simpl. unfold bind, print, modify, ret. by eexists.
  - intros Hcur. unfold recorded in Hcur.
    assert (Hv : forall f,
              match dict_get (identifier p) (installed_packages s), Some rel with
              | Some cur, Some rel =>
                  (f || negb (String.eqb cur "Unknown"))
                  && negb (String.eqb cur (version rel))
              | _, _ => false
              end = false).
    { intros f. destruct Hcur as [-> | ->]; [| done].
      rewrite String.eqb_refl. simpl. by rewrite andb_false_r. }
    unfold upgrade_package. rewrite Hall. unfold bind at 1, lift. rewrite Hp.
    unfold bind at 1.
    rewrite (is_package_upgradable_eval _ force p (Some rel) s Hid Hrel), Hv.
    unfold bind at 1.
    rewrite (is_package_upgradable_eval _ true p (Some rel) s Hid Hrel), Hv.
    simpl. unfold bind, print, modify, ret. by eexists.
Qed.

(** X11: when no recorded identifier is upgradable, upgrading "all"
    visits them all, returns (0, 0) and changes nothing. *)
Theorem upgrade_all_nothing_to_do (fuel : nat) (force : bool) (s : State) :
  (forall id, id ∈ dict_keys (installed_packages s) ->
              is_package_upgradable cfg id force s = (Ok false, s)) ->
  upgrade_package env cfg fuel "all" force s = (Ok (0, 0), s).
Proof.
  intros Hall. unfold upgrade_package. simpl. unfold bind at 1, gets.
  assert (Hlen : length (dict_keys (installed_packages s))
                 = length (installed_packages s)) by apply length_map.
  rewrite Hlen. generalize (0, 0). revert Hall.
  generalize (dict_keys (installed_packages s)).
  intros ids. induction ids as [| id ids IH]; intros Hall inst.
  - rewrite upgrade_all_unfold, Nat.eqb_refl. done.
  - rewrite upgrade_all_unfold, Nat.eqb_refl. simpl. unfold bind at 1.
    rewrite (Hall id) by (by left). apply IH. intros id' Hin. apply Hall. by right.
Qed.

End Upgrade.

(** ** The keys view of [upgrade_package "all"] *)

Section KeysView.

Context (env : Env) (cfg : Config).

(** The table grows by exactly one key for each materialization made by
    [install_package]. *)
Lemma install_package_growth fuel nm s r s' :
  install_package env cfg fuel nm s = (r, s') ->
  length (installed_packages s') + length (materialized s)
  = length (installed_packages s) + length (materialized s').
Proof.
  revert nm s r s'. induction fuel as [| fuel IH]; intros nm s r s'; simpl.
  - by intros [= _ <-].
  - intros H.
    apply bind_inv in H as [(p & s1 & H1 & H) | [(e & H1 & _) | (H1 & _)]];
      apply lift_inv in H1 as [_ ->]; try done.
    apply bind_inv in H as [(ci & s1 & H1 & H) | [(e & H1 & _) | (H1 & _)]];
      apply lift_inv in H1 as [_ ->]; try done.
    destruct ci.
    2: { unfold bind, print, modify, ret in H. by injection H as _ <-. }
    assert (Hloop : forall deps inst s0 r0 s1,
              install_dependencies (install_package env cfg fuel) deps inst s0 = (r0, s1) ->
              length (installed_packages s1) + length (materialized s0)
              = length (installed_packages s0) + length (materialized s1)).
    { induction deps as [| dep deps IHd]; intros inst s0 r0 s1 Hd; simpl in Hd.
      - by injection Hd as _ <-.
      - apply bind_inv in Hd as [(res & s2 & Hd1 & Hd) | [(e & Hd1 & _) | (Hd1 & _)]].
        + apply IH in Hd1. apply IHd in Hd. lia.
        + by apply IH in Hd1.
        + by apply IH in Hd1. }
    assert (Hdeps : forall (r0 : result nat) s1,
              match dependencies p with
              | Some deps => install_dependencies (install_package env cfg fuel) deps 0
              | None => ret 0
              end s = (r0, s1) ->
              length (installed_packages s1) + length (materialized s)
              = length (installed_packages s) + length (materialized s1)).
    { intros r0 s1 Hd. destruct (dependencies p) as [deps |].
      - by eapply Hloop.
      - by injection Hd as _ <-. }
    apply bind_inv in H as [(inst & s1 & H1 & H) | [(e & H1 & _) | (H1 & _)]];
      [| by eapply Hdeps | by eapply Hdeps].
    apply Hdeps in H1.
    unfold bind at 1, is_package_installed, gets in H.
    destruct (dict_mem (identifier p) (installed_packages s1)) eqn:Hmem; simpl in H.
    + by injection H as _ <-.
    + apply dict_mem_false in Hmem.
      assert (Hfiles : forall r0 s2, install_files env cfg p s1 = (r0, s2) ->
                length (installed_packages s2) + length (materialized s1)
                = length (installed_packages s1) + length (materialized s2)).
      { intros r0 s2 Hf.
        apply install_files_cases in Hf as [(rel & _ & _ & Ht & Hm) | [_ [Ht Hm]]].
        - rewrite Ht, Hm, length_app, dict_set_length_new by done. simpl. lia.
        - by rewrite Ht, Hm. }
      apply bind_inv in H as [(u & s2 & H2 & H) | [(e & H2 & _) | (H2 & _)]];
        apply Hfiles in H2; [injection H as _ <- | |]; lia.
Qed.

Lemma upgrade_dependencies_growth fuel deps inst s total s' :
  upgrade_dependencies env cfg fuel deps inst s = (Ok total, s') ->
  length (installed_packages s') + inst = length (installed_packages s) + total.
Proof.
  revert inst s. induction deps as [| dep deps IH]; intros inst s H; simpl in H.
  - by injection H as <- <-.
  - unfold bind at 1, is_package_installed, gets in H.
    destruct (negb (dict_mem dep (installed_packages s))); [| by apply IH].
    apply bind_ok in H as (res & s1 & H1 & H).
    pose proof (install_package_growth _ _ _ _ _ H1) as Hg.
    apply install_package_materialized in H1 as (new & Hl & Hm).
    apply IH in H. rewrite Hm, length_app in Hg. lia.
Qed.

(** An upgrade of a recorded package makes the table longer by the number
    of dependencies it has installed. *)
Lemma upgrade_files_ok_growth fuel p s c s' :
  is_Some (recorded (identifier p) s) ->
  upgrade_files env cfg fuel p s = (Ok c, s') ->
  length (installed_packages s') = length (installed_packages s) + c.2.
Proof.
  intros Hrec H. unfold upgrade_files in H.
  apply bind_ok in H as (ci & s1 & H1 & H). apply lift_inv in H1 as [_ ->].
  destruct ci.
  2: { unfold bind, print, modify, ret in H. injection H as <- <-. simpl. lia. }
  apply bind_ok in H as (inst & s1 & H1 & H).
  assert (Hs1 : length (installed_packages s1) = length (installed_packages s) + inst
                /\ is_Some (recorded (identifier p) s1)).
  { destruct (dependencies p) as [deps |].
    - split.
      + apply upgrade_dependencies_growth in H1. lia.
      + eapply install_step_keeps; [| exact Hrec]. by eapply upgrade_dependencies_step.
    - injection H1 as <- <-. split; [lia | done]. }
  destruct Hs1 as [Hlen Hrec1].
  apply bind_ok in H as ([] & s2 & H2 & H). injection H as <- <-. simpl.
  apply install_files_cases in H2 as [(rel & _ & _ & Ht & _) | [Hr _]];
    [| by destruct (Hr tt)].
  by rewrite Ht, dict_set_length_mem.
Qed.

(** X12: the loop of [upgrade_package "all"] runs over the live keys of
    the table.  When the upgrade of a recorded package succeeds but has
    installed a missing dependency, the table has a new key, and the
    next step of the loop raises RuntimeError: the batch ends there, in
    the state the successful upgrade left, even if that package was the
    last one. *)
Theorem upgrade_all_new_dependency_breaks_loop (fuel : nat) (force : bool)
    (pre post : list string) (id : string) (p : Package)
    (s s1 s2 : State) (inst res : nat * nat) :
  dict_keys (installed_packages s) = pre ++ id :: post ->
  upgrade_all env cfg fuel force (length (installed_packages s)) pre (0, 0) s
  = (Ok inst, s1) ->
  is_package_upgradable cfg id force s1 = (Ok true, s1) ->
  get_package_from_id cfg id true = Ok (Some p) ->
  upgrade_files env cfg fuel p s1 = (Ok res, s2) ->
  0 < res.2 ->
  upgrade_package env cfg fuel "all" force s
  = (Raise (RuntimeError "dictionary changed size during iteration"), s2).
Proof.
  intros Hkeys Hpre Hup Hp Hfiles Hdeps.
  assert (Hrec : is_Some (recorded (identifier p) s1)).
  { destruct (is_package_upgradable_ok cfg _ _ _ _ _ _ Hp Hup) as [orel Hrel].
    rewrite (is_package_upgradable_eval cfg _ force p orel s1 Hp Hrel) in Hup.
    injection Hup as Hup. unfold recorded.
    rewrite (get_package_from_id_identifier cfg _ _ Hp).
    destruct (dict_get id (installed_packages s1)); [by eexists | done]. }
  pose proof (upgrade_files_ok_growth _ _ _ _ _ Hrec Hfiles) as Hgrow.
  pose proof (upgrade_all_ok_size env cfg _ _ _ _ _ _ _ _ Hpre) as Hsize.
  unfold upgrade_package. simpl. unfold bind at 1, gets.
  rewrite Hkeys at 2.
  assert (Hlen : length (dict_keys (installed_packages s))
                 = length (installed_packages s)) by apply length_map.
  rewrite Hlen, upgrade_all_app. unfold bind at 1. rewrite Hpre.
  rewrite upgrade_all_unfold, Hsize, Nat.eqb_refl. simpl.
  unfold bind at 1. rewrite Hup.
  unfold bind at 1, require_package_from_id, lift. rewrite Hp.
  unfold bind at 1. rewrite Hfiles.
  rewrite upgrade_all_unfold.
  destruct (Nat.eqb_spec (length (installed_packages s2)) (length (installed_packages s)))
    as [E | _]; [lia | done].
Qed.

End KeysView.

(** ** Detection as a whole *)

Section DictUpdate.

Implicit Types (d : list (string * string)) (k : string).

Lemma dict_ext d1 d2 :
  NoDup (dict_keys d1) ->
  dict_keys d1 = dict_keys d2 ->
  (forall k, dict_get k d1 = dict_get k d2) ->
  d1 = d2.
Proof.
  revert d2. induction d1 as [| [k v] d1 IH]; intros d2 Hnd Hkeys Hget.
  - by destruct d2.
  - destruct d2 as [| [k2 v2] d2]; [done |].
    simpl in Hkeys. injection Hkeys as <- Hkeys.
    simpl in Hnd. apply NoDup_cons in Hnd as [Hfresh Hnd].
    pose proof (Hget k) as Hk. simpl in Hk. rewrite String.eqb_refl in Hk.
    injection Hk as <-. f_equal. apply IH; [done | done |].
    intros k'. destruct (String.eqb_spec k k') as [<- | Hne].
    + assert (H1 : dict_get k d1 = None).
      { apply eq_None_not_Some. by intros ?%dict_get_keys. }
      assert (H2 : dict_get k d2 = None).
      { apply eq_None_not_Some. intros ?%dict_get_keys.
        apply Hfresh. fold (dict_keys d1). by rewrite Hkeys. }
      by rewrite H1, H2.
    + specialize (Hget k'). simpl in Hget.
      apply String.eqb_neq in Hne. by rewrite Hne in Hget.
Qed.

Lemma dict_keys_set k (v : string) d :
  dict_keys (dict_set k v d)
  = if dict_mem k d then dict_keys d else dict_keys d ++ [k].
Proof.
  unfold dict_mem, dict_keys. induction d as [| [k0 v0] d IH]; simpl; [done |].
  destruct (String.eqb_spec k0 k) as [-> | Hne]; simpl; [done |].
  rewrite IH. by destruct (dict_get k d).
Qed.

Lemma dict_set_keeps k k' (v : string) d :
  is_Some (dict_get k d) -> is_Some (dict_get k (dict_set k' v d)).
Proof.
  intros H. destruct (decide (k' = k)) as [-> | Hne].
  - rewrite dict_get_set_eq. by eexists.
  - by rewrite dict_get_set_ne.
Qed.

Lemma dict_set_NoDup k (v : string) d :
  NoDup (dict_keys d) -> NoDup (dict_keys (dict_set k v d)).
Proof.
  intros Hnd. rewrite dict_keys_set. destruct (dict_mem k d) eqn:E; [done |].
  apply NoDup_app. split; [done |]. split; [| apply NoDup_singleton].
  intros x Hx ->%list_elem_of_singleton.
  apply dict_get_keys in Hx. apply dict_mem_false in E.
  rewrite E in Hx. by destruct Hx.
Qed.

Lemma dict_update_app ops1 ops2 d :
  dict_update (ops1 ++ ops2) d = dict_update ops2 (dict_update ops1 d).
Proof.
  revert d. induction ops1 as [| [k v] ops1 IH]; intros d; simpl; [done | apply IH].
Qed.

Lemma dict_update_NoDup ops d :
  NoDup (dict_keys d) -> NoDup (dict_keys (dict_update ops d)).
Proof.
  revert d. induction ops as [| [k v] ops IH]; intros d Hnd; simpl; [done |].
  by apply IH, dict_set_NoDup.
Qed.

Lemma dict_get_update k ops d :
  dict_get k (dict_update ops d) = read_after k ops (dict_get k d).
Proof.
  unfold read_after. revert d.
  induction ops as [| [k' v] ops IH]; intros d; simpl; [done |].
  rewrite IH. destruct (String.eqb_spec k' k) as [-> | Hne].
  - by rewrite dict_get_set_eq.
  - by rewrite dict_get_set_ne.
Qed.

(** An assignment sequence either leaves the value under a key alone or
    fixes it, whatever it was. *)
Lemma read_after_shape k ops :
  (forall o, read_after k ops o = o)
  \/ exists c, forall o, read_after k ops o = c.
Proof.
  unfold read_after. induction ops as [| [k' v] ops IH]; simpl; [by left |].
  destruct (String.eqb k' k); [| exact IH].
  right. by eexists.
Qed.

Lemma read_after_some k ops o :
  is_Some o -> is_Some (read_after k ops o).
Proof.
  unfold read_after. revert o.
  induction ops as [| [k' v] ops IH]; intros o Ho; simpl; [done |].
  apply IH. destruct (String.eqb k' k); [by eexists | done].
Qed.

(** Assignments never remove an entry. *)
Lemma dict_update_keeps k ops d :
  is_Some (dict_get k d) -> is_Some (dict_get k (dict_update ops d)).
Proof. intros H. rewrite dict_get_update. by apply read_after_some. Qed.

Lemma dict_update_written k v ops d :
  (k, v) ∈ ops -> is_Some (dict_get k (dict_update ops d)).
Proof.
  revert d. induction ops as [| [k' v'] ops IH]; intros d Hin;
    [by apply elem_of_nil in Hin |].
  apply elem_of_cons in Hin as [[= <- <-] | Hin]; simpl.
  - apply dict_update_keeps. rewrite dict_get_set_eq. by eexists.
  - by apply IH.
Qed.

Lemma dict_update_keys_present ops d :
  (forall kv, kv ∈ ops -> is_Some (dict_get kv.1 d)) ->
  dict_keys (dict_update ops d) = dict_keys d.
Proof.
  revert d. induction ops as [| [k v] ops IH]; intros d Hin; simpl; [done |].
  rewrite IH.
  - rewrite dict_keys_set.
    assert (Hk : dict_mem k d = true).
    { apply dict_mem_true. apply (Hin (k, v)). by left. }
    by rewrite Hk.
  - intros kv Hkv. apply dict_set_keeps. apply Hin. by right.
Qed.

(** Replaying an assignment sequence on its own result changes nothing. *)
Lemma dict_update_idem ops d :
  NoDup (dict_keys d) ->
  dict_update ops (dict_update ops d) = dict_update ops d.
Proof.
  intros Hnd. symmetry. apply dict_ext.
  - by apply dict_update_NoDup.
  - symmetry. apply dict_update_keys_present.
    intros [k v] Hin. simpl. by eapply dict_update_written.
  - intros k. rewrite !dict_get_update.
    destruct (read_after_shape k ops) as [Hid | [c Hc]].
    + by rewrite !Hid.
    + by rewrite !Hc.
Qed.

End DictUpdate.

Section Detection.

Context (env : Env) (cfg : Config).

(** The scan of one package is the sequence of its assignments. *)
Lemma scan_releases_writes bin_name disk dest_path id rels tbl :
  scan_releases env bin_name disk dest_path id rels tbl
  = dict_update (map (pair id) (scan_writes env bin_name disk dest_path rels)) tbl.
Proof.
  revert tbl. induction rels as [| v rels IH]; intros tbl; simpl; [done |].
  destruct (release_get bin_name v) as [b |]; [| apply IH].
  destruct (forallb (file_matchb env disk dest_path) (hash b)); [done |].
  destruct (forallb (file_presentb env disk dest_path) (hash b)); [| apply IH].
  simpl. apply IH.
Qed.

(** On a catalog of known types detection is a sequence of assignments to
    the table, fixed by the disk, and nothing else. *)
Lemma detect_packages_writes l s :
  Forall known_type l ->
  detect_packages env cfg l s
  = (Ok tt,
     with_installed
       (dict_update (detect_writes env cfg (fs s) l) (installed_packages s)) s).
Proof.
  intros Hk. revert s. induction l as [| q l IH]; intros s; simpl.
  - run. by rewrite with_installed_id.
  - apply Forall_cons in Hk as [Hq Hk].
    destruct (known_type_install_path cfg q Hq) as [dq Hdq].
    destruct (known_type_bin_name cfg q Hq) as [bq Hbq].
    unfold bind at 1. unfold lift. rewrite Hdq.
    unfold bind at 1. rewrite (detect_releases_eval env cfg q bq dq _ s Hbq).
    rewrite IH by done. simpl. rewrite Hbq.
    by rewrite dict_update_app, scan_releases_writes.
Qed.

Lemma unknown_type_install_path p :
  ~ known_type p -> get_install_path cfg p = Raise (Exception "Unknown install type").
Proof.
  unfold known_type, get_install_path. intros Hn.
  destruct (String.eqb_spec (type p) "PyScript") as [E | _]; [exfalso; auto |].
  destruct (String.eqb_spec (type p) "Plugin") as [E | _]; [exfalso; auto | done].
Qed.

(** X13: on a catalog whose packages all have type PyScript or Plugin,
    detection always completes, and it only reads: the files, the download
    cache, the output and the history are as before; it writes no entry for
    an identifier the catalog does not list and removes no entry. *)
Theorem detect_installed_packages_reads_only (pl : list Package) (s : State) :
  package_list cfg = Some pl ->
  Forall known_type pl ->
  exists s',
    detect_installed_packages env cfg s = (Ok tt, s')
    /\ fs s' = fs s
    /\ download_cache s' = download_cache s
    /\ stdout s' = stdout s
    /\ materialized s' = materialized s
    /\ (forall id, id ∉ map identifier pl -> recorded id s' = recorded id s)
    /\ (forall id, is_Some (recorded id s) -> is_Some (recorded id s')).
Proof.
  intros Hpl Hk. unfold detect_installed_packages. rewrite Hpl.
  destruct (detect_packages_frame env cfg pl s Hk) as (tbl & Hrun & Hframe).
  exists (with_installed tbl s).
  split; [done |]. split; [done |]. split; [done |]. split; [done |].
  split; [done |]. split.
  - intros id Hid. unfold recorded. simpl. by apply Hframe.
  - intros id Hid. rewrite detect_packages_writes in Hrun by done.
    injection Hrun as <-. unfold recorded. simpl. by apply dict_update_keeps.
Qed.

(** X14: the two ways detection fails.  Without a loaded catalog it prints
    the advice to run update and exits with status 1, the table untouched.
    At the first package whose type is neither PyScript nor Plugin it
    raises "Unknown install type"; the packages before it have been
    scanned, those after it are not. *)
Theorem detect_installed_packages_failures (s : State) :
  (package_list cfg = None ->
   exists s',
     detect_installed_packages env cfg s = (Raise (SystemExit 1), s')
     /\ stdout s'
        = stdout s ++ ["No valid package definitions found. Run update command first!"]
     /\ installed_packages s' = installed_packages s
     /\ fs s' = fs s)
  /\ (forall pre q post,
        package_list cfg = Some (pre ++ q :: post) ->
        Forall known_type pre ->
        ~ known_type q ->
        exists s',
          detect_installed_packages env cfg s
          = (Raise (Exception "Unknown install type"), s')
          /\ detect_packages env cfg pre s = (Ok tt, s')).
Proof.
  split.
  - intros Hpl. unfold detect_installed_packages. rewrite Hpl.
    eexists. split; [reflexivity | done].
  - intros pre q post Hpl Hpre Hq. unfold detect_installed_packages. rewrite Hpl.
    clear Hpl. revert s. induction pre as [| a pre IH]; intros s; simpl.
    + exists s. unfold bind at 1. unfold lift.
      by rewrite (unknown_type_install_path q Hq).
    + apply Forall_cons in Hpre as [Ha Hpre].
      destruct (known_type_install_path cfg a Ha) as [da Hda].
      destruct (known_type_bin_name cfg a Ha) as [ba Hba].
      unfold bind at 1 3. unfold lift. rewrite Hda.
      unfold bind at 1 2. rewrite (detect_releases_eval env cfg a ba da _ s Hba).
      apply (IH Hpre).
Qed.

(** X15: detection is idempotent.  On a catalog of known types, running
    it again on the state it produced (the disk being the same) gives that
    state again: the table is a fixed point, in content and in order. *)
Theorem detect_installed_packages_idempotent (pl : list Package) (s : State) :
  package_list cfg = Some pl ->
  Forall known_type pl ->
  NoDup (dict_keys (installed_packages s)) ->
  exists s1,
    detect_installed_packages env cfg s = (Ok tt, s1)
    /\ detect_installed_packages env cfg s1 = (Ok tt, s1).
Proof.
  intros Hpl Hk Hnd. unfold detect_installed_packages. rewrite Hpl.
  rewrite detect_packages_writes by done.
  eexists. split; [reflexivity |].
  rewrite detect_packages_writes by done. simpl.
  rewrite dict_update_idem by done. done.
Qed.

(** An Unknown in the scanned entry comes from a release whose files are
    all present. *)
Lemma scan_releases_unknown bin_name disk dest_path id rels tbl :
  dict_get id (scan_releases env bin_name disk dest_path id rels tbl) = Some "Unknown" ->
  dict_get id tbl = Some "Unknown"
  \/ exists r b, r ∈ rels /\ release_get bin_name r = Some b
                 /\ release_present env disk dest_path b
                 /\ (~ release_matches env disk dest_path b \/ version r = "Unknown").
Proof.
  revert tbl. induction rels as [| v rels IH]; intros tbl Hget; simpl in Hget.
  - by left.
  - assert (Hrest : forall tbl',
              dict_get id (scan_releases env bin_name disk dest_path id rels tbl')
              = Some "Unknown" ->
              dict_get id tbl' = Some "Unknown"
              \/ exists r b, r ∈ v :: rels /\ release_get bin_name r = Some b
                             /\ release_present env disk dest_path b
                             /\ (~ release_matches env disk dest_path b
                                 \/ version r = "Unknown")).
    { intros tbl' H'. destruct (IH tbl' H') as [? | (r & b & Hin & ?)];
        [by left | right]. exists r, b. split; [by right | done]. }
    destruct (release_get bin_name v) as [b |] eqn:Hb; [| by apply Hrest].
    destruct (forallb (file_matchb env disk dest_path) (hash b)) eqn:Hm.
    + rewrite dict_get_set_eq in Hget. injection Hget as Hv. right.
      exists v, b. split; [by left |]. split; [done |]. split; [| by right].
      apply release_matches_present. by apply forallb_matches.
    + destruct (forallb (file_presentb env disk dest_path) (hash b)) eqn:Hp;
        [| by apply Hrest].
      destruct (Hrest _ Hget) as [_ | ?]; [| by right].
      right. exists v, b. split; [by left |]. split; [done |].
      split; [by apply forallb_present |]. left.
      intros Habs%forallb_matches. congruence.
Qed.

(** X16: what an Unknown entry means right after detection.  Some release
    of the package with a descriptor for the target has every file of its
    hash mapping on disk, and at least one of them with another content
    than declared (or the release is itself named Unknown). *)
Theorem detected_unknown_on_disk (disk : gmap string bytes) (pl : list Package)
    (p : Package) (bin_name dest_path : string) (s' : State) :
  package_list cfg = Some pl ->
  Forall known_type pl ->
  NoDup (map identifier pl) ->
  p ∈ pl ->
  get_bin_name cfg p = Ok bin_name ->
  get_install_path cfg p = Ok dest_path ->
  detect_installed_packages env cfg (initial_state disk) = (Ok tt, s') ->
  recorded (identifier p) s' = Some "Unknown" ->
  exists r b,
    r ∈ releases p
    /\ release_get bin_name r = Some b
    /\ release_present env disk dest_path b
    /\ (~ release_matches env disk dest_path b \/ version r = "Unknown").
Proof.
  intros Hpl Hk Hnd Hin Hbin Hdest Hrun Hcur.
  destruct (detect_installed_packages_entry env cfg disk pl p bin_name dest_path
              Hpl Hk Hnd Hin Hbin Hdest) as (s1 & tbl0 & Hrun1 & Hfs & Htbl0 & Hentry).
  rewrite Hrun in Hrun1. injection Hrun1 as <-.
  rewrite Hentry in Hcur.
  destruct (scan_releases_unknown _ _ _ _ _ _ Hcur) as [Habs | H]; [congruence | done].
Qed.

End Detection.

(** ** Uninstalling when files are missing *)

Section UninstallMissing.

Context (env : Env) (cfg : Config).

Lemma remove_files_app dest_path h1 h2 s :
  remove_files env dest_path (h1 ++ h2) s
  = bind (remove_files env dest_path h1) (fun _ => remove_files env dest_path h2) s.
Proof.
  revert s. induction h1 as [| [f ref_hash] h1 IH]; intros s; simpl; [done |].
  unfold bind in *. destruct (os_remove (path_join env dest_path f) s) as [[[] | e |] s1];
    [apply IH | done | done].
Qed.

(** For a package recorded at a version other than Unknown whose first
    release of that version has a descriptor for the target,
    [uninstall_package] is the removal of the files of that descriptor,
    followed by one line of output. *)
Lemma uninstall_package_known nm p cur dest_path bin_name pre rel post b s :
  get_package_from_name env cfg nm = Ok p ->
  recorded (identifier p) s = Some cur ->
  cur <> "Unknown" ->
  get_install_path cfg p = Ok dest_path ->
  get_bin_name cfg p = Ok bin_name ->
  releases p = pre ++ rel :: post ->
  version rel = cur ->
  Forall (fun r => version r <> cur) pre ->
  release_get bin_name rel = Some b ->
  uninstall_package env cfg nm s
  = bind (remove_files env dest_path (hash b))
      (fun _ => bind (print ("Uninstalled package: " +:+ name p +:+ " " +:+ cur))
                  (fun _ => ret (1, 0))) s.
Proof.
  intros Hp Hcur Hknown Hdest Hbin Hrels Hver Hpre Hb.
  unfold uninstall_package. unfold bind at 1, lift. rewrite Hp.
  unfold bind at 1, is_package_installed, gets, dict_mem.
  pose proof Hcur as Hcur'. unfold recorded in Hcur'. rewrite Hcur'.
  unfold bind at 1, installed_version. rewrite Hcur'.
  destruct (String.eqb_spec cur "Unknown") as [E | _]; [done |].
  unfold bind at 1, uninstall_files.
  unfold bind at 1, lift. rewrite Hdest. unfold bind at 1, lift. rewrite Hbin.
  unfold bind at 1. rewrite (find_installed_rel_eval _ cur _ s Hcur).
  assert (Hfind : List.find (fun r => String.eqb (version r) cur) (releases p)
                  = Some rel).
  { apply find_first. exists pre, post. split; [done |]. split.
    - by apply String.eqb_eq.
    - eapply Forall_impl; [exact Hpre |]. intros r Hr. simpl.
      by apply String.eqb_neq. }
  rewrite Hfind, Hb. unfold bind at 3.
  destruct (remove_files env dest_path (hash b) s) as [[[] | e |] s1] eqn:Hrm;
    [| done | done].
  apply remove_files_table in Hrm. unfold bind at 1. by rewrite Hrm, Hcur'.
Qed.

(** X17: uninstalling is not atomic.  When a file of the recorded release
    is missing, [uninstall_package] raises FileNotFoundError for the first
    missing file; the files listed before it in the hash mapping have been
    deleted by then, every other file is as it was, and the package stays
    recorded at its version. *)
Theorem uninstall_package_missing_file (nm : string) (p : Package)
    (cur dest_path bin_name : string) (pre : list Release) (rel : Release)
    (post : list Release) (b : Binary)
    (done_ : list (string * string)) (f ref_hash : string)
    (rest : list (string * string)) (s : State) :
  get_package_from_name env cfg nm = Ok p ->
  recorded (identifier p) s = Some cur ->
  cur <> "Unknown" ->
  get_install_path cfg p = Ok dest_path ->
  get_bin_name cfg p = Ok bin_name ->
  releases p = pre ++ rel :: post ->
  version rel = cur ->
  Forall (fun r => version r <> cur) pre ->
  release_get bin_name rel = Some b ->
  hash b = done_ ++ (f, ref_hash) :: rest ->
  NoDup (map (fun fh => path_join env dest_path fh.1) done_) ->
  Forall (fun fh => file_present env (fs s) dest_path fh.1) done_ ->
  ~ file_present env (fs s) dest_path f ->
  exists s',
    uninstall_package env cfg nm s
    = (Raise (FileNotFoundError (path_join env dest_path f)), s')
    /\ (forall path,
          fs s' !! path
          = if decide (path ∈ map (fun fh => path_join env dest_path fh.1) done_)
            then None else fs s !! path)
    /\ recorded (identifier p) s' = Some cur.
Proof.
  intros Hp Hcur Hknown Hdest Hbin Hrels Hver Hpre Hb Hhash Hnd Hpres Hmiss.
  rewrite (uninstall_package_known nm p cur dest_path bin_name pre rel post b s) by done.
  rewrite Hhash. unfold bind at 1. rewrite remove_files_app. unfold bind at 1.
  destruct (remove_files_eval env dest_path done_ s Hnd Hpres) as (s1 & Hrm & Hfs).
  rewrite Hrm. simpl. unfold bind at 1, os_remove.
  assert (Hnone : fs s1 !! path_join env dest_path f = None).
  { rewrite Hfs. destruct (decide _); [done |].
    apply eq_None_not_Some. exact Hmiss. }
  rewrite Hnone. exists s1. split; [done |]. split; [exact Hfs |].
  unfold recorded. by rewrite (remove_files_table env _ _ _ _ _ Hrm).
Qed.

(** X18: uninstalling twice.  After a successful uninstall of a package
    whose release declares at least one file, the package is still
    recorded, so a second uninstall in the same run tries to delete the
    files again and raises FileNotFoundError for the first of them,
    changing nothing. *)
Theorem uninstall_package_twice (nm : string) (p : Package)
    (cur dest_path bin_name : string) (pre : list Release) (rel : Release)
    (post : list Release) (b : Binary) (f ref_hash : string)
    (rest : list (string * string)) (s : State) :
  get_package_from_name env cfg nm = Ok p ->
  recorded (identifier p) s = Some cur ->
  cur <> "Unknown" ->
  get_install_path cfg p = Ok dest_path ->
  get_bin_name cfg p = Ok bin_name ->
  releases p = pre ++ rel :: post ->
  version rel = cur ->
  Forall (fun r => version r <> cur) pre ->
  release_get bin_name rel = Some b ->
  hash b = (f, ref_hash) :: rest ->
  NoDup (release_paths env dest_path b) ->
  release_present env (fs s) dest_path b ->
  exists s1,
    uninstall_package env cfg nm s = (Ok (1, 0), s1)
    /\ uninstall_package env cfg nm s1
       = (Raise (FileNotFoundError (path_join env dest_path f)), s1).
Proof.
  intros Hp Hcur Hknown Hdest Hbin Hrels Hver Hpre Hb Hhash Hnd Hpres.
  rewrite (uninstall_package_known nm p cur dest_path bin_name pre rel post b s) by done.
  destruct (remove_files_eval env dest_path (hash b) s Hnd Hpres) as (s0 & Hrm & Hfs).
  unfold bind at 1. rewrite Hrm. unfold bind, print, modify, ret.
  eexists. split; [reflexivity |].
  match goal with |- uninstall_package _ _ _ ?st = _ => set (s1 := st) end.
  assert (Hcur1 : recorded (identifier p) s1 = Some cur).
  { unfold recorded, s1. simpl.
    by rewrite (remove_files_table env _ _ _ _ _ Hrm). }
  rewrite (uninstall_package_known nm p cur dest_path bin_name pre rel post b s1) by done.
  rewrite Hhash. simpl. unfold bind at 1 2, os_remove.
  assert (Hnone : fs s1 !! path_join env dest_path f = None).
  { unfold s1. simpl. rewrite Hfs. unfold release_paths. rewrite Hhash.
    rewrite decide_True; [done |]. by left. }
  by rewrite Hnone.
Qed.

End UninstallMissing.

(** ** The install operation as a whole *)

Section InstallClosure.

Context (env : Env) (cfg : Config).

(** A completed install leaves recorded every installable package it
    requires, however deep in the dependency lists. *)
Lemma install_package_ok_closure nm d :
  requires env cfg nm d ->
  forall fuel s counts s' pd,
    install_package env cfg fuel nm s = (Ok counts, s') ->
    get_package_from_name env cfg d = Ok pd ->
    can_install cfg pd = Ok true ->
    is_Some (recorded (identifier pd) s').
Proof.
  induction 1 as [nm | nm p deps dep d Hp Hci Hdeps Hin Hreq IH];
    intros fuel s counts s' pd H Hpd Hcid.
  - by eapply install_package_ok_recorded.
  - destruct fuel as [| fuel]; [done |]. simpl in H.
    apply bind_ok in H as (p' & s1 & H1 & H). apply lift_inv in H1 as [H1 ->].
    rewrite Hp in H1. injection H1 as ->.
    apply bind_ok in H as (ci & s1 & H2 & H). apply lift_inv in H2 as [H2 ->].
    rewrite Hci in H2. injection H2 as ->.
    apply bind_ok in H as (inst & s1 & H3 & H). rewrite Hdeps in H3.
    assert (Hs1 : is_Some (recorded (identifier pd) s1)).
    { destruct (install_dependencies_ok_visits (install_package env cfg fuel) deps dep)
        with (inst := 0) (s := s) (total := inst) (s' := s1)
        as (sa & res & sb & Hrun & Hstep); try done.
      - intros. by eapply install_package_step.
      - eapply install_step_keeps; [exact Hstep |]. by eapply IH. }
    unfold bind at 1, is_package_installed, gets in H.
    destruct (dict_mem (identifier p) (installed_packages s1)) eqn:Hmem; simpl in H.
    + by injection H as _ <-.
    + apply dict_mem_false in Hmem.
      apply bind_ok in H as (u & s2 & H4 & H). injection H as _ <-.
      eapply install_step_keeps; [| exact Hs1]. by eapply install_files_step.
Qed.

Lemma install_each_step fuel names inst s r s' :
  install_each env cfg fuel names inst s = (r, s') -> install_step s s'.
Proof.
  revert inst s. induction names as [| nm names IH]; intros inst s; simpl.
  - intros [= _ <-]. apply install_step_refl.
  - intros H. apply bind_inv in H as [(res & s1 & H1 & H2) | [(e & H1 & _) | (H1 & _)]].
    + eapply install_step_trans; [by eapply install_package_step | by eapply IH].
    + by eapply install_package_step.
    + by eapply install_package_step.
Qed.

Lemma install_each_ok_visits fuel names nm :
  nm ∈ names ->
  forall inst s total s',
    install_each env cfg fuel names inst s = (Ok total, s') ->
    exists sa res sb,
      install_package env cfg fuel nm sa = (Ok res, sb) /\ install_step sb s'.
Proof.
  induction names as [| n names IH]; intros Hin inst s total s' H;
    [by apply elem_of_nil in Hin |].
  simpl in H. apply bind_ok in H as (res & s1 & H1 & H2).
  apply elem_of_cons in Hin as [-> | Hin].
  - exists s, res, s1. split; [done |]. by eapply install_each_step.
  - by eapply IH.
Qed.

(** X19: the install operation is closed under dependencies.  When
    [vsrepo install] completes, every package with a release for the
    target that is named on the command line, or reached from such a name
    through the dependency lists of installable packages, is recorded in
    the installed-state table. *)
Theorem operation_install_closure (fuel : nat) (package : list string)
    (nm d : string) (pd : Package) (s s' : State) :
  operation_install env cfg fuel package s = (Ok tt, s') ->
  nm ∈ package ->
  requires env cfg nm d ->
  get_package_from_name env cfg d = Ok pd ->
  can_install cfg pd = Ok true ->
  is_Some (recorded (identifier pd) s').
Proof.
  intros H Hin Hreq Hpd Hci. unfold operation_install in H.
  apply bind_ok in H as ([] & s0 & _ & H).
  apply bind_ok in H as (inst & s1 & H1 & H).
  assert (Hs1 : is_Some (recorded (identifier pd) s1)).
  { destruct (install_each_ok_visits fuel package nm Hin _ _ _ _ H1)
      as (sa & res & sb & Hrun & Hstep).
    eapply install_step_keeps; [exact Hstep |].
    by eapply install_package_ok_closure. }
  assert (Ht : installed_packages s' = installed_packages s1).
  { repeat destruct (_ && _) in H; unfold print, modify in H; by injection H as <-. }
  unfold recorded in *. by rewrite Ht.
Qed.

End InstallClosure.

(** ** The listings *)

Section Listing.

Context (env : Env) (cfg : Config).

Lemma get_package_from_id_unique pl p :
  package_list cfg = Some pl ->
  NoDup (map identifier pl) ->
  p ∈ pl ->
  get_package_from_id cfg (identifier p) true = Ok (Some p).
Proof.
  intros Hpl Hnd Hin. unfold get_package_from_id, lookup_package, iter_package_list.
  rewrite Hpl.
  assert (Hfind : List.find (fun q => String.eqb (identifier q) (identifier p)) pl
                  = Some p); [| by rewrite Hfind].
  clear Hpl. induction pl as [| q pl IH]; [by apply elem_of_nil in Hin |].
  simpl in Hnd. apply NoDup_cons in Hnd as [Hfresh Hnd]. simpl.
  destruct (String.eqb_spec (identifier q) (identifier p)) as [E | Hne].
  - apply elem_of_cons in Hin as [-> | Hin]; [done |].
    exfalso. apply Hfresh. rewrite E. apply list_elem_of_fmap. by exists p.
  - apply elem_of_cons in Hin as [-> | Hin]; [done | by apply IH].
Qed.

(** The line [print_package_status] prints for a package of a known type
    that carries its group key: the installed column is the table entry,
    the last column the identifier. *)
Lemma print_package_status_line p group s :
  get_package_from_id cfg (identifier p) true = Ok (Some p) ->
  known_type p ->
  group_key p = Some group ->
  exists shown latest,
    print_package_status cfg p s
    = print (package_print_string shown group
               (default "" (recorded (identifier p) s)) latest (identifier p)) s.
Proof.
  intros Hid Hk Hg. destruct (known_type_bin_name cfg p Hk) as [bn Hbn].
  assert (Hrel : exists orel, get_latest_installable_release cfg p = Ok orel).
  { unfold get_latest_installable_release. rewrite Hbn. by eexists. }
  destruct Hrel as [orel Hrel].
  unfold print_package_status. unfold bind at 1, lift. rewrite Hrel.
  unfold bind at 1. rewrite (is_package_upgradable_eval cfg _ false p orel s Hid Hrel).
  unfold group_key in Hg.
  assert (Hgroup : forall s0,
            (if String.eqb (type p) "Plugin" then
               match namespace p with
               | Some ns => ret ns
               | None => raise (KeyError "namespace")
               end
             else
               match modulename p with
               | Some mn => ret mn
               | None => raise (KeyError "modulename")
               end) s0 = (Ok group, s0)).
  { intros s0. destruct (String.eqb (type p) "Plugin"); by rewrite Hg. }
  match goal with |- context [ (if ?c then _ else _) ] => destruct c end.
  - eexists _, _. unfold bind at 1, ret. unfold bind at 1. rewrite Hgroup.
    unfold bind, gets, recorded. reflexivity.
  - unfold bind at 1. unfold bind at 1.
    rewrite (is_package_upgradable_eval cfg _ true p orel s Hid Hrel).
    match goal with |- context [ (if ?c then _ else _) ] => destruct c end.
    + eexists _, _. unfold ret at 1. unfold bind at 1. rewrite Hgroup.
      unfold bind, gets, recorded. reflexivity.
    + eexists _, _. unfold ret at 1. unfold bind at 1. rewrite Hgroup.
      unfold bind, gets, recorded. reflexivity.
Qed.

(** [print_package_status] as one [print]: the marker in front of the name
    is decided by the two upgradability verdicts. *)
Lemma print_package_status_eval p orel group s :
  get_package_from_id cfg (identifier p) true = Ok (Some p) ->
  get_latest_installable_release cfg p = Ok orel ->
  group_key p = Some group ->
  print_package_status cfg p s
  = print (package_print_string
             (if match dict_get (identifier p) (installed_packages s), orel with
                 | Some cur, Some rel =>
                     (false || negb (String.eqb cur "Unknown"))
                     && negb (String.eqb cur (version rel))
                 | _, _ => false
                 end
              then "*" +:+ name p
              else if match dict_get (identifier p) (installed_packages s), orel with
                      | Some cur, Some rel =>
                          (true || negb (String.eqb cur "Unknown"))
                          && negb (String.eqb cur (version rel))
                      | _, _ => false
                      end
              then "+" +:+ name p
              else name p)
             group
             (default "" (recorded (identifier p) s))
             (match orel with Some rel => version rel | None => "" end)
             (identifier p)) s.
Proof.
  intros Hid Hrel Hg.
  unfold print_package_status. unfold bind at 1, lift. rewrite Hrel.
  unfold bind at 1. rewrite (is_package_upgradable_eval cfg _ false p orel s Hid Hrel).
  unfold group_key in Hg.
  assert (Hgroup : forall s0,
            (if String.eqb (type p) "Plugin" then
               match namespace p with
               | Some ns => ret ns
               | None => raise (KeyError "namespace")
               end
             else
               match modulename p with
               | Some mn => ret mn
               | None => raise (KeyError "modulename")
               end) s0 = (Ok group, s0)).
  { intros s0. destruct (String.eqb (type p) "Plugin"); by rewrite Hg. }
  match goal with |- context [ (if ?c then _ else _) ] => destruct c end.
  - unfold bind at 1, ret. unfold bind at 1. rewrite Hgroup.
    unfold bind, gets, recorded. reflexivity.
  - unfold bind at 1. unfold bind at 1.
    rewrite (is_package_upgradable_eval cfg _ true p orel s Hid Hrel).
    match goal with |- context [ (if ?c then _ else _) ] => destruct c end.
    + unfold ret at 1. unfold bind at 1. rewrite Hgroup.
      unfold bind, gets, recorded. reflexivity.
    + unfold ret at 1. unfold bind at 1. rewrite Hgroup.
      unfold bind, gets, recorded. reflexivity.
Qed.

(** X20: the legend of the listings.  For a catalogued package with a
    release for the target, the line [print_package_status] prints shows
    the name with a star when the package is recorded at a version that is
    neither Unknown nor the latest, with a plus when it is recorded as
    Unknown, and bare when it is recorded at the latest version or not
    recorded; the installed column is the recorded state (empty when there
    is none) and the latest column the version of the latest installable
    release. *)
Theorem print_package_status_legend (p : Package) (rel : Release)
    (group : string) (s : State) :
  get_package_from_id cfg (identifier p) true = Ok (Some p) ->
  get_latest_installable_release cfg p = Ok (Some rel) ->
  group_key p = Some group ->
  (forall cur, recorded (identifier p) s = Some cur ->
               cur <> "Unknown" -> cur <> version rel ->
     print_package_status cfg p s
     = print (package_print_string ("*" +:+ name p) group cur
                (version rel) (identifier p)) s)
  /\ (recorded (identifier p) s = Some "Unknown" -> version rel <> "Unknown" ->
      print_package_status cfg p s
      = print (package_print_string ("+" +:+ name p) group "Unknown"
                 (version rel) (identifier p)) s)
  /\ (recorded (identifier p) s = Some (version rel) ->
      print_package_status cfg p s
      = print (package_print_string (name p) group (version rel)
                 (version rel) (identifier p)) s)
  /\ (recorded (identifier p) s = None ->
      print_package_status cfg p s
      = print (package_print_string (name p) group ""
                 (version rel) (identifier p)) s).
Proof.
  intros Hid Hrel Hg.
  rewrite (print_package_status_eval p (Some rel) group s Hid Hrel Hg).
  unfold recorded. split; [| split; [| split]].
  - intros cur -> Hu Hv. simpl.
    apply String.eqb_neq in Hu, Hv. by rewrite Hu, Hv.
  - intros -> Hv.
    assert (Hv' : String.eqb "Unknown" (version rel) = false).
    { apply String.eqb_neq. congruence. }
    by rewrite Hv', String.eqb_refl.
  - intros ->. by rewrite String.eqb_refl, !andb_false_r.
  - by intros ->.
Qed.

Lemma print_installed_lines ids s :
  (forall id, id ∈ ids ->
     exists p, get_package_from_id cfg id true = Ok (Some p)
               /\ known_type p /\ is_Some (group_key p)
               /\ is_Some (recorded id s)) ->
  exists lines s',
    print_installed cfg ids s = (Ok tt, s')
    /\ stdout s' = stdout s ++ lines
    /\ installed_packages s' = installed_packages s
    /\ fs s' = fs s
    /\ Forall2 (fun line id =>
                  exists shown group latest v,
                    recorded id s = Some v
                    /\ line = package_print_string shown group v latest id)
         lines ids.
Proof.
  revert s. induction ids as [| id ids IH]; intros s Hall; simpl.
  - exists [], s. rewrite app_nil_r. by repeat split.
  - destruct (Hall id) as (p & Hid & Hk & [group Hg] & [v Hv]); [by left |].
    pose proof (get_package_from_id_identifier cfg id p Hid) as Eid. subst id.
    unfold bind at 1, require_package_from_id, lift. rewrite Hid.
    unfold bind at 1.
    destruct (print_package_status_line p group s Hid Hk Hg) as (shown & latest & Hline).
    rewrite Hline. unfold print at 1, modify at 1.
    match goal with |- context [ print_installed cfg ids ?st ] => set (s1 := st) end.
    destruct (IH s1) as (lines & s' & Hrun & Hout & Htbl & Hfs & Hlines).
    { intros id' Hin. destruct (Hall id') as (p' & ? & ? & ? & ?); [by right |].
      by exists p'. }
    eexists (_ :: lines), s'. split; [exact Hrun |].
    split; [rewrite Hout; simpl; by rewrite <- app_assoc |].
    split; [done |]. split; [done |].
    constructor; [| exact Hlines].
    exists shown, group, latest, v. split; [done |]. by rewrite Hv.
Qed.

Lemma print_available_lines l s :
  (forall p, p ∈ l ->
     get_package_from_id cfg (identifier p) true = Ok (Some p)
     /\ known_type p /\ is_Some (group_key p)) ->
  exists lines s',
    print_available cfg l s = (Ok tt, s')
    /\ stdout s' = stdout s ++ lines
    /\ installed_packages s' = installed_packages s
    /\ fs s' = fs s
    /\ Forall2 (fun line p =>
                  exists shown group latest,
                    line = package_print_string shown group
                             (default "" (recorded (identifier p) s)) latest
                             (identifier p))
         lines l.
Proof.
  revert s. induction l as [| p l IH]; intros s Hall; simpl.
  - exists [], s. rewrite app_nil_r. by repeat split.
  - destruct (Hall p) as (Hid & Hk & [group Hg]); [by left |].
    unfold bind at 1.
    destruct (print_package_status_line p group s Hid Hk Hg) as (shown & latest & Hline).
    rewrite Hline. unfold print at 1, modify at 1.
    match goal with |- context [ print_available cfg l ?st ] => set (s1 := st) end.
    destruct (IH s1) as (lines & s' & Hrun & Hout & Htbl & Hfs & Hlines).
    { intros p' Hin. apply Hall. by right. }
    eexists (_ :: lines), s'. split; [exact Hrun |].
    split; [rewrite Hout; simpl; by rewrite <- app_assoc |].
    split; [done |]. split; [done |].
    constructor; [| exact Hlines]. by exists shown, group, latest.
Qed.

(** X21: [vsrepo installed] on a well-formed catalog (types PyScript or
    Plugin, distinct identifiers, every package carrying its namespace or
    modulename) completes without touching a file and prints the header
    followed by one line per recorded package, in table order, each line
    showing the recorded state and ending in the identifier. *)
Theorem operation_installed_listing (disk : gmap string bytes) (pl : list Package) :
  package_list cfg = Some pl ->
  Forall known_type pl ->
  NoDup (map identifier pl) ->
  Forall (fun p => is_Some (group_key p)) pl ->
  exists lines s',
    operation_installed env cfg (initial_state disk) = (Ok tt, s')
    /\ stdout s' = listing_header :: lines
    /\ fs s' = disk
    /\ Forall2 (fun line id =>
                  exists shown group latest v,
                    recorded id s' = Some v
                    /\ line = package_print_string shown group v latest id)
         lines (dict_keys (installed_packages s')).
Proof.
  intros Hpl Hk Hnd Hg. unfold operation_installed, detect_installed_packages.
  rewrite Hpl.
  destruct (detect_packages_frame env cfg pl (initial_state disk) Hk)
    as (tbl & Hrun & Hframe).
  unfold bind at 1. rewrite Hrun.
  unfold list_installed_packages. unfold bind at 1, print at 1, modify at 1.
  unfold bind at 1, gets. simpl.
  match goal with |- context [ print_installed cfg _ ?st ] => set (s1 := st) end.
  destruct (print_installed_lines (dict_keys tbl) s1)
    as (lines & s' & Hpr & Hout & Htbl & Hfs & Hlines).
  { intros id Hin. apply dict_get_keys in Hin.
    destruct (decide (id ∈ map identifier pl)) as [Hcat | Hcat].
    - apply list_elem_of_fmap in Hcat as (p & -> & Hp).
      exists p. split; [by eapply get_package_from_id_unique |].
      split; [by eapply Forall_forall in Hk |].
      split; [by eapply Forall_forall in Hg | done].
    - rewrite (Hframe id Hcat) in Hin. by destruct Hin. }
  exists lines, s'. split; [exact Hpr |]. split; [by rewrite Hout |].
  split; [by rewrite Hfs |].
  rewrite Htbl. simpl. eapply Forall2_impl; [exact Hlines |].
  intros line id (shown & group & latest & v & Hv & ->).
  exists shown, group, latest, v. split; [| done].
  unfold recorded in *. by rewrite Htbl.
Qed.

(** X22: [vsrepo available] on a well-formed catalog completes without
    touching a file and prints the header followed by one line per
    catalogued package, in catalog order, each line showing the detected
    state of the package (empty when it has none) and ending in its
    identifier. *)
Theorem operation_available_listing (disk : gmap string bytes) (pl : list Package) :
  package_list cfg = Some pl ->
  Forall known_type pl ->
  NoDup (map identifier pl) ->
  Forall (fun p => is_Some (group_key p)) pl ->
  exists lines s',
    operation_available env cfg (initial_state disk) = (Ok tt, s')
    /\ stdout s' = listing_header :: lines
    /\ fs s' = disk
    /\ Forall2 (fun line p =>
                  exists shown group latest,
                    line = package_print_string shown group
                             (default "" (recorded (identifier p) s')) latest
                             (identifier p))
         lines pl.
Proof.
  intros Hpl Hk Hnd Hg. unfold operation_available, detect_installed_packages.
  rewrite Hpl.
  destruct (detect_packages_frame env cfg pl (initial_state disk) Hk)
    as (tbl & Hrun & Hframe).
  unfold bind at 1. rewrite Hrun.
  unfold list_available_packages. unfold bind at 1, print at 1, modify at 1.
  unfold bind at 1, lift, iter_package_list. rewrite Hpl. simpl.
  match goal with |- context [ print_available cfg _ ?st ] => set (s1 := st) end.
  destruct (print_available_lines pl s1)
    as (lines & s' & Hpr & Hout & Htbl & Hfs & Hlines).
  { intros p Hp. split; [by eapply get_package_from_id_unique |].
    split; [by eapply Forall_forall in Hk | by eapply Forall_forall in Hg]. }
  exists lines, s'. split; [exact Hpr |]. split; [by rewrite Hout |].
  split; [by rewrite Hfs |].
  eapply Forall2_impl; [exact Hlines |].
  intros line p (shown & group & latest & ->).
  exists shown, group, latest. unfold recorded. by rewrite Htbl.
Qed.

End Listing.

(** ** The uninstall operation as a whole *)

Section UninstallOnlyDeletes.

Context (env : Env) (cfg : Config).

Lemma detect_releases_fs p dest_path rels s r s' :
  detect_releases env cfg p dest_path rels s = (r, s') -> fs s' = fs s.
Proof.
  destruct (get_bin_name cfg p) as [bn | e |] eqn:Hbn.
  - rewrite (detect_releases_eval env cfg p bn dest_path rels s Hbn).
    by intros [= _ <-].
  - destruct rels as [| v rels]; simpl; [by intros [= _ <-] |].
    unfold bind, lift. rewrite Hbn. by intros [= _ <-].
  - destruct rels as [| v rels]; simpl; [by intros [= _ <-] |].
    unfold bind, lift. rewrite Hbn. by intros [= _ <-].
Qed.

Lemma detect_packages_fs l s r s' :
  detect_packages env cfg l s = (r, s') -> fs s' = fs s.
Proof.
  revert s. induction l as [| q l IH]; intros s; simpl; [by intros [= _ <-] |].
  intros H.
  apply bind_inv in H as [(d & s1 & H1 & H) | [(e & H1 & _) | (H1 & _)]];
    apply lift_inv in H1 as [_ ->]; [| done | done].
  apply bind_inv in H as [(u & s1 & H1 & H) | [(e & H1 & _) | (H1 & _)]];
    apply detect_releases_fs in H1; [| done | done].
  apply IH in H. congruence.
Qed.

Lemma detect_installed_packages_fs s r s' :
  detect_installed_packages env cfg s = (r, s') -> fs s' = fs s.
Proof.
  unfold detect_installed_packages. destruct (package_list cfg) as [l |].
  - apply detect_packages_fs.
  - unfold bind, print, modify, raise. by intros [= _ <-].
Qed.

Lemma remove_files_only_deletes dest_path h s r s' :
  remove_files env dest_path h s = (r, s') ->
  forall path data, fs s' !! path = Some data -> fs s !! path = Some data.
Proof.
  revert s. induction h as [| [f ref_hash] h IH]; intros s; simpl.
  - by intros [= _ <-].
  - unfold bind, os_remove.
    destruct (fs s !! path_join env dest_path f); [| by intros [= _ <-]].
    intros H path data Hd. apply (IH _ H) in Hd. simpl in Hd.
    by apply lookup_delete_Some in Hd as [_ Hd].
Qed.

Lemma uninstall_package_only_deletes nm s r s' :
  uninstall_package env cfg nm s = (r, s') ->
  forall path data, fs s' !! path = Some data -> fs s !! path = Some data.
Proof.
  intros H. unfold uninstall_package in H.
  apply bind_inv in H as [(p & s1 & H1 & H) | [(e & H1 & _) | (H1 & _)]];
    apply lift_inv in H1 as [_ ->]; [| done | done].
  unfold bind at 1, is_package_installed, gets in H.
  destruct (dict_mem (identifier p) (installed_packages s)).
  2: { unfold bind, print, modify, ret in H. by injection H as _ <-. }
  apply bind_inv in H as [(cur & s1 & H1 & H) | [(e & H1 & _) | (H1 & _)]].
  2, 3: unfold installed_version in H1;
        destruct (dict_get _ _); by injection H1 as _ <-.
  assert (s1 = s) as ->.
  { unfold installed_version in H1. destruct (dict_get _ _); by injection H1 as _ <-. }
  destruct (String.eqb cur "Unknown").
  { unfold bind, print, modify, ret in H. by injection H as _ <-. }
  assert (Hun : forall r1 s1, uninstall_files env cfg p s = (r1, s1) ->
              forall path data, fs s1 !! path = Some data -> fs s !! path = Some data).
  { intros r1 s1 Hu. unfold uninstall_files in Hu.
    apply bind_inv in Hu as [(d & s2 & H2 & Hu) | [(e & H2 & _) | (H2 & _)]];
      apply lift_inv in H2 as [_ ->]; [| done | done].
    apply bind_inv in Hu as [(bn & s2 & H2 & Hu) | [(e & H2 & _) | (H2 & _)]];
      apply lift_inv in H2 as [_ ->]; [| done | done].
    assert (Hfind : forall rels r2 s2, find_installed_rel (identifier p) rels s = (r2, s2)
                                       -> s2 = s).
    { induction rels as [| rel rels IH]; intros r2 s2; simpl.
      - by intros [= _ <-].
      - unfold bind, installed_version. destruct (dict_get _ _); [| by intros [= _ <-]].
        destruct (String.eqb _ _); [by intros [= _ <-] |].
        intros Hf. eapply IH. unfold bind, installed_version in Hf. exact Hf. }
    apply bind_inv in Hu as [(orel & s2 & H2 & Hu) | [(e & H2 & _) | (H2 & _)]];
      apply Hfind in H2 as ->; [| done | done].
    destruct orel as [rel |]; [| by injection Hu as _ <-].
    destruct (release_get bn rel) as [b |]; [| by injection Hu as _ <-].
    by eapply remove_files_only_deletes. }
  apply bind_inv in H as [(u & s1 & H1' & H) | [(e & H1' & _) | (H1' & _)]];
    [| exact (Hun _ _ H1') | exact (Hun _ _ H1')].
  pose proof (Hun _ _ H1') as Hsub.
  apply bind_inv in H as [(cur' & s2 & H2 & H) | [(e & H2 & _) | (H2 & _)]].
  2, 3: unfold installed_version in H2;
        destruct (dict_get _ _); injection H2 as _ <-; done.
  assert (s2 = s1) as ->.
  { unfold installed_version in H2. destruct (dict_get _ _); by injection H2 as _ <-. }
  unfold bind, print, modify, ret in H. by injection H as _ <-.
Qed.

Lemma uninstall_each_only_deletes names uninst s r s' :
  uninstall_each env cfg names uninst s = (r, s') ->
  forall path data, fs s' !! path = Some data -> fs s !! path = Some data.
Proof.
  revert uninst s. induction names as [| nm names IH]; intros uninst s; simpl.
  - by intros [= _ <-].
  - intros H path data Hd.
    apply bind_inv in H as [(res & s1 & H1 & H) | [(e & H1 & _) | (H1 & _)]].
    + eapply uninstall_package_only_deletes; [exact H1 |]. by eapply IH.
    + by eapply uninstall_package_only_deletes.
    + by eapply uninstall_package_only_deletes.
Qed.

(** X24: [vsrepo uninstall] only deletes.  However the run ends, with
    its summary line or with an exception half way, every file on disk
    afterwards was there before with the same content: nothing is written
    or replaced. *)
Theorem operation_uninstall_only_deletes (package : list string) (s s' : State)
    (r : result unit) :
  operation_uninstall env cfg package s = (r, s') ->
  forall path data, fs s' !! path = Some data -> fs s !! path = Some data.
Proof.
  intros H path data Hd. unfold operation_uninstall in H.
  apply bind_inv in H as [(u & s0 & H0 & H) | [(e & H0 & _) | (H0 & _)]];
    apply detect_installed_packages_fs in H0; [| by rewrite <- H0 | by rewrite <- H0].
  rewrite <- H0.
  apply bind_inv in H as [(uninst & s1 & H1 & H) | [(e & H1 & _) | (H1 & _)]].
  - eapply uninstall_each_only_deletes; [exact H1 |].
    destruct (uninst.1 =? 0); unfold print, modify in H; by injection H as _ <-.
  - by eapply uninstall_each_only_deletes.
  - by eapply uninstall_each_only_deletes.
Qed.

End UninstallOnlyDeletes.

(** * The further properties on the example worlds *)

Section FurtherExamples.

Import Demo.

Lemma catalog_group_keys : Forall (fun p => is_Some (group_key p)) catalog.
Proof. repeat (constructor; [by eexists |]). constructor. Qed.

(** X1 on the second catalog: N comes first and has the namespace
    com.odd.s, S has the identifier com.odd.s; the reference com.odd.s
    resolves to S. *)
Lemma get_package_from_name_resolution_witness :
  namespace Demo2.pkgN = Some "com.odd.s"
  /\ get_package_from_name env Demo2.cfg "com.odd.s" = Ok Demo2.pkgS.
Proof.
  split; [reflexivity |].
  apply (proj2 (proj2 (proj2 (get_package_from_name_resolution env Demo2.cfg
           Demo2.catalog "com.odd.s" eq_refl)))
           [Demo2.pkgN; Demo2.pkgW] Demo2.pkgS []).
  - reflexivity.
  - reflexivity.
  - repeat constructor; by vm_compute.
Defined.

(** X4 on the example world: the first fetch of the payload of C caches
    it, and the cache then answers whatever the network says. *)
Lemma fetch_url_caches_witness :
  download_cache (fetch_url env "http://repo/c-1.0.dll" (initial_state ∅)).2
    !! "http://repo/c-1.0.dll" = Some (B "c 1.0")
  /\ forall env',
       fetch_url env' "http://repo/c-1.0.dll"
         (fetch_url env "http://repo/c-1.0.dll" (initial_state ∅)).2
       = (Ok (B "c 1.0"), (fetch_url env "http://repo/c-1.0.dll" (initial_state ∅)).2).
Proof.
  apply (proj2 (proj2 (proj2 (fetch_url_caches env "http://repo/c-1.0.dll"
           (initial_state ∅)
           (fetch_url env "http://repo/c-1.0.dll" (initial_state ∅)).2
           (Ok (B "c 1.0")) eq_refl)))).
Defined.

(** X5 on the example world: materializing C on an empty disk. *)
Lemma install_files_postcondition_witness :
  (install_files env cfg pkgC (initial_state ∅)).1 = Ok tt
  /\ exists dest_path bin_name rel b,
    get_install_path cfg pkgC = Ok dest_path
    /\ get_bin_name cfg pkgC = Ok bin_name
    /\ get_latest_installable_release cfg pkgC = Ok (Some rel)
    /\ release_get bin_name rel = Some b
    /\ recorded (identifier pkgC) (install_files env cfg pkgC (initial_state ∅)).2
       = Some (version rel)
    /\ (forall id, id <> identifier pkgC ->
          recorded id (install_files env cfg pkgC (initial_state ∅)).2
          = recorded id (initial_state ∅))
    /\ (forall path,
          (forall f, f ∈ files b -> path <> path_join env dest_path (rsplit_last f)) ->
          fs (install_files env cfg pkgC (initial_state ∅)).2 !! path
          = fs (initial_state ∅) !! path)
    /\ (forall f, f ∈ files b ->
          exists g ref_hash content,
            g ∈ files b
            /\ path_join env dest_path (rsplit_last g)
               = path_join env dest_path (rsplit_last f)
            /\ dict_get (rsplit_last g) (hash b) = Some ref_hash
            /\ fs (install_files env cfg pkgC (initial_state ∅)).2
                 !! path_join env dest_path (rsplit_last f) = Some content
            /\ (check_hash env content ref_hash).1.1 = true)
    /\ ((forall f g, f ∈ files b -> g ∈ files b ->
           path_join env dest_path (rsplit_last f)
           = path_join env dest_path (rsplit_last g) ->
           rsplit_last f = rsplit_last g) ->
        forall f, f ∈ files b ->
          exists ref_hash content,
            dict_get (rsplit_last f) (hash b) = Some ref_hash
            /\ fs (install_files env cfg pkgC (initial_state ∅)).2
                 !! path_join env dest_path (rsplit_last f) = Some content
            /\ (check_hash env content ref_hash).1.1 = true)
    /\ last (stdout (install_files env cfg pkgC (initial_state ∅)).2)
       = Some ("Successfully installed " +:+ name pkgC +:+ " " +:+ version rel).
Proof.
  split; [by vm_compute |].
  apply (install_files_postcondition env cfg pkgC (initial_state ∅)
           (install_files env cfg pkgC (initial_state ∅)).2).
  by vm_compute.
Defined.

(** X6 on the example world: C is materialized on an empty disk and a
    detection run on the result records C at 1.0. *)
Lemma materialize_then_detect_witness :
  exists s2,
    detect_installed_packages env cfg
      (initial_state (fs (install_files env cfg pkgC (initial_state ∅)).2)) = (Ok tt, s2)
    /\ recorded "com.demo.c" s2 = Some "1.0".
Proof.
  apply (materialize_then_detect env cfg catalog pkgC (plugin_path cfg) "win64"
           (rel64 "1.0" "http://repo/c-1.0.dll" ["c.dll"] [("c.dll", "256:c 1.0")])
           {| url := "http://repo/c-1.0.dll"; files := ["c.dll"];
              hash := [("c.dll", "256:c 1.0")] |}
           (initial_state ∅) (install_files env cfg pkgC (initial_state ∅)).2).
  - reflexivity.
  - exact catalog_known_types.
  - exact catalog_identifiers_distinct.
  - unfold catalog. repeat first [apply list_elem_of_here | apply list_elem_of_further].
  - reflexivity.
  - reflexivity.
  - reflexivity.
  - reflexivity.
  - apply (bool_decide_unpack _). by vm_compute.
  - intros fh ->%list_elem_of_singleton. exists "c.dll". split; [by left | reflexivity].
  - by intros f g ->%list_elem_of_singleton ->%list_elem_of_singleton _.
  - by vm_compute.
Defined.

(** X7 on the example world: installing A on an empty disk materializes
    its dependency C, then A. *)
Lemma install_package_counts_witness :
  exists p new,
    get_package_from_name env cfg "com.demo.a" = Ok p
    /\ (1, 1).1 <= 1
    /\ length new = (1, 1).2
    /\ materialized (install_package env cfg 5 "com.demo.a" (initial_state ∅)).2
       = materialized (initial_state ∅) ++ new
         ++ (if (1, 1).1 =? 1 then [identifier p] else []).
Proof.
  apply (install_package_counts env cfg 5 "com.demo.a" (initial_state ∅)
           (install_package env cfg 5 "com.demo.a" (initial_state ∅)).2 (1, 1)).
  by vm_compute.
Defined.

(** X8 on the second catalog: S lists itself as its dependency. *)
Lemma install_package_self_dependency_witness :
  (install_package env Demo2.cfg 7 "com.odd.s" (initial_state ∅)).1 = OutOfFuel.
Proof.
  apply (install_package_self_dependency env Demo2.cfg Demo2.pkgS "com.odd.s" []).
  - reflexivity.
  - reflexivity.
  - reflexivity.
  - reflexivity.
Defined.

(** X9 on the example world: Y is recorded at 1.0 and upgraded to 2.0;
    afterwards it is not upgradable. *)
Lemma upgrade_package_settles_witness :
  (upgrade_package env cfg 5 "com.demo.y" false (detected disk_xy)).1 = Ok (1, 0)
  /\ is_package_upgradable cfg "com.demo.y" false
       (upgrade_package env cfg 5 "com.demo.y" false (detected disk_xy)).2
     = (Ok false, (upgrade_package env cfg 5 "com.demo.y" false (detected disk_xy)).2).
Proof.
  split; [by vm_compute |].
  apply (upgrade_package_settles env cfg 5 "com.demo.y" false pkgY (detected disk_xy)
           (upgrade_package env cfg 5 "com.demo.y" false (detected disk_xy)).2 (1, 0)).
  - done.
  - reflexivity.
  - reflexivity.
  - by vm_compute.
Defined.

(** X10 on the example world: P is recorded as Unknown and the upgrade is
    asked without -f. *)
Lemma upgrade_package_refusals_witness :
  exists s',
    upgrade_package env cfg 5 "com.demo.p" false (detected disk_unknown_p)
    = (Ok (0, 0), s')
    /\ stdout s'
       = stdout (detected disk_unknown_p)
         ++ ["Package " +:+ name pkgP
             +:+ " not upgraded, unknown version must use -f to force replacement"]
    /\ fs s' = fs (detected disk_unknown_p)
    /\ installed_packages s' = installed_packages (detected disk_unknown_p).
Proof.
  apply (proj1 (upgrade_package_refusals env cfg 5 "com.demo.p" false pkgP
           (rel64 "2.0" "http://repo/p-2.0.dll" ["p.dll"] [("p.dll", "256:p 2.0")])
           (detected disk_unknown_p) ltac:(done) eq_refl eq_refl eq_refl)).
  - by vm_compute.
  - done.
  - reflexivity.
Defined.

(** X11 on the example world: T is recorded at 2.0, its latest release. *)
Lemma upgrade_all_nothing_to_do_witness :
  dict_keys (installed_packages (detected disk_t)) = ["com.demo.t"]
  /\ upgrade_package env cfg 5 "all" false (detected disk_t)
     = (Ok (0, 0), detected disk_t).
Proof.
  assert (E : dict_keys (installed_packages (detected disk_t)) = ["com.demo.t"])
    by (by vm_compute).
  split; [exact E |].
  apply (upgrade_all_nothing_to_do env cfg 5 false (detected disk_t)).
  intros id Hin. rewrite E in Hin. apply list_elem_of_singleton in Hin. subst id.
  by vm_compute.
Defined.

(** X12 on the example world: A is the only recorded package, as Unknown,
    and its dependency C is missing.  The forced upgrade of everything
    upgrades A, installs C on the way, and ends in RuntimeError. *)
Lemma upgrade_all_new_dependency_breaks_loop_witness :
  dict_keys (installed_packages (detected Demo2.disk_unknown_a)) = ["com.demo.a"]
  /\ upgrade_files env cfg 5 pkgA (detected Demo2.disk_unknown_a)
     = (Ok (1, 1), (upgrade_files env cfg 5 pkgA (detected Demo2.disk_unknown_a)).2)
  /\ upgrade_package env cfg 5 "all" true (detected Demo2.disk_unknown_a)
     = (Raise (RuntimeError "dictionary changed size during iteration"),
        (upgrade_files env cfg 5 pkgA (detected Demo2.disk_unknown_a)).2).
Proof.
  split; [by vm_compute |]. split; [by vm_compute |].
  apply (upgrade_all_new_dependency_breaks_loop env cfg 5 true [] [] "com.demo.a" pkgA
           (detected Demo2.disk_unknown_a) (detected Demo2.disk_unknown_a)
           (upgrade_files env cfg 5 pkgA (detected Demo2.disk_unknown_a)).2
           (0, 0) (1, 1)).
  - by vm_compute.
  - by vm_compute.
  - by vm_compute.
  - reflexivity.
  - by vm_compute.
  - simpl. constructor.
Defined.

(** X13 on the example world, for the disk with X and Y. *)
Lemma detect_installed_packages_reads_only_witness :
  exists s',
    detect_installed_packages env cfg (initial_state disk_xy) = (Ok tt, s')
    /\ fs s' = fs (initial_state disk_xy)
    /\ download_cache s' = download_cache (initial_state disk_xy)
    /\ stdout s' = stdout (initial_state disk_xy)
    /\ materialized s' = materialized (initial_state disk_xy)
    /\ (forall id, id ∉ map identifier catalog ->
          recorded id s' = recorded id (initial_state disk_xy))
    /\ (forall id, is_Some (recorded id (initial_state disk_xy)) ->
          is_Some (recorded id s')).
Proof.
  apply (detect_installed_packages_reads_only env cfg catalog (initial_state disk_xy)).
  - reflexivity.
  - exact catalog_known_types.
Defined.

(** X14 on the second world: without a catalog, and with the catalog
    whose second package has the type Wheel. *)
Lemma detect_installed_packages_failures_witness :
  (exists s',
     detect_installed_packages env Demo2.cfg_none (initial_state ∅)
     = (Raise (SystemExit 1), s')
     /\ stdout s'
        = stdout (initial_state ∅)
          ++ ["No valid package definitions found. Run update command first!"]
     /\ installed_packages s' = installed_packages (initial_state ∅)
     /\ fs s' = fs (initial_state ∅))
  /\ (exists s',
        detect_installed_packages env Demo2.cfg (initial_state ∅)
        = (Raise (Exception "Unknown install type"), s')
        /\ detect_packages env Demo2.cfg [Demo2.pkgN] (initial_state ∅) = (Ok tt, s')).
Proof.
  split.
  - apply (proj1 (detect_installed_packages_failures env Demo2.cfg_none
                    (initial_state ∅))).
    reflexivity.
  - apply (proj2 (detect_installed_packages_failures env Demo2.cfg (initial_state ∅))
             [Demo2.pkgN] Demo2.pkgW [Demo2.pkgS]).
    + reflexivity.
    + constructor; [by right | constructor].
    + by intros [? | ?].
Defined.

(** X15 on the example world, for the disk with X and Y. *)
Lemma detect_installed_packages_idempotent_witness :
  exists s1,
    detect_installed_packages env cfg (initial_state disk_xy) = (Ok tt, s1)
    /\ detect_installed_packages env cfg s1 = (Ok tt, s1).
Proof.
  apply (detect_installed_packages_idempotent env cfg catalog (initial_state disk_xy)).
  - reflexivity.
  - exact catalog_known_types.
  - constructor.
Defined.

(** X16 on the example world: P is detected as Unknown on the disk where
    p.dll is the build of no release. *)
Lemma detected_unknown_on_disk_witness :
  exists r b,
    r ∈ releases pkgP
    /\ release_get "win64" r = Some b
    /\ release_present env disk_unknown_p (plugin_path cfg) b
    /\ (~ release_matches env disk_unknown_p (plugin_path cfg) b
        \/ version r = "Unknown").
Proof.
  apply (detected_unknown_on_disk env cfg disk_unknown_p catalog pkgP "win64"
           (plugin_path cfg) (detected disk_unknown_p)).
  - reflexivity.
  - exact catalog_known_types.
  - exact catalog_identifiers_distinct.
  - unfold catalog. repeat first [apply list_elem_of_here | apply list_elem_of_further].
  - reflexivity.
  - reflexivity.
  - by vm_compute.
  - by vm_compute.
Defined.

(** X17 on the example world: Q is recorded at 1.0, q1.dll is on disk and
    q2.dll is not.  The uninstall deletes q1.dll and fails on q2.dll. *)
Lemma uninstall_package_missing_file_witness :
  exists s',
    uninstall_package env cfg "com.demo.q" Demo2.q_recorded
    = (Raise (FileNotFoundError (path_join env (plugin_path cfg) "q2.dll")), s')
    /\ (forall path,
          fs s' !! path
          = if decide (path ∈ map (fun fh => path_join env (plugin_path cfg) fh.1)
                         [("q1.dll", "256:bin/q1.dll|q 1.0")])
            then None else fs Demo2.q_recorded !! path)
    /\ recorded (identifier pkgQ) s' = Some "1.0".
Proof.
  apply (uninstall_package_missing_file env cfg "com.demo.q" pkgQ "1.0"
           (plugin_path cfg) "win64" []
           (rel64 "1.0" "http://repo/q-1.0.zip" ["bin/q1.dll"; "bin/q2.dll"]
              [("q1.dll", "256:bin/q1.dll|q 1.0"); ("q2.dll", "256:bin/q2.dll|q 1.0")])
           []
           {| url := "http://repo/q-1.0.zip"; files := ["bin/q1.dll"; "bin/q2.dll"];
              hash := [("q1.dll", "256:bin/q1.dll|q 1.0");
                       ("q2.dll", "256:bin/q2.dll|q 1.0")] |}
           [("q1.dll", "256:bin/q1.dll|q 1.0")] "q2.dll" "256:bin/q2.dll|q 1.0" []
           Demo2.q_recorded).
  - reflexivity.
  - reflexivity.
  - done.
  - reflexivity.
  - reflexivity.
  - reflexivity.
  - reflexivity.
  - constructor.
  - reflexivity.
  - reflexivity.
  - apply (bool_decide_unpack _). by vm_compute.
  - constructor; [by eexists | constructor].
  - by intros [? ?].
Defined.

(** X18 on the example world: X is recorded at 1.0 and uninstalled twice. *)
Lemma uninstall_package_twice_witness :
  exists s1,
    uninstall_package env cfg "com.demo.x" (detected disk_xy) = (Ok (1, 0), s1)
    /\ uninstall_package env cfg "com.demo.x" s1
       = (Raise (FileNotFoundError (path_join env (plugin_path cfg) "x.dll")), s1).
Proof.
  apply (uninstall_package_twice env cfg "com.demo.x" pkgX "1.0" (plugin_path cfg)
           "win64"
           [rel64 "2.0" "http://repo/x-2.0.dll" ["x.dll"] [("x.dll", "256:x 2.0")]]
           (rel64 "1.0" "http://repo/x-1.0.dll" ["x.dll"] [("x.dll", "256:x 1.0")])
           []
           {| url := "http://repo/x-1.0.dll"; files := ["x.dll"];
              hash := [("x.dll", "256:x 1.0")] |}
           "x.dll" "256:x 1.0" [] (detected disk_xy)).
  - reflexivity.
  - by vm_compute.
  - done.
  - reflexivity.
  - reflexivity.
  - reflexivity.
  - reflexivity.
  - repeat constructor. by vm_compute.
  - reflexivity.
  - reflexivity.
  - apply (bool_decide_unpack _). by vm_compute.
  - apply forallb_present. by vm_compute.
Defined.

(** X19 on the example world: [vsrepo install com.demo.a] on an empty
    disk leaves the dependency C of A recorded. *)
Lemma operation_install_closure_witness :
  (operation_install env cfg 5 ["com.demo.a"] (initial_state ∅)).1 = Ok tt
  /\ is_Some (recorded "com.demo.c"
                (operation_install env cfg 5 ["com.demo.a"] (initial_state ∅)).2).
Proof.
  split; [by vm_compute |].
  apply (operation_install_closure env cfg 5 ["com.demo.a"] "com.demo.a" "com.demo.c"
           pkgC (initial_state ∅)
           (operation_install env cfg 5 ["com.demo.a"] (initial_state ∅)).2).
  - by vm_compute.
  - by left.
  - apply (requires_dep env cfg "com.demo.a" pkgA ["com.demo.c"] "com.demo.c");
      [reflexivity | reflexivity | reflexivity | by left | apply requires_self].
  - reflexivity.
  - reflexivity.
Defined.

(** X20 on the example world: P, recorded as Unknown, is listed with a
    plus. *)
Lemma print_package_status_legend_witness :
  print_package_status cfg pkgP (detected disk_unknown_p)
  = print (package_print_string "+P" "p" "Unknown" "2.0" "com.demo.p")
      (detected disk_unknown_p).
Proof.
  apply (proj1 (proj2 (print_package_status_legend cfg pkgP
           (rel64 "2.0" "http://repo/p-2.0.dll" ["p.dll"] [("p.dll", "256:p 2.0")])
           "p" (detected disk_unknown_p) eq_refl eq_refl eq_refl))).
  - by vm_compute.
  - done.
Defined.

(** X21 on the example world, for the disk with X and Y. *)
Lemma operation_installed_listing_witness :
  exists lines s',
    operation_installed env cfg (initial_state disk_xy) = (Ok tt, s')
    /\ stdout s' = listing_header :: lines
    /\ fs s' = disk_xy
    /\ Forall2 (fun line id =>
                  exists shown group latest v,
                    recorded id s' = Some v
                    /\ line = package_print_string shown group v latest id)
         lines (dict_keys (installed_packages s')).
Proof.
  apply (operation_installed_listing env cfg disk_xy catalog).
  - reflexivity.
  - exact catalog_known_types.
  - exact catalog_identifiers_distinct.
  - exact catalog_group_keys.
Defined.

(** X22 on the example world, for the disk with X and Y. *)
Lemma operation_available_listing_witness :
  exists lines s',
    operation_available env cfg (initial_state disk_xy) = (Ok tt, s')
    /\ stdout s' = listing_header :: lines
    /\ fs s' = disk_xy
    /\ Forall2 (fun line p =>
                  exists shown group latest,
                    line = package_print_string shown group
                             (default "" (recorded (identifier p) s')) latest
                             (identifier p))
         lines catalog.
Proof.
  apply (operation_available_listing env cfg disk_xy catalog).
  - reflexivity.
  - exact catalog_known_types.
  - exact catalog_identifiers_distinct.
  - exact catalog_group_keys.
Defined.

(** X23 on the example world: X is detected at 1.0, its second release. *)
Lemma detected_version_on_disk_witness :
  exists pre rel post b,
    releases pkgX = pre ++ rel :: post
    /\ version rel = "1.0"
    /\ Forall (fun r => version r <> "1.0") pre
    /\ release_get "win64" rel = Some b
    /\ release_matches env (fs (detected disk_xy)) (plugin_path cfg) b
    /\ release_present env (fs (detected disk_xy)) (plugin_path cfg) b.
Proof.
  apply (detected_version_on_disk env cfg disk_xy catalog pkgX "win64"
           (plugin_path cfg) "1.0" (detected disk_xy)).
  - reflexivity.
  - exact catalog_known_types.
  - exact catalog_identifiers_distinct.
  - unfold catalog. repeat first [apply list_elem_of_here | apply list_elem_of_further].
  - reflexivity.
  - reflexivity.
  - apply (bool_decide_unpack _). by vm_compute.
  - by vm_compute.
  - by vm_compute.
  - done.
Defined.

(** X24 on the example world: [vsrepo uninstall com.demo.x] on the disk
    with X and Y leaves the file of Y as it was. *)
Lemma operation_uninstall_only_deletes_witness :
  (operation_uninstall env cfg ["com.demo.x"] (initial_state disk_xy)).1 = Ok tt
  /\ forall path data,
       fs (operation_uninstall env cfg ["com.demo.x"] (initial_state disk_xy)).2
         !! path = Some data ->
       fs (initial_state disk_xy) !! path = Some data.
Proof.
  split; [by vm_compute |].
  apply (operation_uninstall_only_deletes env cfg ["com.demo.x"] (initial_state disk_xy)
           (operation_uninstall env cfg ["com.demo.x"] (initial_state disk_xy)).2 (Ok tt)).
  by vm_compute.
Defined.

End FurtherExamples.
